(** * SDIO data-link driver for the RP2040: a shallow embedding

    The development follows [rp2040_sdio.cpp] (checksum engines, command and
    response codec, block transfer engine) and [sd_card_sdio.cpp] (card
    initialisation).  Machine integers are [Z] with their wrap-around written
    out; RAM is a word-addressed function; every value that the C code reads
    from a peripheral (FIFO words, the millisecond clock, the DMA completion
    flag) is an explicit input of the function that reads it. *)

From Stdlib Require Import ZArith List Bool Lia.
From Stdlib Require Import Btauto.
From coqutil Require Import Z.bitblast.
Import ListNotations.
Local Open Scope Z_scope.

(** ** Machine integers *)

Definition u32 (x : Z) : Z := Z.land x (Z.ones 32).
Definition u64 (x : Z) : Z := Z.land x (Z.ones 64).

(** Counters are incremented and compared as [uint32_t]. *)
Definition wrap32 (x : Z) : Z := x mod 2 ^ 32.

(** Conversion of a [uint32_t] to [int] (two's complement, 32 bits). *)
Definition int_of_u32 (x : Z) : Z := if x <? 2 ^ 31 then x else x - 2 ^ 32.

(** Word-addressed RAM: [mem p] is the 32-bit word at [uint32_t *p]. *)
Definition memory := Z -> Z.

Definition load_words (mem : memory) (p : Z) (n : nat) : list Z :=
  map (fun k => mem (p + Z.of_nat k)) (seq 0 n).

(** [count] words of [data] written to RAM from address [addr] on (words that
    [data] lacks are taken as zero). *)
Definition store_block (mem : memory) (addr count : Z) (data : list Z) : memory :=
  fun a =>
    if (addr <=? a) && (a <? addr + count)
    then nth (Z.to_nat (a - addr)) data 0
    else mem a.

(** ** Checksum algorithms *)

Module CRC.

(** [crc7_table], 256 entries. *)
Definition crc7_table : list Z :=
  [ 0x00; 0x12; 0x24; 0x36; 0x48; 0x5a; 0x6c; 0x7e; 0x90; 0x82; 0xb4; 0xa6; 0xd8; 0xca; 0xfc; 0xee;
    0x32; 0x20; 0x16; 0x04; 0x7a; 0x68; 0x5e; 0x4c; 0xa2; 0xb0; 0x86; 0x94; 0xea; 0xf8; 0xce; 0xdc;
    0x64; 0x76; 0x40; 0x52; 0x2c; 0x3e; 0x08; 0x1a; 0xf4; 0xe6; 0xd0; 0xc2; 0xbc; 0xae; 0x98; 0x8a;
    0x56; 0x44; 0x72; 0x60; 0x1e; 0x0c; 0x3a; 0x28; 0xc6; 0xd4; 0xe2; 0xf0; 0x8e; 0x9c; 0xaa; 0xb8;
    0xc8; 0xda; 0xec; 0xfe; 0x80; 0x92; 0xa4; 0xb6; 0x58; 0x4a; 0x7c; 0x6e; 0x10; 0x02; 0x34; 0x26;
    0xfa; 0xe8; 0xde; 0xcc; 0xb2; 0xa0; 0x96; 0x84; 0x6a; 0x78; 0x4e; 0x5c; 0x22; 0x30; 0x06; 0x14;
    0xac; 0xbe; 0x88; 0x9a; 0xe4; 0xf6; 0xc0; 0xd2; 0x3c; 0x2e; 0x18; 0x0a; 0x74; 0x66; 0x50; 0x42;
    0x9e; 0x8c; 0xba; 0xa8; 0xd6; 0xc4; 0xf2; 0xe0; 0x0e; 0x1c; 0x2a; 0x38; 0x46; 0x54; 0x62; 0x70;
    0x82; 0x90; 0xa6; 0xb4; 0xca; 0xd8; 0xee; 0xfc; 0x12; 0x00; 0x36; 0x24; 0x5a; 0x48; 0x7e; 0x6c;
    0xb0; 0xa2; 0x94; 0x86; 0xf8; 0xea; 0xdc; 0xce; 0x20; 0x32; 0x04; 0x16; 0x68; 0x7a; 0x4c; 0x5e;
    0xe6; 0xf4; 0xc2; 0xd0; 0xae; 0xbc; 0x8a; 0x98; 0x76; 0x64; 0x52; 0x40; 0x3e; 0x2c; 0x1a; 0x08;
    0xd4; 0xc6; 0xf0; 0xe2; 0x9c; 0x8e; 0xb8; 0xaa; 0x44; 0x56; 0x60; 0x72; 0x0c; 0x1e; 0x28; 0x3a;
    0x4a; 0x58; 0x6e; 0x7c; 0x02; 0x10; 0x26; 0x34; 0xda; 0xc8; 0xfe; 0xec; 0x92; 0x80; 0xb6; 0xa4;
    0x78; 0x6a; 0x5c; 0x4e; 0x30; 0x22; 0x14; 0x06; 0xe8; 0xfa; 0xcc; 0xde; 0xa0; 0xb2; 0x84; 0x96;
    0x2e; 0x3c; 0x0a; 0x18; 0x66; 0x74; 0x42; 0x50; 0xbe; 0xac; 0x9a; 0x88; 0xf6; 0xe4; 0xd2; 0xc0;
    0x1c; 0x0e; 0x38; 0x2a; 0x54; 0x46; 0x70; 0x62; 0x8c; 0x9e; 0xa8; 0xba; 0xc4; 0xd6; 0xe0; 0xf2 ].

(** One table step, [crc = crc7_table[crc ^ byte]]; the index is a [uint8_t]
    expression promoted to [int], and every operand at the call sites is
    already masked to eight bits. *)
Definition crc7_step (crc byte : Z) : Z :=
  nth (Z.to_nat (Z.lxor crc byte)) crc7_table 0.

(** The usage pattern given above the table: start from zero, one step per
    byte. *)
Definition crc7 (bytes : list Z) : Z := fold_left crc7_step bytes 0.

(** [__builtin_bswap32]. *)
Definition bswap32 (x : Z) : Z :=
  Z.lor (Z.lor (Z.lor (Z.shiftl (Z.land x 0xFF) 24)
                      (Z.shiftl (Z.land (Z.shiftr x 8) 0xFF) 16))
               (Z.shiftl (Z.land (Z.shiftr x 16) 0xFF) 8))
        (Z.land (Z.shiftr x 24) 0xFF).

(** Body of the [while] loop of [sdio_crc16_4bit_checksum]: [crc] is the
    64-bit accumulator, [word] the value of [*data++]. *)
Definition crc16_4bit_step (crc word : Z) : Z :=
  let data_in := bswap32 word in
  let data_out := u32 (Z.shiftr crc 32) in
  let crc := u64 (Z.shiftl crc 32) in
  let data_out := Z.lxor data_out (Z.shiftr data_out 16) in
  let data_out := Z.lxor data_out (Z.shiftr data_in 16) in
  let xorred := Z.lxor data_out data_in in
  let crc := Z.lxor crc xorred in
  let crc := Z.lxor crc (u64 (Z.shiftl xorred (5 * 4))) in
  let crc := Z.lxor crc (u64 (Z.shiftl xorred (12 * 4))) in
  crc.

(** The loop run over the words it reads, in order. *)
Definition crc16_4bit_words (words : list Z) : Z :=
  fold_left crc16_4bit_step words 0.

(** [sdio_crc16_4bit_checksum(data, num_words)]. *)
Definition sdio_crc16_4bit_checksum (mem : memory) (data : Z) (num_words : Z) : Z :=
  crc16_4bit_words (load_words mem data (Z.to_nat num_words)).

End CRC.

(** A single-bit perturbation of RAM: bit [b] of the word at [a] is flipped. *)
Definition flip_bit (mem : memory) (a b : Z) : memory :=
  fun x => if x =? a then Z.lxor (mem x) (Z.shiftl 1 b) else mem x.

Definition zero_memory : memory := fun _ => 0.

(** The block that is zero except for bit [b] of word [i]. *)
Definition unit_word (i : nat) (b : Z) (k : nat) : Z :=
  if Nat.eqb k i then Z.shiftl 1 b else 0.

(** [c] and the accumulators reached from it by up to [n] all-zero words are
    all different from zero. *)
Fixpoint zero_run_nonzero (n : nat) (c : Z) : bool :=
  negb (c =? 0) &&
  match n with
  | O => true
  | S n' => zero_run_nonzero n' (CRC.crc16_4bit_step c 0)
  end.

(** ** Status codes *)

(** Modelled from the spec: the status type [sdio_status_t] is declared in
    [rp2040_sdio.h], which is not among the sources; its values are the ones
    the two source files name, matching the error kinds of the specification
    ([Busy], [ResponseTimeout], [ResponseCrcError], [ResponseCodeError],
    [DataTimeout], [DataCrcError]). *)
Inductive sdio_status_t : Type :=
| SDIO_OK
| SDIO_BUSY
| SDIO_ERR_RESPONSE_TIMEOUT
| SDIO_ERR_RESPONSE_CRC
| SDIO_ERR_RESPONSE_CODE
| SDIO_ERR_DATA_TIMEOUT
| SDIO_ERR_DATA_CRC.

Definition status_eqb (a b : sdio_status_t) : bool :=
  match a, b with
  | SDIO_OK, SDIO_OK
  | SDIO_BUSY, SDIO_BUSY
  | SDIO_ERR_RESPONSE_TIMEOUT, SDIO_ERR_RESPONSE_TIMEOUT
  | SDIO_ERR_RESPONSE_CRC, SDIO_ERR_RESPONSE_CRC
  | SDIO_ERR_RESPONSE_CODE, SDIO_ERR_RESPONSE_CODE
  | SDIO_ERR_DATA_TIMEOUT, SDIO_ERR_DATA_TIMEOUT
  | SDIO_ERR_DATA_CRC, SDIO_ERR_DATA_CRC => true
  | _, _ => false
  end.

(** ** Basic SDIO command execution *)

Module Cmd.
Import CRC.

(** [sdio_send_command]: the two words written to the command state
    machine's TX FIFO. *)
Definition sdio_send_command (command arg response_bits : Z) : Z * Z :=
  let word0 :=
    Z.lor (Z.lor (Z.lor (Z.lor (Z.shiftl 47 24) (Z.shiftl 1 22))
                        (Z.shiftl command 16))
                 (Z.shiftl (Z.land (Z.shiftr arg 24) 0xFF) 8))
          (Z.shiftl (Z.land (Z.shiftr arg 16) 0xFF) 0) in
  let word1 :=
    Z.lor (Z.lor (Z.shiftl (Z.land (Z.shiftr arg 8) 0xFF) 24)
                 (Z.shiftl (Z.land (Z.shiftr arg 0) 0xFF) 16))
          (Z.shiftl 1 8) in
  let word1 :=
    if response_bits =? 0 then word1
    else Z.lor word1 (Z.shiftl (response_bits - 1) 0) in
  let crc := 0 in
  let crc := crc7_step crc (Z.land (Z.shiftr word0 16) 0xFF) in
  let crc := crc7_step crc (Z.land (Z.shiftr word0 8) 0xFF) in
  let crc := crc7_step crc (Z.land (Z.shiftr word0 0) 0xFF) in
  let crc := crc7_step crc (Z.land (Z.shiftr word1 24) 0xFF) in
  let crc := crc7_step crc (Z.land (Z.shiftr word1 16) 0xFF) in
  let word1 := Z.lor word1 (Z.shiftl crc 8) in
  (word0, word1).

(** The reply of the card to one command, as the driver sees it: the words
    that reach the command state machine's RX FIFO (or, for R2, the DMA
    buffer) before the two-millisecond budget of the wait loop runs out.
    Fewer words than the loop waits for means that the loop times out. *)
Definition reply := list Z.

(** [rp2040_sdio_command_R1(command, arg, response)]; [want_response] is
    [response != NULL], and the second component of the result is the value
    stored through [response], if any. *)
Definition rp2040_sdio_command_R1
    (command arg : Z) (want_response : bool) (rxf : reply)
  : sdio_status_t * option Z :=
  let _frame := sdio_send_command command arg (if want_response then 48 else 0) in
  let wait_words := if want_response then 2%nat else 1%nat in
  if (length rxf <? wait_words)%nat then (SDIO_ERR_RESPONSE_TIMEOUT, None)
  else if want_response then
    let resp0 := nth 0 rxf 0 in
    let resp1 := nth 1 rxf 0 in
    let crc := 0 in
    let crc := crc7_step crc (Z.land (Z.shiftr resp0 24) 0xFF) in
    let crc := crc7_step crc (Z.land (Z.shiftr resp0 16) 0xFF) in
    let crc := crc7_step crc (Z.land (Z.shiftr resp0 8) 0xFF) in
    let crc := crc7_step crc (Z.land (Z.shiftr resp0 0) 0xFF) in
    let crc := crc7_step crc (Z.land (Z.shiftr resp1 8) 0xFF) in
    let actual_crc := Z.land (Z.shiftr resp1 0) 0xFE in
    if negb (crc =? actual_crc) then (SDIO_ERR_RESPONSE_CRC, None)
    else
      let response_cmd := Z.land (Z.shiftr resp0 24) 0xFF in
      if negb (response_cmd =? command) && negb (command =? 41)
      then (SDIO_ERR_RESPONSE_CODE, None)
      else
        (SDIO_OK,
         Some (u32 (Z.lor (Z.shiftl (Z.land resp0 0xFFFFFF) 8)
                          (Z.land (Z.shiftr resp1 8) 0xFF))))
  else (SDIO_OK, None).

(** [rp2040_sdio_command_R2(command, arg, response)]: five words are
    captured by DMA; the second component is the 16-byte [response] buffer,
    which is filled before the checks. *)
Definition rp2040_sdio_command_R2 (command arg : Z) (rxf : reply)
  : sdio_status_t * option (list Z) :=
  let _frame := sdio_send_command command arg 136 in
  if (length rxf <? 5)%nat then (SDIO_ERR_RESPONSE_TIMEOUT, None)
  else
    let response_buf k := nth k rxf 0 in
    let byte w s := Z.land (Z.shiftr (response_buf w) s) 0xFF in
    let response :=
      [ byte 0%nat 16; byte 0%nat 8; byte 0%nat 0;
        byte 1%nat 24; byte 1%nat 16; byte 1%nat 8; byte 1%nat 0;
        byte 2%nat 24; byte 2%nat 16; byte 2%nat 8; byte 2%nat 0;
        byte 3%nat 24; byte 3%nat 16; byte 3%nat 8; byte 3%nat 0;
        byte 4%nat 0 ] in
    let crc := fold_left crc7_step (firstn 15 response) 0 in
    let actual_crc := Z.land (nth 15 response 0) 0xFE in
    if negb (crc =? actual_crc) then (SDIO_ERR_RESPONSE_CRC, Some response)
    else
      let response_cmd := Z.land (Z.shiftr (response_buf 0%nat) 24) 0xFF in
      if negb (response_cmd =? 0x3F) then (SDIO_ERR_RESPONSE_CODE, Some response)
      else (SDIO_OK, Some response).

(** [rp2040_sdio_command_R3(command, arg, response)]: no checksum and no
    echo check. *)
Definition rp2040_sdio_command_R3 (command arg : Z) (rxf : reply)
  : sdio_status_t * option Z :=
  let _frame := sdio_send_command command arg 48 in
  if (length rxf <? 2)%nat then (SDIO_ERR_RESPONSE_TIMEOUT, None)
  else
    let resp0 := nth 0 rxf 0 in
    let resp1 := nth 1 rxf 0 in
    (SDIO_OK,
     Some (u32 (Z.lor (Z.shiftl (Z.land resp0 0xFFFFFF) 8)
                      (Z.land (Z.shiftr resp1 8) 0xFF)))).

(** The five bytes of an R1 reply that its checksum covers, in wire order. *)
Definition r1_checked_bytes (resp0 resp1 : Z) : list Z :=
  [ Z.land (Z.shiftr resp0 24) 0xFF; Z.land (Z.shiftr resp0 16) 0xFF;
    Z.land (Z.shiftr resp0 8) 0xFF; Z.land resp0 0xFF;
    Z.land (Z.shiftr resp1 8) 0xFF ].

Definition r1_payload (resp0 resp1 : Z) : Z :=
  u32 (Z.lor (Z.shiftl (Z.land resp0 0xFFFFFF) 8) (Z.land (Z.shiftr resp1 8) 0xFF)).

End Cmd.

(** ** Block transfer engine *)

Module Xfer.
Import CRC.

(** [SDIO_MAX_BLOCKS]. *)
Definition SDIO_MAX_BLOCKS : Z := 256.

Inductive sdio_transfer_state_t : Type := SDIO_IDLE | SDIO_RX | SDIO_TX.

Definition state_eqb (a b : sdio_transfer_state_t) : bool :=
  match a, b with
  | SDIO_IDLE, SDIO_IDLE | SDIO_RX, SDIO_RX | SDIO_TX, SDIO_TX => true
  | _, _ => false
  end.

(** DMA channel [SDIO_DMA_CH]: idle, or busy with a transfer of [count]
    words into RAM at [addr] ([dma_channel_transfer_to_buffer_now]) or out of
    RAM at [addr] ([dma_channel_transfer_from_buffer_now]). *)
Inductive dma_channel : Type :=
| DMA_IDLE
| DMA_TO_BUFFER (addr count : Z)
| DMA_FROM_BUFFER (addr count : Z).

Definition dma_channel_is_busy (d : dma_channel) : bool :=
  match d with DMA_IDLE => false | _ => true end.

(** Messages written with [azlog] and [azdbg]. *)
Inductive log_entry : Type :=
| LOG_RX_CHECKSUM_ERROR (calculated expected : Z)
| LOG_RX_IRQ_CRC_TIMEOUT
| LOG_TX_IRQ_FIFO_TIMEOUT
| DBG_RX_POLL_TIMEOUT
| DBG_TX_POLL_TIMEOUT.

(** The driver's globals ([g_sdio], without the PIO program offsets and
    configurations) together with the peripherals it drives: RAM, the DMA
    channel, the data state machine ([SDIO_DATA_SM]), the direction of the
    four data pins, the words written to the data state machine's TX FIFO
    (oldest first) and the log.  The array [block_checksums] is a function
    of the index; an index from [SDIO_MAX_BLOCKS] on is outside the C array. *)
Record machine : Type := {
  transfer_state : sdio_transfer_state_t;
  inside_irq_handler : bool;
  transfer_start_time : Z;
  data_buf : Z;
  blocks_done : Z;
  total_blocks : Z;
  blocks_checksumed : Z;
  checksum_errors : Z;
  block_checksums : Z -> Z;
  ram : memory;
  dma : dma_channel;
  data_sm_enabled : bool;
  data_pins_out : bool;
  data_tx_fifo : list Z;
  logged : list log_entry
}.

Definition set_transfer_state (v : sdio_transfer_state_t) (m : machine) : machine :=
  {| transfer_state := v; inside_irq_handler := inside_irq_handler m;
     transfer_start_time := transfer_start_time m; data_buf := data_buf m;
     blocks_done := blocks_done m; total_blocks := total_blocks m;
     blocks_checksumed := blocks_checksumed m; checksum_errors := checksum_errors m;
     block_checksums := block_checksums m; ram := ram m; dma := dma m;
     data_sm_enabled := data_sm_enabled m; data_pins_out := data_pins_out m;
     data_tx_fifo := data_tx_fifo m; logged := logged m |}.

Definition set_inside_irq_handler (v : bool) (m : machine) : machine :=
  {| transfer_state := transfer_state m; inside_irq_handler := v;
     transfer_start_time := transfer_start_time m; data_buf := data_buf m;
     blocks_done := blocks_done m; total_blocks := total_blocks m;
     blocks_checksumed := blocks_checksumed m; checksum_errors := checksum_errors m;
     block_checksums := block_checksums m; ram := ram m; dma := dma m;
     data_sm_enabled := data_sm_enabled m; data_pins_out := data_pins_out m;
     data_tx_fifo := data_tx_fifo m; logged := logged m |}.

Definition set_transfer_start_time (v : Z) (m : machine) : machine :=
  {| transfer_state := transfer_state m; inside_irq_handler := inside_irq_handler m;
     transfer_start_time := v; data_buf := data_buf m;
     blocks_done := blocks_done m; total_blocks := total_blocks m;
     blocks_checksumed := blocks_checksumed m; checksum_errors := checksum_errors m;
     block_checksums := block_checksums m; ram := ram m; dma := dma m;
     data_sm_enabled := data_sm_enabled m; data_pins_out := data_pins_out m;
     data_tx_fifo := data_tx_fifo m; logged := logged m |}.

Definition set_data_buf (v : Z) (m : machine) : machine :=
  {| transfer_state := transfer_state m; inside_irq_handler := inside_irq_handler m;
     transfer_start_time := transfer_start_time m; data_buf := v;
     blocks_done := blocks_done m; total_blocks := total_blocks m;
     blocks_checksumed := blocks_checksumed m; checksum_errors := checksum_errors m;
     block_checksums := block_checksums m; ram := ram m; dma := dma m;
     data_sm_enabled := data_sm_enabled m; data_pins_out := data_pins_out m;
     data_tx_fifo := data_tx_fifo m; logged := logged m |}.

Definition set_blocks_done (v : Z) (m : machine) : machine :=
  {| transfer_state := transfer_state m; inside_irq_handler := inside_irq_handler m;
     transfer_start_time := transfer_start_time m; data_buf := data_buf m;
     blocks_done := v; total_blocks := total_blocks m;
     blocks_checksumed := blocks_checksumed m; checksum_errors := checksum_errors m;
     block_checksums := block_checksums m; ram := ram m; dma := dma m;
     data_sm_enabled := data_sm_enabled m; data_pins_out := data_pins_out m;
     data_tx_fifo := data_tx_fifo m; logged := logged m |}.

Definition set_total_blocks (v : Z) (m : machine) : machine :=
  {| transfer_state := transfer_state m; inside_irq_handler := inside_irq_handler m;
     transfer_start_time := transfer_start_time m; data_buf := data_buf m;
     blocks_done := blocks_done m; total_blocks := v;
     blocks_checksumed := blocks_checksumed m; checksum_errors := checksum_errors m;
     block_checksums := block_checksums m; ram := ram m; dma := dma m;
     data_sm_enabled := data_sm_enabled m; data_pins_out := data_pins_out m;
     data_tx_fifo := data_tx_fifo m; logged := logged m |}.

Definition set_blocks_checksumed (v : Z) (m : machine) : machine :=
  {| transfer_state := transfer_state m; inside_irq_handler := inside_irq_handler m;
     transfer_start_time := transfer_start_time m; data_buf := data_buf m;
     blocks_done := blocks_done m; total_blocks := total_blocks m;
     blocks_checksumed := v; checksum_errors := checksum_errors m;
     block_checksums := block_checksums m; ram := ram m; dma := dma m;
     data_sm_enabled := data_sm_enabled m; data_pins_out := data_pins_out m;
     data_tx_fifo := data_tx_fifo m; logged := logged m |}.

Definition set_checksum_errors (v : Z) (m : machine) : machine :=
  {| transfer_state := transfer_state m; inside_irq_handler := inside_irq_handler m;
     transfer_start_time := transfer_start_time m; data_buf := data_buf m;
     blocks_done := blocks_done m; total_blocks := total_blocks m;
     blocks_checksumed := blocks_checksumed m; checksum_errors := v;
     block_checksums := block_checksums m; ram := ram m; dma := dma m;
     data_sm_enabled := data_sm_enabled m; data_pins_out := data_pins_out m;
     data_tx_fifo := data_tx_fifo m; logged := logged m |}.

Definition set_block_checksums (v : Z -> Z) (m : machine) : machine :=
  {| transfer_state := transfer_state m; inside_irq_handler := inside_irq_handler m;
     transfer_start_time := transfer_start_time m; data_buf := data_buf m;
     blocks_done := blocks_done m; total_blocks := total_blocks m;
     blocks_checksumed := blocks_checksumed m; checksum_errors := checksum_errors m;
     block_checksums := v; ram := ram m; dma := dma m;
     data_sm_enabled := data_sm_enabled m; data_pins_out := data_pins_out m;
     data_tx_fifo := data_tx_fifo m; logged := logged m |}.

Definition set_ram (v : memory) (m : machine) : machine :=
  {| transfer_state := transfer_state m; inside_irq_handler := inside_irq_handler m;
     transfer_start_time := transfer_start_time m; data_buf := data_buf m;
     blocks_done := blocks_done m; total_blocks := total_blocks m;
     blocks_checksumed := blocks_checksumed m; checksum_errors := checksum_errors m;
     block_checksums := block_checksums m; ram := v; dma := dma m;
     data_sm_enabled := data_sm_enabled m; data_pins_out := data_pins_out m;
     data_tx_fifo := data_tx_fifo m; logged := logged m |}.

Definition set_dma (v : dma_channel) (m : machine) : machine :=
  {| transfer_state := transfer_state m; inside_irq_handler := inside_irq_handler m;
     transfer_start_time := transfer_start_time m; data_buf := data_buf m;
     blocks_done := blocks_done m; total_blocks := total_blocks m;
     blocks_checksumed := blocks_checksumed m; checksum_errors := checksum_errors m;
     block_checksums := block_checksums m; ram := ram m; dma := v;
     data_sm_enabled := data_sm_enabled m; data_pins_out := data_pins_out m;
     data_tx_fifo := data_tx_fifo m; logged := logged m |}.

Definition set_data_sm_enabled (v : bool) (m : machine) : machine :=
  {| transfer_state := transfer_state m; inside_irq_handler := inside_irq_handler m;
     transfer_start_time := transfer_start_time m; data_buf := data_buf m;
     blocks_done := blocks_done m; total_blocks := total_blocks m;
     blocks_checksumed := blocks_checksumed m; checksum_errors := checksum_errors m;
     block_checksums := block_checksums m; ram := ram m; dma := dma m;
     data_sm_enabled := v; data_pins_out := data_pins_out m;
     data_tx_fifo := data_tx_fifo m; logged := logged m |}.

Definition set_data_pins_out (v : bool) (m : machine) : machine :=
  {| transfer_state := transfer_state m; inside_irq_handler := inside_irq_handler m;
     transfer_start_time := transfer_start_time m; data_buf := data_buf m;
     blocks_done := blocks_done m; total_blocks := total_blocks m;
     blocks_checksumed := blocks_checksumed m; checksum_errors := checksum_errors m;
     block_checksums := block_checksums m; ram := ram m; dma := dma m;
     data_sm_enabled := data_sm_enabled m; data_pins_out := v;
     data_tx_fifo := data_tx_fifo m; logged := logged m |}.

Definition set_data_tx_fifo (v : list Z) (m : machine) : machine :=
  {| transfer_state := transfer_state m; inside_irq_handler := inside_irq_handler m;
     transfer_start_time := transfer_start_time m; data_buf := data_buf m;
     blocks_done := blocks_done m; total_blocks := total_blocks m;
     blocks_checksumed := blocks_checksumed m; checksum_errors := checksum_errors m;
     block_checksums := block_checksums m; ram := ram m; dma := dma m;
     data_sm_enabled := data_sm_enabled m; data_pins_out := data_pins_out m;
     data_tx_fifo := v; logged := logged m |}.

Definition set_logged (v : list log_entry) (m : machine) : machine :=
  {| transfer_state := transfer_state m; inside_irq_handler := inside_irq_handler m;
     transfer_start_time := transfer_start_time m; data_buf := data_buf m;
     blocks_done := blocks_done m; total_blocks := total_blocks m;
     blocks_checksumed := blocks_checksumed m; checksum_errors := checksum_errors m;
     block_checksums := block_checksums m; ram := ram m; dma := dma m;
     data_sm_enabled := data_sm_enabled m; data_pins_out := data_pins_out m;
     data_tx_fifo := data_tx_fifo m; logged := v |}.

Definition azlog (e : log_entry) (m : machine) : machine :=
  set_logged (logged m ++ [e]) m.

Definition pio_sm_put (w : Z) (m : machine) : machine :=
  set_data_tx_fifo (data_tx_fifo m ++ [w]) m.

(** Array store [block_checksums[i] = v]. *)
Definition store_checksum (i v : Z) (t : Z -> Z) : Z -> Z :=
  fun j => if j =? i then v else t j.

(** What a completion handler reads from the data state machine: whether its
    bounded wait loop ran out, and the two words returned by [pio_sm_get]. *)
Record handler_env : Type := {
  he_wait_timeout : bool;
  he_crc0 : Z;
  he_crc1 : Z
}.

(** What one call of a poll function reads from the hardware:
    [dma_hw->ints0 & (1 << SDIO_DMA_CH)], the inputs of the completion
    handler in case it is dispatched, and [millis()]. *)
Record poll_env : Type := {
  pe_ints0 : bool;
  pe_handler : handler_env;
  pe_millis : Z
}.

(** *** Data reception from SD card *)

(** The condition asserted on entry of [sdio_start_next_block_rx].
    Assertions are kept as predicates of their own: the functions are
    modelled as they run when assertions are compiled out. *)
Definition sdio_start_next_block_rx_assert (m : machine) : bool :=
  blocks_done m <? total_blocks m.

Definition sdio_start_next_block_rx (m : machine) : machine :=
  let m := set_data_sm_enabled false m in
  let m := set_dma (DMA_TO_BUFFER (data_buf m + 128 * blocks_done m) 128) m in
  set_data_sm_enabled true m.

(** Body of the loop of [sdio_verify_rx_checksums]. *)
Definition sdio_verify_rx_block (m : machine) : machine :=
  let blockidx := int_of_u32 (blocks_checksumed m) in
  let m := set_blocks_checksumed (wrap32 (blocks_checksumed m + 1)) m in
  let checksum := sdio_crc16_4bit_checksum (ram m) (data_buf m + blockidx * 128) 128 in
  let expected := block_checksums m blockidx in
  if negb (checksum =? expected) then
    let m := set_checksum_errors (wrap32 (checksum_errors m + 1)) m in
    if checksum_errors m =? 1
    then azlog (LOG_RX_CHECKSUM_ERROR checksum expected) m
    else m
  else m.

(** [sdio_verify_rx_checksums(maxcount)]; [maxcount] is only decremented
    when the first operand of [&&] holds. *)
Fixpoint sdio_verify_rx_checksums (maxcount : nat) (m : machine) : machine :=
  if blocks_checksumed m <? blocks_done m then
    match maxcount with
    | O => m
    | S maxcount' => sdio_verify_rx_checksums maxcount' (sdio_verify_rx_block m)
    end
  else m.

(** [rp2040_sdio_rx_irq]; its first statement acknowledges the interrupt
    ([dma_hw->ints1 = 1 << SDIO_DMA_CH]) and changes nothing of this
    machine: the completion flag is kept beside the machine, in
    [Events.hw]. *)
Definition rp2040_sdio_rx_irq (env : handler_env) (m : machine) : machine :=
  let m := if he_wait_timeout env then azlog LOG_RX_IRQ_CRC_TIMEOUT m else m in
  let crc0 := u32 (he_crc0 env) in
  let crc1 := u32 (he_crc1 env) in
  let m := set_block_checksums
             (store_checksum (blocks_done m) (Z.lor (Z.shiftl crc0 32) crc1)
                             (block_checksums m)) m in
  let m := set_blocks_done (wrap32 (blocks_done m + 1)) m in
  if blocks_done m <? total_blocks m
  then sdio_start_next_block_rx m
  else set_transfer_state SDIO_IDLE m.

(** The condition asserted on entry of [rp2040_sdio_rx_start] and of
    [rp2040_sdio_tx_start]; RAM is word-addressed here, so the alignment half
    of the assertion holds by construction. *)
Definition start_assert (num_blocks : Z) : bool := num_blocks <=? SDIO_MAX_BLOCKS.

(** [rp2040_sdio_rx_start(buffer, num_blocks)]; [buffer] is the address of
    the buffer in words, [now] is [millis()] and [vectactive] is
    [SCB->ICSR & SCB_ICSR_VECTACTIVE_Msk].  [pio_sm_init] leaves the state
    machine disabled; the DMA channel is configured without being
    triggered. *)
Definition rp2040_sdio_rx_start
    (buffer num_blocks now : Z) (vectactive : bool) (m : machine)
  : sdio_status_t * machine :=
  let m := set_transfer_state SDIO_RX m in
  let m := set_transfer_start_time now m in
  let m := set_data_buf buffer m in
  let m := set_blocks_done 0 m in
  let m := set_total_blocks num_blocks m in
  let m := set_blocks_checksumed 0 m in
  let m := set_checksum_errors 0 m in
  let m := set_inside_irq_handler vectactive m in
  let m := set_data_sm_enabled false m in
  let m := set_data_pins_out false m in
  let m := sdio_start_next_block_rx m in
  (SDIO_OK, m).

(** [rp2040_sdio_stop]. *)
Definition rp2040_sdio_stop (m : machine) : sdio_status_t * machine :=
  let m := set_dma DMA_IDLE m in
  let m := set_data_sm_enabled false m in
  let m := set_data_pins_out false m in
  let m := set_transfer_state SDIO_IDLE m in
  (SDIO_OK, m).

(** The result of a poll: the status, the value stored through
    [bytes_complete] (if the pointer is not null) and the machine. *)
Definition poll_result : Type := sdio_status_t * option Z * machine.

Definition pr_status (r : poll_result) : sdio_status_t := fst (fst r).
Definition pr_bytes (r : poll_result) : option Z := snd (fst r).
Definition pr_machine (r : poll_result) : machine := snd r.

(** The first statement of [rp2040_sdio_rx_poll]: in a session armed from
    inside a handler, a set completion flag makes the poll run the completion
    handler itself. *)
Definition rx_poll_dispatch (env : poll_env) (m : machine) : machine :=
  if inside_irq_handler m && pe_ints0 env
  then rp2040_sdio_rx_irq (pe_handler env) m else m.

(** The rest of [rp2040_sdio_rx_poll]. *)
Definition rx_poll_finish (env : poll_env) (want_bytes : bool) (m : machine)
  : poll_result :=
  let bytes_complete :=
    if want_bytes then Some (wrap32 (blocks_done m * 512)) else None in
  if state_eqb (transfer_state m) SDIO_IDLE then
    let m := sdio_verify_rx_checksums (Z.to_nat (total_blocks m)) m in
    if checksum_errors m =? 0
    then (SDIO_OK, bytes_complete, m)
    else (SDIO_ERR_DATA_CRC, bytes_complete, m)
  else if wrap32 (pe_millis env - transfer_start_time m) >? 1000 then
    let m := azlog DBG_RX_POLL_TIMEOUT m in
    let m := snd (rp2040_sdio_stop m) in
    (SDIO_ERR_DATA_TIMEOUT, bytes_complete, m)
  else
    let m := sdio_verify_rx_checksums 1 m in
    (SDIO_BUSY, bytes_complete, m).

Definition rp2040_sdio_rx_poll (env : poll_env) (want_bytes : bool) (m : machine)
  : poll_result :=
  rx_poll_finish env want_bytes (rx_poll_dispatch env m).

(** *** Data transmission to SD card *)

(** The condition asserted on entry of [sdio_start_next_block_tx]. *)
Definition sdio_start_next_block_tx_assert (m : machine) : bool :=
  (blocks_done m <? total_blocks m) && (blocks_checksumed m >? blocks_done m).

Definition sdio_start_next_block_tx (m : machine) : machine :=
  set_dma (DMA_FROM_BUFFER (data_buf m + 128 * blocks_done m) 128) m.

(** Body of the loop of [sdio_compute_tx_checksums]. *)
Definition sdio_compute_tx_block (m : machine) : machine :=
  let blockidx := int_of_u32 (blocks_checksumed m) in
  let m := set_blocks_checksumed (wrap32 (blocks_checksumed m + 1)) m in
  set_block_checksums
    (store_checksum blockidx
       (sdio_crc16_4bit_checksum (ram m) (data_buf m + blockidx * 128) 128)
       (block_checksums m)) m.

Fixpoint sdio_compute_tx_checksums (maxcount : nat) (m : machine) : machine :=
  if blocks_checksumed m <? blocks_done m then
    match maxcount with
    | O => m
    | S maxcount' => sdio_compute_tx_checksums maxcount' (sdio_compute_tx_block m)
    end
  else m.

Definition rp2040_sdio_tx_irq (env : handler_env) (m : machine) : machine :=
  let m := if he_wait_timeout env then azlog LOG_TX_IRQ_FIFO_TIMEOUT m else m in
  let crc := block_checksums m (blocks_done m) in
  let m := pio_sm_put (u32 (Z.shiftr crc 32)) m in
  let m := pio_sm_put (u32 (Z.shiftr crc 0)) m in
  let m := pio_sm_put 0xFFFFFFFF m in
  let m := set_blocks_done (wrap32 (blocks_done m + 1)) m in
  if blocks_done m <? total_blocks m
  then sdio_start_next_block_tx m
  else set_transfer_state SDIO_IDLE m.

(** [rp2040_sdio_tx_start(buffer, num_blocks)], with the same inputs as
    [rp2040_sdio_rx_start]. *)
Definition rp2040_sdio_tx_start
    (buffer num_blocks now : Z) (vectactive : bool) (m : machine)
  : sdio_status_t * machine :=
  let m := set_transfer_state SDIO_TX m in
  let m := set_transfer_start_time now m in
  let m := set_data_buf buffer m in
  let m := set_blocks_done 0 m in
  let m := set_total_blocks num_blocks m in
  let m := set_blocks_checksumed 0 m in
  let m := set_checksum_errors 0 m in
  let m := set_inside_irq_handler vectactive m in
  let m := sdio_compute_tx_checksums 1 m in
  let m := set_data_sm_enabled false m in
  let m := set_data_pins_out true m in
  let m := sdio_start_next_block_tx m in
  let m := set_data_sm_enabled true m in
  let m := sdio_compute_tx_checksums (Z.to_nat (total_blocks m)) m in
  (SDIO_OK, m).

(** The first statement of [rp2040_sdio_tx_poll]. *)
Definition tx_poll_dispatch (env : poll_env) (m : machine) : machine :=
  if inside_irq_handler m && pe_ints0 env
  then rp2040_sdio_tx_irq (pe_handler env) m else m.

(** The rest of [rp2040_sdio_tx_poll]. *)
Definition tx_poll_finish (env : poll_env) (want_bytes : bool) (m : machine)
  : poll_result :=
  let bytes_complete :=
    if want_bytes then Some (wrap32 (blocks_done m * 512)) else None in
  if state_eqb (transfer_state m) SDIO_IDLE then
    let m := set_data_sm_enabled false m in
    let m := set_data_pins_out false m in
    (SDIO_OK, bytes_complete, m)
  else if wrap32 (pe_millis env - transfer_start_time m) >? 1000 then
    let m := azlog DBG_TX_POLL_TIMEOUT m in
    let m := snd (rp2040_sdio_stop m) in
    (SDIO_ERR_DATA_TIMEOUT, bytes_complete, m)
  else (SDIO_BUSY, bytes_complete, m).

Definition rp2040_sdio_tx_poll (env : poll_env) (want_bytes : bool) (m : machine)
  : poll_result :=
  tx_poll_finish env want_bytes (tx_poll_dispatch env m).

(** The two poll functions, by direction of the session. *)
Inductive direction : Type := DIR_RX | DIR_TX.

Definition poll (d : direction) : poll_env -> bool -> machine -> poll_result :=
  match d with
  | DIR_RX => rp2040_sdio_rx_poll
  | DIR_TX => rp2040_sdio_tx_poll
  end.

Definition poll_dispatch (d : direction) : poll_env -> machine -> machine :=
  match d with
  | DIR_RX => rx_poll_dispatch
  | DIR_TX => tx_poll_dispatch
  end.

Definition poll_timeout_message (d : direction) : log_entry :=
  match d with
  | DIR_RX => DBG_RX_POLL_TIMEOUT
  | DIR_TX => DBG_TX_POLL_TIMEOUT
  end.

(** [rp2040_sdio_dma_irq], the handler of [DMA_IRQ_1]; it acknowledges the
    interrupt first, as [rp2040_sdio_rx_irq] does. *)
Definition rp2040_sdio_dma_irq (env : handler_env) (m : machine) : machine :=
  match transfer_state m with
  | SDIO_TX => rp2040_sdio_tx_irq env m
  | SDIO_RX => rp2040_sdio_rx_irq env m
  | SDIO_IDLE => m
  end.

(** The part of [rp2040_sdio_init] that touches the modelled state:
    [memset(&g_sdio, 0, sizeof(g_sdio))]. *)
Definition rp2040_sdio_init (m : machine) : machine :=
  {| transfer_state := SDIO_IDLE; inside_irq_handler := false;
     transfer_start_time := 0; data_buf := 0;
     blocks_done := 0; total_blocks := 0;
     blocks_checksumed := 0; checksum_errors := 0;
     block_checksums := fun _ => 0; ram := ram m; dma := dma m;
     data_sm_enabled := data_sm_enabled m; data_pins_out := data_pins_out m;
     data_tx_fifo := data_tx_fifo m; logged := logged m |}.

End Xfer.

(** ** Sessions: the driver together with the DMA engine *)

Module Session.
Import CRC Xfer.

(** The DMA engine finishes the transfer it is busy with.  Both start
    functions configure the channel with [channel_config_set_bswap(.., true)],
    so every word is byte-swapped on its way: a transfer to RAM has written
    the words [data] that the data state machine received from the card, a
    transfer from RAM has pushed the words of the block into the data state
    machine's TX FIFO. *)
Definition dma_complete (data : list Z) (m : machine) : machine :=
  match dma m with
  | DMA_IDLE => m
  | DMA_TO_BUFFER addr count =>
      set_dma DMA_IDLE
        (set_ram (store_block (ram m) addr count (map bswap32 data)) m)
  | DMA_FROM_BUFFER addr count =>
      set_dma DMA_IDLE
        (set_data_tx_fifo
           (data_tx_fifo m ++ map bswap32 (load_words (ram m) addr (Z.to_nat count))) m)
  end.

(** One step of a session's timeline, as seen from the poll loop of the
    caller: what the hardware did since the previous poll ([t_block] is the
    data of the block whose DMA transfer finished, if one did), what the
    completion handler will read, and the clock at the poll. *)
Record tick : Type := {
  t_block : option (list Z);
  t_handler : handler_env;
  t_millis : Z
}.

(** A transfer can only finish on a busy channel. *)
Definition dma_fires (t : tick) (m : machine) : bool :=
  match t_block t with
  | Some _ => dma_channel_is_busy (dma m)
  | None => false
  end.

Definition dma_progress (t : tick) (m : machine) : machine :=
  match t_block t with
  | Some data => dma_complete data m
  | None => m
  end.

(** The completion raises [DMA_IRQ_1], which runs [rp2040_sdio_dma_irq],
    unless the session was armed inside a handler, where the interrupt
    cannot be taken. *)
Definition irq_delivery (fired : bool) (t : tick) (m : machine) : machine :=
  if fired && negb (inside_irq_handler m)
  then rp2040_sdio_dma_irq (t_handler t) m else m.

(** What the poll of a tick reads: the completion flag is read as set
    exactly if a transfer finished in this tick.  [Events] keeps the flag as
    a latch instead and lets any number of transfers finish between two
    polls. *)
Definition tick_env (fired : bool) (t : tick) : poll_env :=
  {| pe_ints0 := fired; pe_handler := t_handler t; pe_millis := t_millis t |}.

(** The machine once the completion handler has run for the block (if any)
    that the DMA engine finished in this tick, whoever invoked it. *)
Definition rx_handled (t : tick) (m : machine) : machine :=
  if dma_fires t m
  then rp2040_sdio_rx_irq (t_handler t) (dma_progress t m)
  else m.

Definition tx_handled (t : tick) (m : machine) : machine :=
  if dma_fires t m
  then rp2040_sdio_tx_irq (t_handler t) (dma_progress t m)
  else m.

(** Hardware progress, then the interrupt if it can be taken, then the poll
    of the caller (which always passes a [bytes_complete] pointer). *)
Definition rx_tick (t : tick) (m : machine) : poll_result :=
  let fired := dma_fires t m in
  let m := dma_progress t m in
  let m := irq_delivery fired t m in
  rp2040_sdio_rx_poll (tick_env fired t) true m.

Definition tx_tick (t : tick) (m : machine) : poll_result :=
  let fired := dma_fires t m in
  let m := dma_progress t m in
  let m := irq_delivery fired t m in
  rp2040_sdio_tx_poll (tick_env fired t) true m.

(** A poll function called once per tick of a timeline; the results of all
    polls are collected, oldest first. *)
Fixpoint run (step : tick -> machine -> poll_result) (ts : list tick) (m : machine)
  : list (sdio_status_t * option Z) * machine :=
  match ts with
  | [] => ([], m)
  | t :: ts' =>
      let '(st, bytes, m1) := step t m in
      let '(out, m2) := run step ts' m1 in
      ((st, bytes) :: out, m2)
  end.

Definition rx_run := run rx_tick.
Definition tx_run := run tx_tick.

(** A poll result with the session's mode flag replaced. *)
Definition with_flag (v : bool) (r : poll_result) : poll_result :=
  (pr_status r, pr_bytes r, set_inside_irq_handler v (pr_machine r)).

(** Block [i] of the buffer agrees with the checksum recorded for it. *)
Definition block_ok (m : machine) (i : Z) : bool :=
  sdio_crc16_4bit_checksum (ram m) (data_buf m + i * 128) 128 =? block_checksums m i.

(** Number of blocks below [k] that disagree with their recorded checksum. *)
Definition mismatches (m : machine) (k : nat) : Z :=
  Z.of_nat (length (filter (fun i => negb (block_ok m (Z.of_nat i))) (seq 0 k))).

Definition is_checksum_log (e : log_entry) : bool :=
  match e with LOG_RX_CHECKSUM_ERROR _ _ => true | _ => false end.

Definition checksum_logs (m : machine) : nat :=
  length (filter is_checksum_log (logged m)).

(** Milliseconds elapsed since the session was armed, as the polls compute
    them. *)
Definition elapsed (t : tick) (m : machine) : Z :=
  wrap32 (t_millis t - transfer_start_time m).


(** [m'] is [m] except for the progress of checksum verification (the
    count of verified blocks, the error counter and the log). *)
Definition only_verification_changed (m m' : machine) : Prop :=
  m' = set_logged (logged m')
         (set_checksum_errors (checksum_errors m')
            (set_blocks_checksumed (blocks_checksumed m') m)).

(** The facts that hold between the polls of a receive session of [n]
    blocks whose log held [base] checksum messages when it was armed. *)
Record rx_inv (n : Z) (base : nat) (m : machine) : Prop := {
  ri_total : total_blocks m = n;
  ri_checksumed : 0 <= blocks_checksumed m <= blocks_done m;
  ri_done : blocks_done m <= n;
  ri_max : n <= SDIO_MAX_BLOCKS;
  ri_state : transfer_state m = SDIO_RX \/ transfer_state m = SDIO_IDLE;
  ri_rx : transfer_state m = SDIO_RX ->
          blocks_done m < n /\
          dma m = DMA_TO_BUFFER (data_buf m + 128 * blocks_done m) 128;
  ri_idle : transfer_state m = SDIO_IDLE -> dma m = DMA_IDLE;
  ri_errors : checksum_errors m = mismatches m (Z.to_nat (blocks_checksumed m));
  ri_logs : checksum_logs m =
            (base + if (checksum_errors m =? 0)%Z then 0 else 1)%nat
}.

(** The same for a transmit session. *)
Record tx_inv (n : Z) (m : machine) : Prop := {
  ti_total : total_blocks m = n;
  ti_done : 0 <= blocks_done m <= n;
  ti_max : n <= SDIO_MAX_BLOCKS;
  ti_state : transfer_state m = SDIO_TX \/ transfer_state m = SDIO_IDLE;
  ti_tx : transfer_state m = SDIO_TX ->
          blocks_done m < n /\
          dma m = DMA_FROM_BUFFER (data_buf m + 128 * blocks_done m) 128;
  ti_idle : transfer_state m = SDIO_IDLE -> dma m = DMA_IDLE
}.


(** A machine as [rp2040_sdio_init] leaves it, with all-zero RAM, idle
    peripherals and an empty log. *)
Definition blank_machine : machine :=
  {| transfer_state := SDIO_IDLE; inside_irq_handler := false;
     transfer_start_time := 0; data_buf := 0;
     blocks_done := 0; total_blocks := 0;
     blocks_checksumed := 0; checksum_errors := 0;
     block_checksums := fun _ => 0; ram := zero_memory; dma := DMA_IDLE;
     data_sm_enabled := false; data_pins_out := false;
     data_tx_fifo := []; logged := [] |}.

(** RAM that is zero except for the lowest bit of the word at address 0. *)
Definition one_bit_memory : memory := fun a => if a =? 0 then 1 else 0.

Definition no_wait : handler_env :=
  {| he_wait_timeout := false; he_crc0 := 0; he_crc1 := 0 |}.

(** A poll at time [now] before which nothing finished, and one before
    which the DMA engine finished an all-zero block with checksum words
    [crc0] and [crc1]. *)
Definition quiet_tick (now : Z) : tick :=
  {| t_block := None; t_handler := no_wait; t_millis := now |}.

Definition block_tick (data : list Z) (crc0 crc1 now : Z) : tick :=
  {| t_block := Some data;
     t_handler := {| he_wait_timeout := false; he_crc0 := crc0; he_crc1 := crc1 |};
     t_millis := now |}.


(** Sessions of [n] blocks over the buffer at address 0, armed at time 0 on
    the blank machine. *)
Definition rx_armed (n : Z) (vectactive : bool) : machine :=
  snd (rp2040_sdio_rx_start 0 n 0 vectactive blank_machine).

Definition tx_armed (n : Z) (vectactive : bool) : machine :=
  snd (rp2040_sdio_tx_start 0 n 0 vectactive blank_machine).

End Session.

(** ** Card initialisation ([sd_card_sdio.cpp]) *)

Module Card.
Import Cmd.

(** Command indices of SdFat's [SdCardInfo.h], an external library. *)
Definition CMD0 : Z := 0.
Definition CMD2 : Z := 2.
Definition CMD3 : Z := 3.
Definition CMD7 : Z := 7.
Definition CMD8 : Z := 8.
Definition CMD55 : Z := 55.
Definition ACMD6 : Z := 6.
Definition ACMD41 : Z := 41.

(** The world outside the driver: the reply of the card to the [i]-th
    command sent since power-up, and the value of the [i]-th reading of
    [millis()] made by [SdioCard::begin]. *)
Record card_env : Type := {
  ce_reply : nat -> reply;
  ce_millis : nat -> Z
}.

(** The file-level variables of [sd_card_sdio.cpp] that [begin] writes, with
    the number of commands sent and of clock readings made so far. *)
Record driver : Type := {
  commands_sent : nat;
  clock_reads : nat;
  g_sdio_ocr : Z;
  g_sdio_rca : Z;
  g_sdio_cid : list Z;
  g_sdio_error : sdio_status_t
}.

(** State monad over [driver]. *)
Definition M (A : Type) : Type := driver -> A * driver.

Definition ret {A : Type} (a : A) : M A := fun s => (a, s).

Definition bind {A B : Type} (c : M A) (k : A -> M B) : M B :=
  fun s => let (a, s') := c s in k a s'.

Notation "x <- c ;; k" := (bind c (fun x => k))
  (at level 61, c at next level, right associativity).

Definition next_reply (e : card_env) : M reply :=
  fun s =>
    (ce_reply e (commands_sent s),
     {| commands_sent := S (commands_sent s); clock_reads := clock_reads s;
        g_sdio_ocr := g_sdio_ocr s; g_sdio_rca := g_sdio_rca s;
        g_sdio_cid := g_sdio_cid s; g_sdio_error := g_sdio_error s |}).

Definition millis (e : card_env) : M Z :=
  fun s =>
    (ce_millis e (clock_reads s),
     {| commands_sent := commands_sent s; clock_reads := S (clock_reads s);
        g_sdio_ocr := g_sdio_ocr s; g_sdio_rca := g_sdio_rca s;
        g_sdio_cid := g_sdio_cid s; g_sdio_error := g_sdio_error s |}).

Definition set_ocr (v : Z) : M unit :=
  fun s =>
    (tt, {| commands_sent := commands_sent s; clock_reads := clock_reads s;
            g_sdio_ocr := v; g_sdio_rca := g_sdio_rca s;
            g_sdio_cid := g_sdio_cid s; g_sdio_error := g_sdio_error s |}).

Definition set_rca (v : Z) : M unit :=
  fun s =>
    (tt, {| commands_sent := commands_sent s; clock_reads := clock_reads s;
            g_sdio_ocr := g_sdio_ocr s; g_sdio_rca := v;
            g_sdio_cid := g_sdio_cid s; g_sdio_error := g_sdio_error s |}).

Definition set_cid (v : list Z) : M unit :=
  fun s =>
    (tt, {| commands_sent := commands_sent s; clock_reads := clock_reads s;
            g_sdio_ocr := g_sdio_ocr s; g_sdio_rca := g_sdio_rca s;
            g_sdio_cid := v; g_sdio_error := g_sdio_error s |}).

Definition set_error (v : sdio_status_t) : M unit :=
  fun s =>
    (tt, {| commands_sent := commands_sent s; clock_reads := clock_reads s;
            g_sdio_ocr := g_sdio_ocr s; g_sdio_rca := g_sdio_rca s;
            g_sdio_cid := g_sdio_cid s; g_sdio_error := v |}).

Definition get_ocr : M Z := fun s => (g_sdio_ocr s, s).
Definition get_rca : M Z := fun s => (g_sdio_rca s, s).

(** The three command functions, fed with the card's next reply. *)
Definition command_R1 (e : card_env) (command arg : Z) (want_response : bool)
  : M (sdio_status_t * option Z) :=
  rxf <- next_reply e ;; ret (rp2040_sdio_command_R1 command arg want_response rxf).

Definition command_R2 (e : card_env) (command arg : Z)
  : M (sdio_status_t * option (list Z)) :=
  rxf <- next_reply e ;; ret (rp2040_sdio_command_R2 command arg rxf).

Definition command_R3 (e : card_env) (command arg : Z)
  : M (sdio_status_t * option Z) :=
  rxf <- next_reply e ;; ret (rp2040_sdio_command_R3 command arg rxf).

(** [checkReturnOk(call)]: records the status in [g_sdio_error] and tells
    whether it is [SDIO_OK]. *)
Definition checkReturnOk (status : sdio_status_t) : M bool :=
  _ <- set_error status ;; ret (status_eqb status SDIO_OK).

(** The [for] loop of [begin]; [remaining] is [5 - retries], and [reply]
    and [status] are the local variables of [begin]. *)
Fixpoint connect_loop (e : card_env) (remaining : nat) (reply : Z) (status : sdio_status_t)
  : M (Z * sdio_status_t) :=
  match remaining with
  | O => ret (reply, status)
  | S remaining' =>
      _ <- command_R1 e CMD0 0 false ;;
      r <- command_R1 e CMD8 0x1AA true ;;
      let status := fst r in
      let reply := match snd r with Some v => v | None => 0 end in
      if status_eqb status SDIO_OK && (reply =? 0x1AA)
      then ret (reply, status)
      else connect_loop e remaining' reply status
  end.

(** The [do ... while] loop of [begin]; [None] means that the loop is still
    running when [fuel] iterations have been made. *)
Fixpoint acmd41_loop (e : card_env) (fuel : nat) (start : Z) : M (option bool) :=
  match fuel with
  | O => ret None
  | S fuel' =>
      r55 <- command_R1 e CMD55 0 true ;;
      ok55 <- checkReturnOk (fst r55) ;;
      if negb ok55 then ret (Some false)
      else
        r41 <- command_R3 e ACMD41 0xD0040000 ;;
        _ <- match snd r41 with Some v => set_ocr v | None => ret tt end ;;
        ok41 <- checkReturnOk (fst r41) ;;
        if negb ok41 then ret (Some false)
        else
          now <- millis e ;;
          if wrap32 (now - start) >? 1000 then ret (Some false)
          else
            ocr <- get_ocr ;;
            if negb (Z.land ocr (Z.shiftl 1 31) =? 0)
            then ret (Some true)
            else acmd41_loop e fuel' start
  end.

(** The commands after the loop: CMD2, CMD3, CMD7, CMD55 and ACMD6. *)
Definition select_card (e : card_env) : M bool :=
  r2 <- command_R2 e CMD2 0 ;;
  _ <- match snd r2 with Some v => set_cid v | None => ret tt end ;;
  ok2 <- checkReturnOk (fst r2) ;;
  if negb ok2 then ret false
  else
    r3 <- command_R1 e CMD3 0 true ;;
    _ <- match snd r3 with Some v => set_rca v | None => ret tt end ;;
    ok3 <- checkReturnOk (fst r3) ;;
    if negb ok3 then ret false
    else
      rca <- get_rca ;;
      r7 <- command_R1 e CMD7 rca true ;;
      ok7 <- checkReturnOk (fst r7) ;;
      if negb ok7 then ret false
      else
        rca <- get_rca ;;
        r55 <- command_R1 e CMD55 rca true ;;
        ok55 <- checkReturnOk (fst r55) ;;
        if negb ok55 then ret false
        else
          r6 <- command_R1 e ACMD6 2 true ;;
          ok6 <- checkReturnOk (fst r6) ;;
          if negb ok6 then ret false else ret true.

(** [SdioCard::begin]; the result is [None] if the ACMD41 loop is still
    running after [fuel] iterations.  [rp2040_sdio_init] and the delays do not
    touch the variables of this file; [status] is uninitialised in C before the
    first of the five rounds assigns it, here it starts as [SDIO_OK]. *)
Definition begin (e : card_env) (fuel : nat) : M (option bool) :=
  r <- connect_loop e 5 0 SDIO_OK ;;
  let reply := fst r in
  let status := snd r in
  if negb (reply =? 0x1AA) || negb (status_eqb status SDIO_OK)
  then ret (Some false)
  else
    start <- millis e ;;
    done <- acmd41_loop e fuel start ;;
    match done with
    | None => ret None
    | Some false => ret (Some false)
    | Some true =>
        ok <- select_card e ;;
        ret (Some ok)
    end.

(** *** What the card's replies amount to *)

(** The reply [rxf] makes CMD8 succeed with the check pattern echoed. *)
Definition cmd8_accepts (rxf : reply) : bool :=
  let r := rp2040_sdio_command_R1 CMD8 0x1AA true rxf in
  status_eqb (fst r) SDIO_OK &&
  (match snd r with Some v => v | None => 0 end =? 0x1AA).

Definition r1_ok (command : Z) (rxf : reply) : bool :=
  status_eqb (fst (rp2040_sdio_command_R1 command 0 true rxf)) SDIO_OK.

Definition r2_ok (command : Z) (rxf : reply) : bool :=
  status_eqb (fst (rp2040_sdio_command_R2 command 0 rxf)) SDIO_OK.

Definition r3_ok (rxf : reply) : bool :=
  status_eqb (fst (rp2040_sdio_command_R3 ACMD41 0xD0040000 rxf)) SDIO_OK.

Definition r3_ocr (rxf : reply) : Z :=
  match snd (rp2040_sdio_command_R3 ACMD41 0xD0040000 rxf) with
  | Some v => v
  | None => 0
  end.

(** [n] more commands sent. *)
Definition sent (n : nat) (s : driver) : driver :=
  {| commands_sent := n + commands_sent s; clock_reads := clock_reads s;
     g_sdio_ocr := g_sdio_ocr s; g_sdio_rca := g_sdio_rca s;
     g_sdio_cid := g_sdio_cid s; g_sdio_error := g_sdio_error s |}.

(** One round of the ACMD41 loop, with CMD55 sent as command number [c] and
    the clock read as reading number [k]: a command failed or the budget of
    1000 ms since [start] is spent; or the card reports completion in OCR
    bit 31; or the loop goes round again. *)
Inductive round_outcome : Type := ROUND_FAILED | ROUND_DONE | ROUND_AGAIN.

Definition acmd41_round (e : card_env) (start : Z) (c k : nat) : round_outcome :=
  if negb (r1_ok CMD55 (ce_reply e c)) then ROUND_FAILED
  else if negb (r3_ok (ce_reply e (S c))) then ROUND_FAILED
  else if wrap32 (ce_millis e k - start) >? 1000 then ROUND_FAILED
  else if Z.testbit (r3_ocr (ce_reply e (S c))) 31 then ROUND_DONE
  else ROUND_AGAIN.

(** The five commands after the loop all succeed, CMD2 being command number
    [c]. *)
Definition select_card_ok (e : card_env) (c : nat) : bool :=
  r2_ok CMD2 (ce_reply e c) &&
  r1_ok CMD3 (ce_reply e (1 + c)) &&
  r1_ok CMD7 (ce_reply e (2 + c)) &&
  r1_ok CMD55 (ce_reply e (3 + c)) &&
  r1_ok ACMD6 (ce_reply e (4 + c)).


(** *** Sample cards *)

(** A well-formed R1 reply to [command] carrying [payload]: the echoed
    index, the payload, the CRC7 of these five bytes and the end bit. *)
Definition r1_reply (command payload : Z) : reply :=
  let resp0 := Z.lor (Z.shiftl command 24) (Z.shiftr payload 8) in
  let low := Z.shiftl (Z.land payload 0xFF) 8 in
  [resp0; Z.lor low (Z.lor (CRC.crc7 (r1_checked_bytes resp0 low)) 1)].

(** An R3 reply carrying [ocr]. *)
Definition r3_reply (ocr : Z) : reply :=
  [Z.lor (Z.shiftl 0x3F 24) (Z.shiftr ocr 8);
   Z.lor (Z.shiftl (Z.land ocr 0xFF) 8) 0xFF].

(** An R2 reply carrying an all-zero register. *)
Definition r2_zero_reply : reply := [0x3F000000; 0; 0; 0; 0x01].

Definition power_on : driver :=
  {| commands_sent := 0; clock_reads := 0; g_sdio_ocr := 0; g_sdio_rca := 0;
     g_sdio_cid := []; g_sdio_error := SDIO_OK |}.

(** A card that misses the first CMD8, is still busy at the first ACMD41
    and ready at the second; the clock advances 10 ms per reading. *)
Definition ready_card : card_env :=
  {| ce_reply := fun i =>
       nth i [ [0]; []; [0]; r1_reply CMD8 0x1AA;
               r1_reply CMD55 0x120; r3_reply 0x00FF8000;
               r1_reply CMD55 0x120; r3_reply 0xC0FF8000;
               r2_zero_reply; r1_reply CMD3 0x12340000; r1_reply CMD7 0x700;
               r1_reply CMD55 0x120; r1_reply ACMD6 0x920 ] [];
     ce_millis := fun i => 10 * Z.of_nat i |}.

(** A card that answers every command but never leaves the busy state; the
    clock advances 600 ms per reading. *)
Definition busy_card : card_env :=
  {| ce_reply := fun i =>
       match i with
       | 0%nat => [0]
       | 1%nat => r1_reply CMD8 0x1AA
       | _ => if Nat.even i then r1_reply CMD55 0x120 else r3_reply 0x00FF8000
       end;
     ce_millis := fun i => 600 * Z.of_nat i |}.

(** No card: no command is ever answered. *)
Definition absent_card : card_env :=
  {| ce_reply := fun _ => []; ce_millis := fun i => Z.of_nat i |}.

End Card.

(** ** Reference checksums *)

Module Ref.

(** The CRC-7 of SD command packets (generator x^7 + x^3 + 1), one message
    bit at a time.  The seven-bit remainder is kept left-aligned in a byte,
    as the entries of [crc7_table] are. *)
Definition crc7_bit (c : Z) : Z :=
  let c2 := Z.land (Z.shiftl c 1) 0xFF in
  if Z.testbit c 7 then Z.lxor c2 0x12 else c2.

Fixpoint crc7_bits (n : nat) (c : Z) : Z :=
  match n with
  | O => c
  | S n' => crc7_bits n' (crc7_bit c)
  end.

Definition crc7_byte (crc byte : Z) : Z := crc7_bits 8 (Z.lxor crc byte).

Definition crc7_bitwise (bytes : list Z) : Z := fold_left crc7_byte bytes 0.

(** The CRC-16 of one data line (CCITT generator x^16 + x^12 + x^5 + 1,
    initial value zero): [d] is the next bit of the line. *)
Definition crc16_bit (c d : Z) : Z :=
  let shifted := Z.land (Z.shiftl c 1) 0xFFFF in
  if xorb (Z.testbit c 15) (Z.odd d) then Z.lxor shifted 0x1021 else shifted.

(** Eight bits of a line, the most significant first. *)
Definition crc16_byte (c byte : Z) : Z :=
  fold_left (fun c j => crc16_bit c (Z.land (Z.shiftr byte j) 1)) [7; 6; 5; 4; 3; 2; 1; 0] c.

(** The [n] bits that data line [k] carries in [x], a value made of [n]
    nibbles: bit [j] of the result is bit [k] of nibble [j]. *)
Fixpoint lane (k : Z) (n : nat) (x : Z) : Z :=
  match n with
  | O => 0
  | S n' =>
      Z.lor (lane k n' x)
            (Z.shiftl (Z.land (Z.shiftr x (4 * Z.of_nat n' + k)) 1) (Z.of_nat n'))
  end.

(** The CRC-16 of line [k] over a sequence of words as they lie in RAM:
    each word is sent most significant nibble first once its bytes are
    swapped. *)
Definition crc16_line (k : Z) (words : list Z) : Z :=
  fold_left (fun c w => crc16_byte c (lane k 8 (CRC.bswap32 w))) words 0.

End Ref.

(** The byte values, in order. *)
Definition all_bytes : list Z := map Z.of_nat (seq 0 256).

Definition is_byte (x : Z) : bool := (0 <=? x) && (x <? 256).

(** The sixteen bytes that [rp2040_sdio_command_R2] stores through
    [response], taken from the five words captured by DMA. *)
Definition r2_response (rxf : Cmd.reply) : list Z :=
  let byte w s := Z.land (Z.shiftr (nth w rxf 0) s) 0xFF in
  [ byte 0%nat 16; byte 0%nat 8; byte 0%nat 0;
    byte 1%nat 24; byte 1%nat 16; byte 1%nat 8; byte 1%nat 0;
    byte 2%nat 24; byte 2%nat 16; byte 2%nat 8; byte 2%nat 0;
    byte 3%nat 24; byte 3%nat 16; byte 3%nat 8; byte 3%nat 0;
    byte 4%nat 0 ].

(** The reply [rxf] with bit [b] of its word [i] flipped. *)
Definition flip_reply_bit (rxf : Cmd.reply) (i : nat) (b : Z) : Cmd.reply :=
  firstn i rxf ++ Z.lxor (nth i rxf 0) (Z.shiftl 1 b) :: skipn (S i) rxf.

(** ** What a transmit session puts on the wire *)

Module Wire.




End Wire.

(** ** What a receive session delivers *)

Module Delivery.
Import CRC Xfer Session.

(** The data words of the block whose transfer finished before the poll of
    tick [t] (none if no transfer finished). *)
Definition tick_data (t : tick) : list Z :=
  match t_block t with Some d => d | None => [] end.

(** Before the poll of [t] the DMA engine finished a block of 128 words,
    and the poll is made within the budget of a session armed at [now]. *)
Definition carries_block (now : Z) (t : tick) : bool :=
  match t_block t with
  | Some d => (length d =? 128)%nat && (wrap32 (t_millis t - now) <=? 1000)
  | None => false
  end.

(** The checksum of the block of [t] as it lies in RAM, and the checksum
    that the completion handler reads after it. *)
Definition crc_computed (t : tick) : Z :=
  crc16_4bit_words (map bswap32 (tick_data t)).

Definition crc_received (t : tick) : Z :=
  Z.lor (Z.shiftl (u32 (he_crc0 (t_handler t))) 32) (u32 (he_crc1 (t_handler t))).

Definition block_good (t : tick) : bool := crc_computed t =? crc_received t.

(** What the polls of a timeline in which every tick carries a block
    return, from block number [j] on: [SDIO_BUSY] with the bytes so far
    until the last block, then the final status. *)
Fixpoint expected_from (final : sdio_status_t) (j : nat) (rest : list tick)
  : list (sdio_status_t * option Z) :=
  match rest with
  | [] => []
  | t :: rest' =>
      ((match rest' with [] => final | _ => SDIO_BUSY end),
       Some (Z.of_nat (S j) * 512)) :: expected_from final (S j) rest'
  end.

Definition expected_polls (ts : list tick) : list (sdio_status_t * option Z) :=
  expected_from (if forallb block_good ts then SDIO_OK else SDIO_ERR_DATA_CRC) 0 ts.

(** The first [j] blocks of the timeline [ts] lie in the buffer, and their
    checksum words in the table. *)
Definition delivered (ts : list tick) (buffer : Z) (m : machine) (j : nat) : Prop :=
  forall i, (i < j)%nat ->
    load_words (ram m) (buffer + 128 * Z.of_nat i) 128 =
      map bswap32 (tick_data (nth i ts (quiet_tick 0))) /\
    block_checksums m (Z.of_nat i) = crc_received (nth i ts (quiet_tick 0)).

End Delivery.

(** ** Sector transfers and card queries ([sd_card_sdio.cpp]) *)

Module Sd.
Import Cmd Xfer Session Card.

(** Command indices and card types of SdFat's [SdCardInfo.h], an external
    library. *)
Definition CMD9 : Z := 9.
Definition CMD12 : Z := 12.
Definition CMD13 : Z := 13.
Definition CMD17 : Z := 17.
Definition CMD18 : Z := 18.
Definition CMD24 : Z := 24.
Definition CMD25 : Z := 25.
Definition ACMD23 : Z := 23.
Definition SD_CARD_TYPE_SD2 : Z := 2.
Definition SD_CARD_TYPE_SDHC : Z := 3.

(** The state that the functions of [sd_card_sdio.cpp] work on: the
    variables that [begin] writes ([drv]), the transfer engine with its
    peripherals ([sdio]), the four stream variables, the number of readings
    of the busy line (SDIO_D0) made so far, and the calls of the progress
    callback (which function, with which argument; oldest first).  A
    callback is a function pointer, identified here by a number; [None] is
    the null pointer.  [g_sdio_error_line] is not modelled. *)
Record card : Type := {
  drv : driver;
  sdio : machine;
  m_stream_callback : option nat;
  m_stream_buffer : Z;
  m_stream_count : Z;
  m_stream_count_start : Z;
  busy_reads : nat;
  callback_calls : list (nat * Z)
}.

Definition set_drv (v : driver) (s : card) : card :=
  {| drv := v; sdio := sdio s; m_stream_callback := m_stream_callback s;
     m_stream_buffer := m_stream_buffer s; m_stream_count := m_stream_count s;
     m_stream_count_start := m_stream_count_start s; busy_reads := busy_reads s;
     callback_calls := callback_calls s |}.

Definition set_sdio (v : machine) (s : card) : card :=
  {| drv := drv s; sdio := v; m_stream_callback := m_stream_callback s;
     m_stream_buffer := m_stream_buffer s; m_stream_count := m_stream_count s;
     m_stream_count_start := m_stream_count_start s; busy_reads := busy_reads s;
     callback_calls := callback_calls s |}.

Definition set_stream_count (v : Z) (s : card) : card :=
  {| drv := drv s; sdio := sdio s; m_stream_callback := m_stream_callback s;
     m_stream_buffer := m_stream_buffer s; m_stream_count := v;
     m_stream_count_start := m_stream_count_start s; busy_reads := busy_reads s;
     callback_calls := callback_calls s |}.

Definition set_stream_count_start (v : Z) (s : card) : card :=
  {| drv := drv s; sdio := sdio s; m_stream_callback := m_stream_callback s;
     m_stream_buffer := m_stream_buffer s; m_stream_count := m_stream_count s;
     m_stream_count_start := v; busy_reads := busy_reads s;
     callback_calls := callback_calls s |}.

Definition set_busy_reads (v : nat) (s : card) : card :=
  {| drv := drv s; sdio := sdio s; m_stream_callback := m_stream_callback s;
     m_stream_buffer := m_stream_buffer s; m_stream_count := m_stream_count s;
     m_stream_count_start := m_stream_count_start s; busy_reads := v;
     callback_calls := callback_calls s |}.

Definition set_callback_calls (v : list (nat * Z)) (s : card) : card :=
  {| drv := drv s; sdio := sdio s; m_stream_callback := m_stream_callback s;
     m_stream_buffer := m_stream_buffer s; m_stream_count := m_stream_count s;
     m_stream_count_start := m_stream_count_start s; busy_reads := busy_reads s;
     callback_calls := v |}.

(** A computation on the variables of [begin], run on the card state. *)
Definition lift {A : Type} (c : M A) (s : card) : A * card :=
  let (a, d) := c (drv s) in (a, set_drv d s).

(** [checkReturnOk(rp2040_sdio_command_R1(command, arg, &reply))]: the
    outcome of the test, the value of [reply] (unchanged, here [None], when
    the command fails) and the state. *)
Definition checked_R1 (e : card_env) (command arg : Z) (s : card)
  : bool * option Z * card :=
  let (r, s) := lift (command_R1 e command arg true) s in
  let (ok, s) := lift (checkReturnOk (fst r)) s in
  (ok, snd r, s).

(** [SdioCard::errorCode]. *)
Definition errorCode (s : card) : sdio_status_t := g_sdio_error (drv s).

(** [SdioCard::readCID]. *)
Definition readCID (s : card) : bool * list Z := (true, g_sdio_cid (drv s)).

(** [SdioCard::readCSD]: the outcome and the sixteen bytes stored through
    [csd]. *)
Definition readCSD (e : card_env) (s : card) : bool * option (list Z) * card :=
  let (r, s) := lift (command_R2 e CMD9 (g_sdio_rca (drv s))) s in
  let (ok, s) := lift (checkReturnOk (fst r)) s in
  (ok, snd r, s).

(** [SdioCard::readOCR]: what is stored through [ocr] is the reply to
    CMD13, the card status. *)
Definition readOCR (e : card_env) (s : card) : bool * option Z * card :=
  checked_R1 e CMD13 (g_sdio_rca (drv s)) s.

(** [SdioCard::status]. *)
Definition status (e : card_env) (s : card) : Z * card :=
  let '(ok, reply, s) := checked_R1 e CMD13 (g_sdio_rca (drv s)) s in
  (if ok then match reply with Some v => v | None => 0 end else 0, s).

(** [SdioCard::type]. *)
Definition type (s : card) : Z :=
  if negb (Z.land (g_sdio_ocr (drv s)) (Z.shiftl 1 30) =? 0)
  then SD_CARD_TYPE_SDHC else SD_CARD_TYPE_SD2.

(** [SdioCard::isBusy]: [busy k] is the [k]-th reading of
    [(sio_hw->gpio_in & (1 << SDIO_D0)) == 0]. *)
Definition isBusy (busy : nat -> bool) (s : card) : bool * card :=
  (busy (busy_reads s), set_busy_reads (S (busy_reads s)) s).

(** The loop [while (millis() < end && isBusy()) {}] of
    [stopTransmission]; [None] if it is still running after [fuel] rounds. *)
Fixpoint wait_not_busy (e : card_env) (busy : nat -> bool) (fuel : nat) (finish : Z)
    (s : card) : option card :=
  match fuel with
  | O => None
  | S fuel' =>
      let (now, s) := lift (millis e) s in
      if now <? finish then
        let (b, s) := isBusy busy s in
        if b then wait_not_busy e busy fuel' finish s else Some s
      else Some s
  end.

(** [SdioCard::stopTransmission(blocking)]. *)
Definition stopTransmission (e : card_env) (busy : nat -> bool) (fuel : nat)
    (blocking : bool) (s : card) : option (bool * card) :=
  let '(ok, _, s) := checked_R1 e CMD12 0 s in
  if negb ok then Some (false, s)
  else if negb blocking then Some (true, s)
  else
    let (now, s) := lift (millis e) s in
    let finish := wrap32 (now + 100) in
    match wait_not_busy e busy fuel finish s with
    | None => None
    | Some s =>
        let (b, s) := isBusy busy s in
        Some (negb b, s)
    end.

(** [azplatform_set_sd_callback]. *)
Definition azplatform_set_sd_callback (func : option nat) (buffer : Z) (s : card) : card :=
  {| drv := drv s; sdio := sdio s; m_stream_callback := func;
     m_stream_buffer := buffer; m_stream_count := 0;
     m_stream_count_start := 0; busy_reads := busy_reads s;
     callback_calls := callback_calls s |}.

(** [get_stream_callback(buf, count)]; pointers are byte addresses of 32
    bits. *)
Definition get_stream_callback (buf count : Z) (s : card) : option nat * card :=
  let s := set_stream_count_start (m_stream_count s) s in
  match m_stream_callback s with
  | Some f =>
      if buf =? wrap32 (m_stream_buffer s + m_stream_count s)
      then (Some f, set_stream_count (wrap32 (m_stream_count s + count)) s)
      else (None, s)
  | None => (None, s)
  end.

(** One round of the loop [do { g_sdio_error = poll(&bytes_done); if
    (callback) callback(m_stream_count_start + bytes_done); } while
    (g_sdio_error == SDIO_BUSY)]: what it does with the result [r] of the
    poll. *)
Definition polled (callback : option nat) (r : poll_result) (s : card) : card :=
  let s := set_sdio (pr_machine r) s in
  let s := snd (lift (set_error (pr_status r)) s) in
  let bytes_done := match pr_bytes r with Some v => v | None => 0 end in
  match callback with
  | Some f =>
      set_callback_calls
        (callback_calls s ++ [(f, wrap32 (m_stream_count_start s + bytes_done))]) s
  | None => s
  end.

(** The loop, one tick of the session's timeline per round; [None] if the
    loop is still running when the timeline ends. *)
Fixpoint poll_loop (step : tick -> machine -> poll_result) (callback : option nat)
    (ts : list tick) (s : card) : option card :=
  match ts with
  | [] => None
  | t :: ts' =>
      let r := step t (sdio s) in
      let s := polled callback r s in
      if status_eqb (pr_status r) SDIO_BUSY then poll_loop step callback ts' s
      else Some s
  end.

(** [checkReturnOk(start(..))] for one of the two start functions of the
    engine, which reads the clock. *)
Definition checked_start (start : Z -> machine -> sdio_status_t * machine)
    (e : card_env) (s : card) : bool * card :=
  let (now, s) := lift (millis e) s in
  let (st, m) := start now (sdio s) in
  lift (checkReturnOk st) (set_sdio m s).

(** [checkReturnOk(rp2040_sdio_rx_start(dst, n))] and the same for
    transmission.  [dst] is a byte address; the engine, whose RAM is
    addressed by words, is handed [dst / 4] (the start functions assert that
    the buffer is word-aligned). *)
Definition checked_rx_start (e : card_env) (vectactive : bool) (dst n : Z) (s : card)
  : bool * card :=
  checked_start (fun now m => rp2040_sdio_rx_start (dst / 4) n now vectactive m) e s.

Definition checked_tx_start (e : card_env) (vectactive : bool) (src n : Z) (s : card)
  : bool * card :=
  checked_start (fun now m => rp2040_sdio_tx_start (src / 4) n now vectactive m) e s.

(** The end of the four transfer functions: the result is
    [g_sdio_error == SDIO_OK]. *)
Definition result (s : card) : bool * card :=
  (status_eqb (g_sdio_error (drv s)) SDIO_OK, s).

(** [SdioCard::writeSector(sector, src)]; [ts] is the timeline of the
    session that the function starts. *)
Definition writeSector (e : card_env) (vectactive : bool) (ts : list tick)
    (sector src : Z) (s : card) : option (bool * card) :=
  let (callback, s) := get_stream_callback src 512 s in
  let '(ok, _, s) := checked_R1 e 16 512 s in
  if negb ok then Some (false, s) else
  let '(ok, _, s) := checked_R1 e CMD24 sector s in
  if negb ok then Some (false, s) else
  let (ok, s) := checked_tx_start e vectactive src 1 s in
  if negb ok then Some (false, s) else
  match poll_loop tx_tick callback ts s with
  | None => None
  | Some s => Some (result s)
  end.

(** [SdioCard::writeSectors(sector, src, n)]. *)
Definition writeSectors (e : card_env) (vectactive : bool) (ts : list tick)
    (sector src n : Z) (s : card) : option (bool * card) :=
  let (callback, s) := get_stream_callback src 512 s in
  let '(ok, _, s) := checked_R1 e 16 512 s in
  if negb ok then Some (false, s) else
  let '(ok, _, s) := checked_R1 e CMD55 (g_sdio_rca (drv s)) s in
  if negb ok then Some (false, s) else
  let '(ok, _, s) := checked_R1 e ACMD23 n s in
  if negb ok then Some (false, s) else
  let '(ok, _, s) := checked_R1 e CMD25 sector s in
  if negb ok then Some (false, s) else
  let (ok, s) := checked_tx_start e vectactive src n s in
  if negb ok then Some (false, s) else
  match poll_loop tx_tick callback ts s with
  | None => None
  | Some s =>
      let '(_, _, s) := checked_R1 e CMD12 0 s in
      Some (result s)
  end.

(** [SdioCard::readSector(sector, dst)]. *)
Definition readSector (e : card_env) (vectactive : bool) (ts : list tick)
    (sector dst : Z) (s : card) : option (bool * card) :=
  let (callback, s) := get_stream_callback dst 512 s in
  let '(ok, _, s) := checked_R1 e 16 512 s in
  if negb ok then Some (false, s) else
  let (ok, s) := checked_rx_start e vectactive dst 1 s in
  if negb ok then Some (false, s) else
  let '(ok, _, s) := checked_R1 e CMD17 sector s in
  if negb ok then Some (false, s) else
  match poll_loop rx_tick callback ts s with
  | None => None
  | Some s => Some (result s)
  end.

(** [SdioCard::readSectors(sector, dst, n)]; [n * 512] is computed in 32
    bits. *)
Definition readSectors (e : card_env) (vectactive : bool) (ts : list tick)
    (sector dst n : Z) (s : card) : option (bool * card) :=
  let (callback, s) := get_stream_callback dst (wrap32 (n * 512)) s in
  let '(ok, _, s) := checked_R1 e 16 512 s in
  if negb ok then Some (false, s) else
  let (ok, s) := checked_rx_start e vectactive dst n s in
  if negb ok then Some (false, s) else
  let '(ok, _, s) := checked_R1 e CMD18 sector s in
  if negb ok then Some (false, s) else
  match poll_loop rx_tick callback ts s with
  | None => None
  | Some s =>
      let '(_, _, s) := checked_R1 e CMD12 0 s in
      Some (result s)
  end.

(** The state once a checked command whose status is [st] has been
    exchanged, and once a checked start of the engine has left the engine
    as [m]. *)
Definition after_command (st : sdio_status_t) (s : card) : card :=
  set_drv {| commands_sent := S (commands_sent (drv s));
             clock_reads := clock_reads (drv s);
             g_sdio_ocr := g_sdio_ocr (drv s); g_sdio_rca := g_sdio_rca (drv s);
             g_sdio_cid := g_sdio_cid (drv s); g_sdio_error := st |} s.

Definition after_start (st : sdio_status_t) (m : machine) (s : card) : card :=
  set_sdio m
    (set_drv {| commands_sent := commands_sent (drv s);
                clock_reads := S (clock_reads (drv s));
                g_sdio_ocr := g_sdio_ocr (drv s); g_sdio_rca := g_sdio_rca (drv s);
                g_sdio_cid := g_sdio_cid (drv s); g_sdio_error := st |} s).

(** The status of the reply to the [k]-th command sent, taken as the reply
    to [command]. *)
Definition reply_status (e : card_env) (command : Z) (k : nat) : sdio_status_t :=
  fst (rp2040_sdio_command_R1 command 0 true (ce_reply e k)).

(** The poll at tick [t] is made more than 1000 ms after [start]. *)
Definition late (start : Z) (t : tick) : bool := wrap32 (t_millis t - start) >? 1000.

(** [s'] differs from [s] at most in the engine, in [g_sdio_error] and in
    the recorded calls of the callback. *)
Definition polls_only (s s' : card) : Prop :=
  commands_sent (drv s') = commands_sent (drv s) /\
  clock_reads (drv s') = clock_reads (drv s) /\
  g_sdio_ocr (drv s') = g_sdio_ocr (drv s) /\
  g_sdio_rca (drv s') = g_sdio_rca (drv s) /\
  g_sdio_cid (drv s') = g_sdio_cid (drv s) /\
  m_stream_callback s' = m_stream_callback s /\
  m_stream_buffer s' = m_stream_buffer s /\
  m_stream_count s' = m_stream_count s /\
  m_stream_count_start s' = m_stream_count_start s /\
  busy_reads s' = busy_reads s.

(** [s'] has the stream variables of [s]. *)
Definition same_stream (s s' : card) : Prop :=
  m_stream_callback s' = m_stream_callback s /\
  m_stream_buffer s' = m_stream_buffer s /\
  m_stream_count s' = m_stream_count s /\
  m_stream_count_start s' = m_stream_count_start s.

(** A card state right after power-up: nothing initialised, no stream. *)
Definition fresh : card :=
  {| drv := power_on; sdio := blank_machine; m_stream_callback := None;
     m_stream_buffer := 0; m_stream_count := 0; m_stream_count_start := 0;
     busy_reads := 0; callback_calls := [] |}.

(** A card that accepts the commands [cmds], in this order, each with a
    well-formed R1 reply, and does not answer any further command; the clock
    stands at zero. *)
Definition answering (cmds : list Z) : card_env :=
  {| ce_reply := fun i =>
       match nth_error cmds i with
       | Some command => r1_reply command 0x900
       | None => []
       end;
     ce_millis := fun _ => 0 |}.

(** A one-block timeline whose block arrives with checksum words that do
    not match it, followed by a poll after the time budget. *)
Definition bad_block_timeline : list tick :=
  [block_tick (repeat 0 128) 0 1 5; quiet_tick 2000].

End Sd.

(** ** Sessions as interleavings of DMA completions and polls *)

Module Events.
Import CRC Xfer.

(** The driver and its peripherals ([hw_g]) with two more pieces of hardware
    state.  [hw_ints] is the completion flag of [SDIO_DMA_CH] in the DMA
    controller: the polls read it ([dma_hw->ints0 & (1 << SDIO_DMA_CH)]) and
    the driver clears it ([dma_hw->ints1 = 1 << SDIO_DMA_CH]); it is a latch
    that a finished transfer sets and that nothing but those writes clears.
    [hw_sm] is what the data state machine holds for the next completion
    handler (see [handler_env]); the end of a block sets it. *)
Record hw : Type := {
  hw_g : machine;
  hw_ints : bool;
  hw_sm : handler_env
}.

Definition with_machine (m : machine) (s : hw) : hw :=
  {| hw_g := m; hw_ints := hw_ints s; hw_sm := hw_sm s |}.

(** [dma_hw->ints1 = 1 << SDIO_DMA_CH]. *)
Definition acknowledge (s : hw) : hw :=
  {| hw_g := hw_g s; hw_ints := false; hw_sm := hw_sm s |}.

(** [rp2040_sdio_rx_irq], whose first statement acknowledges the flag. *)
Definition rx_irq (s : hw) : hw :=
  let s := acknowledge s in
  with_machine (rp2040_sdio_rx_irq (hw_sm s) (hw_g s)) s.

(** [rp2040_sdio_tx_irq], which writes to no interrupt register. *)
Definition tx_irq (s : hw) : hw :=
  with_machine (rp2040_sdio_tx_irq (hw_sm s) (hw_g s)) s.

(** [rp2040_sdio_dma_irq]. *)
Definition dma_irq (s : hw) : hw :=
  let s := acknowledge s in
  match transfer_state (hw_g s) with
  | SDIO_TX => tx_irq s
  | SDIO_RX => rx_irq s
  | SDIO_IDLE => s
  end.

(** What a poll made at time [now] reads from the hardware. *)
Definition poll_reads (now : Z) (s : hw) : poll_env :=
  {| pe_ints0 := hw_ints s; pe_handler := hw_sm s; pe_millis := now |}.

(** The first statement of [rp2040_sdio_rx_poll] and of
    [rp2040_sdio_tx_poll]. *)
Definition rx_dispatch (s : hw) : hw :=
  if inside_irq_handler (hw_g s) && hw_ints s then rx_irq s else s.

Definition tx_dispatch (s : hw) : hw :=
  if inside_irq_handler (hw_g s) && hw_ints s then tx_irq s else s.

(** [rp2040_sdio_rx_poll] and [rp2040_sdio_tx_poll], called with a
    [bytes_complete] pointer at time [now]. *)
Definition rx_poll (now : Z) (s : hw) : sdio_status_t * option Z * hw :=
  let s := rx_dispatch s in
  let r := rx_poll_finish (poll_reads now s) true (hw_g s) in
  (pr_status r, pr_bytes r, with_machine (pr_machine r) s).

Definition tx_poll (now : Z) (s : hw) : sdio_status_t * option Z * hw :=
  let s := tx_dispatch s in
  let r := tx_poll_finish (poll_reads now s) true (hw_g s) in
  (pr_status r, pr_bytes r, with_machine (pr_machine r) s).

Definition poll_in (d : direction) : Z -> hw -> sdio_status_t * option Z * hw :=
  match d with
  | DIR_RX => rx_poll
  | DIR_TX => tx_poll
  end.

(** The DMA channel finishes the transfer it is busy with, while the data
    state machine holds [h] for the handler: the flag is raised and
    [DMA_IRQ_1] runs [rp2040_sdio_dma_irq] at once, unless the session was
    armed inside a handler, where the interrupt cannot be taken.  Nothing
    finishes on a channel that is not busy. *)
Definition dma_done (data : list Z) (h : handler_env) (s : hw) : hw :=
  if dma_channel_is_busy (dma (hw_g s)) then
    let s := {| hw_g := Session.dma_complete data (hw_g s);
                hw_ints := true; hw_sm := h |} in
    if inside_irq_handler (hw_g s) then s else dma_irq s
  else s.

(** What happens to an armed session: the DMA channel finishes a block, or
    the caller polls. *)
Inductive event : Type :=
| DMA_DONE (data : list Z) (h : handler_env)
| POLL (now : Z).

(** A session's events in order; the result of every poll is collected with
    the machine as the poll leaves it, oldest first. *)
Fixpoint run (d : direction) (es : list event) (s : hw) : list poll_result * hw :=
  match es with
  | [] => ([], s)
  | DMA_DONE data h :: es' => run d es' (dma_done data h s)
  | POLL now :: es' =>
      let '(st, bytes, s1) := poll_in d now s in
      let '(out, s2) := run d es' s1 in
      ((st, bytes, hw_g s1) :: out, s2)
  end.

(** [rp2040_sdio_rx_start] and [rp2040_sdio_tx_start]; neither touches the
    completion flag. *)
Definition rx_start (buffer num_blocks now : Z) (vectactive : bool) (s : hw) : hw :=
  with_machine (snd (rp2040_sdio_rx_start buffer num_blocks now vectactive (hw_g s))) s.




(** The facts that hold between the events of a receive session of [n]
    blocks: either no completion awaits its handler ([Session.rx_inv] holds
    and, in a session armed inside a handler, the flag is clear), or (in a
    session armed inside a handler) the channel has finished the block that
    a machine with [Session.rx_inv] was receiving. *)
Definition rx_hw_inv (n : Z) (base : nat) (s : hw) : Prop :=
  ((inside_irq_handler (hw_g s) = true -> hw_ints s = false) /\
   Session.rx_inv n base (hw_g s)) \/
  (hw_ints s = true /\
   exists m data,
     Session.rx_inv n base m /\ transfer_state m = SDIO_RX /\
     inside_irq_handler m = true /\ hw_g s = Session.dma_complete data m).

(** One tick of a lock-step timeline ([Session.tick]) as events: the
    completion, if the tick has one, and then the poll. *)
Definition events_of_tick (t : Session.tick) : list event :=
  match Session.t_block t with
  | Some data => [DMA_DONE data (Session.t_handler t); POLL (Session.t_millis t)]
  | None => [POLL (Session.t_millis t)]
  end.


(** The blank machine with the flag clear. *)
Definition blank : hw :=
  {| hw_g := Session.blank_machine; hw_ints := false; hw_sm := Session.no_wait |}.

(** The end of an all-zero block followed by the checksum words [crc0] and
    [crc1]. *)
Definition zero_block_done (crc0 crc1 : Z) : event :=
  DMA_DONE [] {| he_wait_timeout := false; he_crc0 := crc0; he_crc1 := crc1 |}.



Definition burst_sample : hw :=
  snd (run DIR_RX [zero_block_done 0 0; zero_block_done 0 1] (rx_start 0 2 0 false blank)).

End Events.

(** * Properties *)

Lemma status_eqb_spec (a b : sdio_status_t) : reflect (a = b) (status_eqb a b).
Proof. destruct a, b; constructor; congruence. Qed.


(** *** CRC16x4 is linear over bitwise exclusive or *)

Section CRC_linearity.
Import CRC.

Lemma bswap32_lxor (x y : Z) :
  bswap32 (Z.lxor x y) = Z.lxor (bswap32 x) (bswap32 y).
Proof.
  unfold bswap32. change 0xFF with (Z.ones 8).
  Z.bitblast; rewrite ?Z.lxor_spec; btauto.
Qed.

Lemma land_lxor_distr (a b m : Z) :
  Z.land (Z.lxor a b) m = Z.lxor (Z.land a m) (Z.land b m).
Proof.
  apply Z.bits_inj'; intros n _.
  rewrite ?Z.land_spec, ?Z.lxor_spec, ?Z.land_spec. btauto.
Qed.

Lemma u32_lxor (a b : Z) : u32 (Z.lxor a b) = Z.lxor (u32 a) (u32 b).
Proof. apply land_lxor_distr. Qed.

Lemma u64_lxor (a b : Z) : u64 (Z.lxor a b) = Z.lxor (u64 a) (u64 b).
Proof. apply land_lxor_distr. Qed.

Ltac push_lxor :=
  repeat (rewrite ?Z.shiftr_lxor, ?Z.shiftl_lxor, ?u32_lxor, ?u64_lxor).

Ltac lxor_ac :=
  apply Z.bits_inj'; intros ?n _; rewrite ?Z.lxor_spec; btauto.

Lemma crc16_4bit_step_lxor (c1 c2 w1 w2 : Z) :
  crc16_4bit_step (Z.lxor c1 c2) (Z.lxor w1 w2) =
  Z.lxor (crc16_4bit_step c1 w1) (crc16_4bit_step c2 w2).
Proof.
  unfold crc16_4bit_step. rewrite bswap32_lxor.
  generalize (bswap32 w1) (bswap32 w2); intros d1 d2.
  cbv zeta. push_lxor. lxor_ac.
Qed.

Lemma crc16_4bit_fold_lxor (f g : nat -> Z) (l : list nat) (c1 c2 : Z) :
  fold_left crc16_4bit_step (map (fun k => Z.lxor (f k) (g k)) l) (Z.lxor c1 c2) =
  Z.lxor (fold_left crc16_4bit_step (map f l) c1)
         (fold_left crc16_4bit_step (map g l) c2).
Proof.
  revert c1 c2; induction l as [|k l IH]; intros c1 c2; simpl.
  - reflexivity.
  - rewrite crc16_4bit_step_lxor. apply IH.
Qed.

Lemma unit_word_zeros (i : nat) (b : Z) (l : list nat) :
  ~ In i l -> map (unit_word i b) l = repeat 0 (length l).
Proof.
  induction l as [|k l IH]; simpl; intros Hn; [reflexivity|].
  unfold unit_word at 1.
  destruct (Nat.eqb_spec k i) as [->|_]; [tauto|].
  f_equal. apply IH. tauto.
Qed.

Lemma unit_block_shape (i n : nat) (b : Z) :
  (i < n)%nat ->
  map (unit_word i b) (seq 0 n) =
  repeat 0 i ++ Z.shiftl 1 b :: repeat 0 (n - 1 - i).
Proof.
  intros Hi. replace n with (i + S (n - 1 - i))%nat at 1 by lia.
  rewrite seq_app, map_app. simpl.
  rewrite !unit_word_zeros, !length_seq.
  - unfold unit_word. rewrite Nat.eqb_refl. reflexivity.
  - rewrite in_seq. lia.
  - rewrite in_seq. lia.
Qed.

Lemma zero_run_nonzero_sound (n : nat) :
  forall c k, zero_run_nonzero n c = true -> (k <= n)%nat ->
  fold_left crc16_4bit_step (repeat 0 k) c <> 0.
Proof.
  induction n as [|n IH]; intros c k H Hk.
  - assert (k = 0%nat) as -> by lia. simpl in *.
    rewrite andb_true_r, negb_true_iff in H. now apply Z.eqb_neq.
  - simpl in H. apply andb_true_iff in H as [Hc Hn].
    destruct k as [|k]; simpl.
    + rewrite negb_true_iff in Hc. now apply Z.eqb_neq.
    + apply IH; [assumption | lia].
Qed.

Lemma zero_prefix_keeps_zero (k : nat) :
  fold_left crc16_4bit_step (repeat 0 k) 0 = 0.
Proof. induction k; simpl; [reflexivity | assumption]. Qed.

Lemma unit_bits_survive :
  forallb (fun b => zero_run_nonzero 127 (crc16_4bit_step 0 (Z.shiftl 1 (Z.of_nat b))))
          (seq 0 32) = true.
Proof. vm_compute. reflexivity. Qed.

Lemma unit_block_crc_nonzero (i : nat) (b : Z) :
  (i < 128)%nat -> 0 <= b < 32 ->
  fold_left crc16_4bit_step (map (unit_word i b) (seq 0 128)) 0 <> 0.
Proof.
  intros Hi Hb.
  rewrite unit_block_shape by assumption.
  rewrite fold_left_app. cbn [fold_left]. rewrite zero_prefix_keeps_zero.
  pose proof unit_bits_survive as Hall.
  rewrite forallb_forall in Hall.
  specialize (Hall (Z.to_nat b)).
  rewrite Z2Nat.id in Hall by lia.
  apply zero_run_nonzero_sound with (n := 127%nat).
  - apply Hall. rewrite in_seq. lia.
  - lia.
Qed.

Lemma load_flipped (mem : memory) (p : Z) (i : nat) (b : Z) (n : nat) :
  load_words (flip_bit mem (p + Z.of_nat i) b) p n =
  map (fun k => Z.lxor (mem (p + Z.of_nat k)) (unit_word i b k)) (seq 0 n).
Proof.
  unfold load_words. apply map_ext. intros k.
  unfold flip_bit, unit_word.
  destruct (Nat.eqb_spec k i) as [->|Hne].
  - now rewrite Z.eqb_refl.
  - destruct (Z.eqb_spec (p + Z.of_nat k) (p + Z.of_nat i)); [lia|].
    now rewrite Z.lxor_0_r.
Qed.

Lemma checksum_of_flipped (mem : memory) (p : Z) (i : nat) (b : Z) :
  sdio_crc16_4bit_checksum (flip_bit mem (p + Z.of_nat i) b) p 128 =
  Z.lxor (sdio_crc16_4bit_checksum mem p 128)
         (fold_left crc16_4bit_step (map (unit_word i b) (seq 0 128)) 0).
Proof.
  unfold sdio_crc16_4bit_checksum, crc16_4bit_words.
  rewrite load_flipped.
  change 0 with (Z.lxor 0 0) at 1.
  rewrite crc16_4bit_fold_lxor. reflexivity.
Qed.

End CRC_linearity.

(** C8: the checksum of an all-zero block of 128 words is the fixed value 0,
    and flipping any single bit [b] of any word [i] of any 128-word block
    changes the value of [sdio_crc16_4bit_checksum]. *)
Theorem crc16_4bit_detects_single_bit_flip
    (mem : memory) (p i b : Z) (Hi : 0 <= i < 128) (Hb : 0 <= b < 32) :
  CRC.sdio_crc16_4bit_checksum zero_memory p 128 = 0 /\
  CRC.sdio_crc16_4bit_checksum (flip_bit mem (p + i) b) p 128 <>
  CRC.sdio_crc16_4bit_checksum mem p 128.
Proof.
  split; [reflexivity|].
  replace i with (Z.of_nat (Z.to_nat i)) by lia.
  rewrite checksum_of_flipped. intros E.
  apply (unit_block_crc_nonzero (Z.to_nat i) b); [lia | assumption |].
  set (c := CRC.sdio_crc16_4bit_checksum mem p 128) in *.
  assert (H : Z.lxor c (Z.lxor c (fold_left CRC.crc16_4bit_step
                (map (unit_word (Z.to_nat i) b) (seq 0 128)) 0)) = Z.lxor c c)
    by (rewrite E; reflexivity).
  rewrite <- Z.lxor_assoc, Z.lxor_nilpotent, Z.lxor_0_l in H. exact H.
Qed.

Lemma crc16_4bit_detects_single_bit_flip_witness :
  CRC.sdio_crc16_4bit_checksum zero_memory 0 128 = 0 /\
  CRC.sdio_crc16_4bit_checksum (flip_bit (fun a => a) (0 + 5) 7) 0 128 <>
  CRC.sdio_crc16_4bit_checksum (fun a => a) 0 128.
Proof.
  apply (crc16_4bit_detects_single_bit_flip (fun a => a) 0 5 7); lia.
Defined.


(** *** R1 replies *)

Section R1_validation.
Import CRC Cmd.

Lemma r1_crc_unrolled (resp0 resp1 : Z) :
  crc7_step (crc7_step (crc7_step (crc7_step (crc7_step 0
      (Z.land (Z.shiftr resp0 24) 0xFF))
      (Z.land (Z.shiftr resp0 16) 0xFF))
      (Z.land (Z.shiftr resp0 8) 0xFF))
      (Z.land (Z.shiftr resp0 0) 0xFF))
      (Z.land (Z.shiftr resp1 8) 0xFF)
  = crc7 (r1_checked_bytes resp0 resp1).
Proof. reflexivity. Qed.

Lemma command_R1_cases (command arg resp0 resp1 : Z) (more : list Z) :
  rp2040_sdio_command_R1 command arg true (resp0 :: resp1 :: more) =
  if negb (crc7 (r1_checked_bytes resp0 resp1) =? Z.land resp1 0xFE)
  then (SDIO_ERR_RESPONSE_CRC, None)
  else if negb (Z.land (Z.shiftr resp0 24) 0xFF =? command) && negb (command =? 41)
       then (SDIO_ERR_RESPONSE_CODE, None)
       else (SDIO_OK, Some (r1_payload resp0 resp1)).
Proof.
  unfold rp2040_sdio_command_R1.
  cbn [length Nat.ltb Nat.leb nth]. cbv zeta.
  rewrite r1_crc_unrolled. rewrite Z.shiftr_0_r. reflexivity.
Qed.

End R1_validation.

(** The frame of CMD0 with argument 0 is [40 00 00 00 00 95] on the wire,
    and a checked all-zero R2 reply and an R3 reply decode as expected. *)
Example command_frames_samples :
  Cmd.sdio_send_command 0 0 0 = (0x2F400000, 0x00009500) /\
  Cmd.sdio_send_command 8 0x1AA 48 = (0x2F480000, 0x01AA872F) /\
  Cmd.rp2040_sdio_command_R2 2 0 [0x3F000000; 0; 0; 0; 0x01] = (SDIO_OK, Some (repeat 0 15 ++ [1])) /\
  Cmd.rp2040_sdio_command_R2 2 0 [0x3F000000; 0; 0x100; 0; 0x01] =
    (SDIO_ERR_RESPONSE_CRC, Some (repeat 0 9 ++ [1] ++ repeat 0 5 ++ [1])) /\
  Cmd.rp2040_sdio_command_R3 41 0xD0040000 [0x3FC0FF80; 0x00FF] = (SDIO_OK, Some 0xC0FF8000).
Proof. vm_compute. repeat split. Qed.

(** C7: when an R1 reply is expected and arrives, [rp2040_sdio_command_R1]
    hands out the decoded payload exactly when the CRC7 recomputed over the
    five received bytes equals the embedded checksum byte with its trailing
    bit masked out and the echoed command index equals the command sent (the
    echo is not looked at for command 41); it reports the response-CRC error
    exactly when the checksums differ, and the response-code error exactly
    when the checksum is right but the echo is wrong for a command other than
    41; on an error nothing is stored through [response]. *)
Theorem command_R1_accepts_only_valid_replies
    (command arg resp0 resp1 : Z) (more : list Z) :
  let r := Cmd.rp2040_sdio_command_R1 command arg true (resp0 :: resp1 :: more) in
  let crc_ok := CRC.crc7 (Cmd.r1_checked_bytes resp0 resp1) = Z.land resp1 0xFE in
  let echo_ok := Z.land (Z.shiftr resp0 24) 0xFF = command in
  (fst r = SDIO_ERR_RESPONSE_CRC <-> ~ crc_ok) /\
  (fst r = SDIO_ERR_RESPONSE_CODE <-> crc_ok /\ ~ echo_ok /\ command <> 41) /\
  (fst r = SDIO_OK <-> crc_ok /\ (echo_ok \/ command = 41)) /\
  (snd r = Some (Cmd.r1_payload resp0 resp1) <-> fst r = SDIO_OK) /\
  (snd r = None <-> fst r <> SDIO_OK).
Proof.
  cbv zeta. rewrite command_R1_cases.
  destruct (Z.eqb_spec (CRC.crc7 (Cmd.r1_checked_bytes resp0 resp1)) (Z.land resp1 0xFE)) as [Hc|Hc];
  destruct (Z.eqb_spec (Z.land (Z.shiftr resp0 24) 0xFF) command) as [He|He];
  destruct (Z.eqb_spec command 41) as [H41|H41]; cbn;
  repeat split; intros; try congruence; try tauto;
  try solve [intuition congruence].
Qed.

(** A well-formed reply to CMD8 (argument 0x1AA) is accepted, the same reply
    with one payload bit damaged is refused, and so is an intact reply that
    echoes another command. *)
Example command_R1_cmd8_samples :
  Cmd.rp2040_sdio_command_R1 8 0x1AA true [0x08000001; 0xAA12] = (SDIO_OK, Some 0x1AA) /\
  Cmd.rp2040_sdio_command_R1 8 0x1AA true [0x08000001; 0xAB12] = (SDIO_ERR_RESPONSE_CRC, None) /\
  Cmd.rp2040_sdio_command_R1 9 0x1AA true [0x08000001; 0xAA12] = (SDIO_ERR_RESPONSE_CODE, None) /\
  Cmd.rp2040_sdio_command_R1 41 0x1AA true [0x08000001; 0xAA12] = (SDIO_OK, Some 0x1AA) /\
  Cmd.rp2040_sdio_command_R1 8 0x1AA true [0x08000001] = (SDIO_ERR_RESPONSE_TIMEOUT, None).
Proof. vm_compute. repeat split. Qed.

(** *** Block transfer engine: basic facts *)

#[local] Arguments wrap32 : simpl never.
#[local] Arguments int_of_u32 : simpl never.
#[local] Arguments u32 : simpl never.
#[local] Arguments store_block : simpl never.
#[local] Arguments Xfer.store_checksum : simpl never.
#[local] Arguments CRC.sdio_crc16_4bit_checksum : simpl never.
#[local] Arguments Session.mismatches : simpl never.
#[local] Arguments Session.block_ok : simpl never.

Section Engine_facts.
Import CRC Xfer Session.

Lemma wrap32_small (x : Z) : 0 <= x < 2 ^ 32 -> wrap32 x = x.
Proof. intros H. unfold wrap32. apply Z.mod_small. exact H. Qed.

Lemma int_of_u32_small (x : Z) : 0 <= x < 2 ^ 31 -> int_of_u32 x = x.
Proof.
  intros H. unfold int_of_u32.
  destruct (Z.ltb_spec x (2 ^ 31)); [reflexivity | lia].
Qed.

Lemma state_eqb_eq (a b : sdio_transfer_state_t) : state_eqb a b = true <-> a = b.
Proof. destruct a, b; cbn; split; congruence. Qed.

Lemma state_eqb_neq (a b : sdio_transfer_state_t) : state_eqb a b = false <-> a <> b.
Proof. destruct a, b; cbn; split; congruence. Qed.

(** Reading a block that a store did not touch. *)
Lemma load_store_other (mem : memory) (a c : Z) (data : list Z) (p : Z) (n : nat) :
  p + Z.of_nat n <= a \/ a + c <= p ->
  load_words (store_block mem a c data) p n = load_words mem p n.
Proof.
  intros H. unfold load_words. apply map_ext_in. intros k Hk.
  apply in_seq in Hk. unfold store_block.
  destruct (Z.leb_spec a (p + Z.of_nat k)); destruct (Z.ltb_spec (p + Z.of_nat k) (a + c));
    cbn; try reflexivity; lia.
Qed.

Lemma mismatches_ext (m m' : machine) (k : nat) :
  (forall i, 0 <= i < Z.of_nat k -> block_ok m' i = block_ok m i) ->
  mismatches m' k = mismatches m k.
Proof.
  intros H. unfold mismatches. f_equal. f_equal.
  apply filter_ext_in. intros i Hi. apply in_seq in Hi.
  rewrite H by lia. reflexivity.
Qed.

Lemma mismatches_succ (m : machine) (k : nat) :
  mismatches m (S k) =
  mismatches m k + (if block_ok m (Z.of_nat k) then 0 else 1).
Proof.
  unfold mismatches. rewrite seq_S, filter_app, length_app. cbn [filter Nat.add].
  destruct (block_ok m (Z.of_nat k)); cbn [negb length]; lia.
Qed.

Lemma mismatches_range (m : machine) (k : nat) :
  0 <= mismatches m k <= Z.of_nat k.
Proof.
  unfold mismatches. split; [lia|].
  pose proof (filter_length_le (fun i => negb (block_ok m (Z.of_nat i))) (seq 0 k)) as H.
  rewrite length_seq in H. lia.
Qed.

Lemma mismatches_zero_iff (m : machine) (k : nat) :
  mismatches m k = 0 <-> forall i, 0 <= i < Z.of_nat k -> block_ok m i = true.
Proof.
  induction k as [|k IH].
  - cbn. split; [intros _ i Hi; lia | reflexivity].
  - rewrite mismatches_succ. pose proof (mismatches_range m k) as Hr.
    split.
    + intros H i Hi.
      destruct (block_ok m (Z.of_nat k)) eqn:Hk; [|lia].
      destruct (Z.eq_dec i (Z.of_nat k)) as [->|Hne]; [exact Hk|].
      apply IH; lia.
    + intros H. rewrite (H (Z.of_nat k)) by lia.
      rewrite (proj2 IH); [lia|]. intros i Hi. apply H. lia.
Qed.

End Engine_facts.

(** *** Lazy verification of received blocks *)

Section Verification.
Import CRC Xfer Session.

Lemma only_verification_changed_refl (m : machine) :
  only_verification_changed m m.
Proof. destruct m; reflexivity. Qed.

Lemma only_verification_changed_trans (m1 m2 m3 : machine) :
  only_verification_changed m1 m2 -> only_verification_changed m2 m3 ->
  only_verification_changed m1 m3.
Proof.
  unfold only_verification_changed. intros H12 H23.
  rewrite H23. rewrite H12. destruct m1; reflexivity.
Qed.

Lemma verify_block_only (m : machine) :
  only_verification_changed m (sdio_verify_rx_block m).
Proof.
  unfold only_verification_changed, sdio_verify_rx_block.
  destruct m; cbn.
  repeat match goal with |- context [if ?c then _ else _] => destruct c; cbn end;
    reflexivity.
Qed.

Lemma verify_only (k : nat) (m : machine) :
  only_verification_changed m (sdio_verify_rx_checksums k m).
Proof.
  revert m; induction k as [|k IH]; intros m; cbn.
  - destruct (_ <? _); apply only_verification_changed_refl.
  - destruct (_ <? _); [|apply only_verification_changed_refl].
    eapply only_verification_changed_trans; [apply verify_block_only | apply IH].
Qed.

Lemma block_ok_same (m m' : machine) (i : Z) :
  ram m' = ram m -> data_buf m' = data_buf m ->
  block_checksums m' = block_checksums m ->
  block_ok m' i = block_ok m i.
Proof. unfold block_ok. intros -> -> ->. reflexivity. Qed.

Lemma only_verification_block_ok (m m' : machine) (i : Z) :
  only_verification_changed m m' -> block_ok m' i = block_ok m i.
Proof.
  intros H. apply block_ok_same; rewrite H; reflexivity.
Qed.

(** One verified block: the counter of verified blocks moves by one, the
    error counter counts the mismatch, and a message is logged only when the
    error counter becomes one. *)
Lemma verify_block_inv (n : Z) (base : nat) (m : machine) :
  rx_inv n base m -> blocks_checksumed m < blocks_done m ->
  rx_inv n base (sdio_verify_rx_block m) /\
  blocks_checksumed (sdio_verify_rx_block m) = blocks_checksumed m + 1.
Proof.
  intros I Hlt.
  pose proof (verify_block_only m) as Honly.
  assert (Hmax : n <= 256) by (apply (ri_max _ _ _ I)).
  pose proof (ri_checksumed _ _ _ I) as Hc.
  pose proof (ri_done _ _ _ I) as Hd.
  pose proof (ri_errors _ _ _ I) as He.
  pose proof (ri_logs _ _ _ I) as Hl.
  pose proof (mismatches_range m (Z.to_nat (blocks_checksumed m))) as Hr.
  assert (Hbc : blocks_checksumed (sdio_verify_rx_block m) = blocks_checksumed m + 1).
  { unfold sdio_verify_rx_block. cbn.
    repeat match goal with |- context [if ?c then _ else _] => destruct c; cbn end;
      apply wrap32_small; lia. }
  assert (Hidx : int_of_u32 (blocks_checksumed m) = blocks_checksumed m)
    by (apply int_of_u32_small; lia).
  assert (Herr : checksum_errors (sdio_verify_rx_block m) =
                 checksum_errors m +
                 (if block_ok m (blocks_checksumed m) then 0 else 1)).
  { unfold sdio_verify_rx_block, block_ok. rewrite Hidx. cbn.
    destruct (_ =? block_checksums m _); cbn; [lia|].
    destruct (wrap32 (checksum_errors m + 1) =? 1); cbn;
      rewrite wrap32_small; lia. }
  assert (Hlog : checksum_logs (sdio_verify_rx_block m) =
                 (checksum_logs m +
                  if block_ok m (blocks_checksumed m) then 0
                  else if (checksum_errors m =? 0)%Z then 1 else 0)%nat).
  { unfold sdio_verify_rx_block, block_ok, checksum_logs. rewrite Hidx. cbn.
    destruct (_ =? block_checksums m _); cbn; [lia|].
    rewrite wrap32_small by lia.
    destruct (Z.eqb_spec (checksum_errors m + 1) 1);
      destruct (Z.eqb_spec (checksum_errors m) 0); try lia; cbn.
    - rewrite filter_app, length_app. cbn. lia.
    - lia. }
  split; [|exact Hbc].
  constructor.
  - rewrite Honly. cbn. apply (ri_total _ _ _ I).
  - rewrite Hbc. replace (blocks_done (sdio_verify_rx_block m)) with (blocks_done m)
      by (rewrite Honly; reflexivity). lia.
  - replace (blocks_done (sdio_verify_rx_block m)) with (blocks_done m)
      by (rewrite Honly; reflexivity). exact Hd.
  - exact (ri_max _ _ _ I).
  - replace (transfer_state (sdio_verify_rx_block m)) with (transfer_state m)
      by (rewrite Honly; reflexivity). exact (ri_state _ _ _ I).
  - replace (transfer_state (sdio_verify_rx_block m)) with (transfer_state m)
      by (rewrite Honly; reflexivity).
    replace (blocks_done (sdio_verify_rx_block m)) with (blocks_done m)
      by (rewrite Honly; reflexivity).
    replace (dma (sdio_verify_rx_block m)) with (dma m)
      by (rewrite Honly; reflexivity).
    replace (data_buf (sdio_verify_rx_block m)) with (data_buf m)
      by (rewrite Honly; reflexivity).
    exact (ri_rx _ _ _ I).
  - replace (transfer_state (sdio_verify_rx_block m)) with (transfer_state m)
      by (rewrite Honly; reflexivity).
    replace (dma (sdio_verify_rx_block m)) with (dma m)
      by (rewrite Honly; reflexivity).
    exact (ri_idle _ _ _ I).
  - rewrite Herr, Hbc.
    replace (Z.to_nat (blocks_checksumed m + 1)) with (S (Z.to_nat (blocks_checksumed m))) by lia.
    rewrite mismatches_succ.
    rewrite (mismatches_ext m (sdio_verify_rx_block m))
      by (intros; apply only_verification_block_ok, Honly).
    rewrite (only_verification_block_ok m _ _ Honly).
    rewrite Z2Nat.id by lia. lia.
  - rewrite Hlog, Herr, Hl.
    destruct (block_ok m (blocks_checksumed m));
      destruct (Z.eqb_spec (checksum_errors m) 0);
      repeat match goal with |- context [?a =? ?b] => destruct (Z.eqb_spec a b) end;
      lia.
Qed.

(** The loop verifies [min maxcount (blocks_done - blocks_checksumed)]
    blocks. *)
Lemma verify_inv (n : Z) (base : nat) (k : nat) :
  forall m, rx_inv n base m ->
  rx_inv n base (sdio_verify_rx_checksums k m) /\
  blocks_checksumed (sdio_verify_rx_checksums k m) =
  Z.min (blocks_done m) (blocks_checksumed m + Z.of_nat k).
Proof.
  induction k as [|k IH]; intros m I; cbn [sdio_verify_rx_checksums].
  - pose proof (ri_checksumed _ _ _ I).
    destruct (Z.ltb_spec (blocks_checksumed m) (blocks_done m)); split; auto; lia.
  - pose proof (ri_checksumed _ _ _ I).
    destruct (Z.ltb_spec (blocks_checksumed m) (blocks_done m)); [|split; auto; lia].
    destruct (verify_block_inv n base m I) as [I' Hbc]; [assumption|].
    destruct (IH _ I') as [I'' Hbc'].
    split; [exact I''|].
    rewrite Hbc', Hbc.
    replace (blocks_done (sdio_verify_rx_block m)) with (blocks_done m)
      by (rewrite (verify_block_only m); reflexivity).
    lia.
Qed.

End Verification.

(** *** Receive sessions *)

Section Receive.
Import CRC Xfer Session.

Lemma rx_start_inv (buffer n now : Z) (va : bool) (m0 : machine) :
  1 <= n <= SDIO_MAX_BLOCKS ->
  rx_inv n (checksum_logs m0) (snd (rp2040_sdio_rx_start buffer n now va m0)).
Proof.
  intros Hn. unfold SDIO_MAX_BLOCKS in Hn.
  constructor; cbn; try reflexivity; try lia; try (unfold SDIO_MAX_BLOCKS; lia); auto.
  - intros _. split; [lia | reflexivity].
  - discriminate.
Qed.

(** The handler run on the completion of the block that the DMA engine was
    busy with, field by field. *)
Lemma rx_irq_fields (env : handler_env) (data : list Z) (m : machine) (a : Z) :
  dma m = DMA_TO_BUFFER a 128 -> 0 <= blocks_done m < 2 ^ 32 - 1 ->
  let m' := rp2040_sdio_rx_irq env (dma_complete data m) in
  let more := blocks_done m + 1 <? total_blocks m in
  blocks_done m' = blocks_done m + 1 /\
  total_blocks m' = total_blocks m /\
  blocks_checksumed m' = blocks_checksumed m /\
  checksum_errors m' = checksum_errors m /\
  data_buf m' = data_buf m /\
  transfer_start_time m' = transfer_start_time m /\
  inside_irq_handler m' = inside_irq_handler m /\
  ram m' = store_block (ram m) a 128 (map CRC.bswap32 data) /\
  block_checksums m' =
    store_checksum (blocks_done m)
      (Z.lor (Z.shiftl (u32 (he_crc0 env)) 32) (u32 (he_crc1 env)))
      (block_checksums m) /\
  transfer_state m' = (if more then transfer_state m else SDIO_IDLE) /\
  dma m' = (if more then DMA_TO_BUFFER (data_buf m + 128 * (blocks_done m + 1)) 128
            else DMA_IDLE) /\
  checksum_logs m' = checksum_logs m.
Proof.
  intros Hdma Hbd. unfold dma_complete. rewrite Hdma.
  unfold rp2040_sdio_rx_irq, sdio_start_next_block_rx, checksum_logs, azlog.
  destruct (he_wait_timeout env); destruct m; cbn in *;
    rewrite (wrap32_small (blocks_done0 + 1)) by lia;
    destruct (blocks_done0 + 1 <? total_blocks0); cbn;
    rewrite ?filter_app, ?length_app; cbn; repeat split; lia.
Qed.

Lemma rx_irq_inv (n : Z) (base : nat) (env : handler_env) (data : list Z) (m : machine) :
  rx_inv n base m -> transfer_state m = SDIO_RX ->
  let m' := rp2040_sdio_rx_irq env (dma_complete data m) in
  rx_inv n base m' /\
  blocks_done m' = blocks_done m + 1 /\
  blocks_checksumed m' = blocks_checksumed m /\
  transfer_start_time m' = transfer_start_time m /\
  inside_irq_handler m' = inside_irq_handler m /\
  (transfer_state m' = SDIO_IDLE <-> blocks_done m + 1 = n).
Proof.
  intros I Hrx m'.
  destruct (ri_rx _ _ _ I Hrx) as [Hlt Hdma].
  pose proof (ri_checksumed _ _ _ I) as Hc.
  pose proof (ri_total _ _ _ I) as Ht.
  pose proof (ri_max _ _ _ I) as Hmax. unfold SDIO_MAX_BLOCKS in Hmax.
  pose proof (ri_errors _ _ _ I) as He.
  pose proof (ri_logs _ _ _ I) as Hl.
  destruct (rx_irq_fields env data m _ Hdma) as
    (Fbd & Ftot & Fbc & Ferr & Fbuf & Ftime & Fin & Fram & Ftab & Fst & Fdma & Flog);
    [lia|].
  fold m' in Fbd, Ftot, Fbc, Ferr, Fbuf, Ftime, Fin, Fram, Ftab, Fst, Fdma, Flog.
  assert (Hok : forall i, 0 <= i < blocks_done m -> block_ok m' i = block_ok m i).
  { intros i Hi. unfold block_ok. rewrite Fram, Fbuf, Ftab.
    unfold store_checksum. destruct (Z.eqb_spec i (blocks_done m)); [lia|].
    unfold sdio_crc16_4bit_checksum. rewrite load_store_other; [reflexivity|].
    left. change (Z.of_nat (Z.to_nat 128)) with 128. lia. }
  rewrite Ht in *.
  split; [|repeat (split; [assumption|]); split].
  - constructor.
    + congruence.
    + lia.
    + lia.
    + exact (ri_max _ _ _ I).
    + rewrite Fst. destruct (_ <? _); auto.
    + rewrite Fst, Fdma, Fbd, Fbuf.
      destruct (Z.ltb_spec (blocks_done m + 1) n); [|discriminate].
      intros _. split; [lia | reflexivity].
    + rewrite Fst, Fdma.
      destruct (Z.ltb_spec (blocks_done m + 1) n); [congruence | reflexivity].
    + rewrite Ferr, Fbc, He. symmetry. apply mismatches_ext.
      intros i Hi. apply Hok. lia.
    + rewrite Flog, Ferr. exact Hl.
  - rewrite Fst. destruct (Z.ltb_spec (blocks_done m + 1) n); [congruence | lia].
  - rewrite Fst. destruct (Z.ltb_spec (blocks_done m + 1) n); [lia | reflexivity].
Qed.

(** The three branches of the poll, after the dispatch. *)
Lemma rx_finish_idle (n : Z) (base : nat) (env : poll_env) (m : machine) :
  rx_inv n base m -> transfer_state m = SDIO_IDLE ->
  let r := rx_poll_finish env true m in
  rx_inv n base (pr_machine r) /\
  only_verification_changed m (pr_machine r) /\
  pr_bytes r = Some (blocks_done m * 512) /\
  blocks_checksumed (pr_machine r) = blocks_done m /\
  (pr_status r = SDIO_OK /\ mismatches m (Z.to_nat (blocks_done m)) = 0 \/
   pr_status r = SDIO_ERR_DATA_CRC /\ mismatches m (Z.to_nat (blocks_done m)) <> 0).
Proof.
  intros I Hidle r.
  pose proof (ri_checksumed _ _ _ I) as Hc.
  pose proof (ri_done _ _ _ I) as Hd.
  pose proof (ri_total _ _ _ I) as Ht.
  pose proof (ri_max _ _ _ I) as Hmax. unfold SDIO_MAX_BLOCKS in Hmax.
  destruct (verify_inv n base (Z.to_nat (total_blocks m)) m I) as [I' Hbc].
  pose proof (verify_only (Z.to_nat (total_blocks m)) m) as Honly.
  set (m' := sdio_verify_rx_checksums (Z.to_nat (total_blocks m)) m) in *.
  assert (Hbc' : blocks_checksumed m' = blocks_done m) by lia.
  assert (Hr : r = (if checksum_errors m' =? 0 then SDIO_OK else SDIO_ERR_DATA_CRC,
                    Some (wrap32 (blocks_done m * 512)), m')).
  { subst r. unfold rx_poll_finish. rewrite Hidle. cbn.
    fold m'. destruct (checksum_errors m' =? 0); reflexivity. }
  rewrite Hr. unfold pr_machine, pr_bytes, pr_status. cbn [fst snd].
  split; [exact I'|]. split; [exact Honly|].
  split; [rewrite wrap32_small by lia; reflexivity|].
  split; [exact Hbc'|].
  pose proof (ri_errors _ _ _ I') as He. rewrite Hbc' in He.
  rewrite (mismatches_ext m m') in He
    by (intros; apply only_verification_block_ok, Honly).
  rewrite He. destruct (Z.eqb_spec (mismatches m (Z.to_nat (blocks_done m))) 0); auto.
Qed.

Lemma rx_finish_busy (n : Z) (base : nat) (env : poll_env) (m : machine) :
  rx_inv n base m -> transfer_state m = SDIO_RX ->
  wrap32 (pe_millis env - transfer_start_time m) <= 1000 ->
  let r := rx_poll_finish env true m in
  rx_inv n base (pr_machine r) /\
  only_verification_changed m (pr_machine r) /\
  pr_bytes r = Some (blocks_done m * 512) /\
  pr_status r = SDIO_BUSY /\
  blocks_checksumed (pr_machine r) =
    blocks_checksumed m + (if blocks_checksumed m <? blocks_done m then 1 else 0).
Proof.
  intros I Hrx Hel r.
  pose proof (ri_checksumed _ _ _ I) as Hc.
  pose proof (ri_done _ _ _ I) as Hd.
  pose proof (ri_max _ _ _ I) as Hmax. unfold SDIO_MAX_BLOCKS in Hmax.
  destruct (verify_inv n base 1 m I) as [I' Hbc].
  pose proof (verify_only 1 m) as Honly.
  assert (Hr : r = (SDIO_BUSY, Some (wrap32 (blocks_done m * 512)),
                    sdio_verify_rx_checksums 1 m)).
  { subst r. unfold rx_poll_finish. rewrite Hrx. cbn [state_eqb].
    destruct (Z.gtb_spec (wrap32 (pe_millis env - transfer_start_time m)) 1000);
      [lia | reflexivity]. }
  rewrite Hr. unfold pr_machine, pr_bytes, pr_status. cbn [fst snd].
  split; [exact I'|]. split; [exact Honly|].
  split; [rewrite wrap32_small by lia; reflexivity|].
  split; [reflexivity|].
  rewrite Hbc. destruct (Z.ltb_spec (blocks_checksumed m) (blocks_done m)); lia.
Qed.

Lemma rx_finish_timeout (n : Z) (base : nat) (env : poll_env) (m : machine) :
  rx_inv n base m -> transfer_state m = SDIO_RX ->
  wrap32 (pe_millis env - transfer_start_time m) > 1000 ->
  let r := rx_poll_finish env true m in
  rx_inv n base (pr_machine r) /\
  pr_machine r = snd (rp2040_sdio_stop (azlog DBG_RX_POLL_TIMEOUT m)) /\
  pr_bytes r = Some (blocks_done m * 512) /\
  pr_status r = SDIO_ERR_DATA_TIMEOUT.
Proof.
  intros I Hrx Hel r.
  pose proof (ri_checksumed _ _ _ I) as Hc.
  pose proof (ri_done _ _ _ I) as Hd.
  pose proof (ri_max _ _ _ I) as Hmax. unfold SDIO_MAX_BLOCKS in Hmax.
  assert (Hr : r = (SDIO_ERR_DATA_TIMEOUT, Some (wrap32 (blocks_done m * 512)),
                    snd (rp2040_sdio_stop (azlog DBG_RX_POLL_TIMEOUT m)))).
  { subst r. unfold rx_poll_finish. rewrite Hrx. cbn [state_eqb].
    destruct (Z.gtb_spec (wrap32 (pe_millis env - transfer_start_time m)) 1000);
      [reflexivity | lia]. }
  rewrite Hr. unfold pr_machine, pr_bytes, pr_status. cbn [fst snd].
  split; [|split; [reflexivity|split; [rewrite wrap32_small by lia; reflexivity|reflexivity]]].
  set (m' := snd (rp2040_sdio_stop (azlog DBG_RX_POLL_TIMEOUT m))).
  assert (Hok : forall k, mismatches m' k = mismatches m k)
    by (intros k; apply mismatches_ext; intros; apply block_ok_same; reflexivity).
  constructor.
  - exact (ri_total _ _ _ I).
  - exact Hc.
  - exact Hd.
  - exact (ri_max _ _ _ I).
  - right; reflexivity.
  - discriminate.
  - reflexivity.
  - rewrite Hok. exact (ri_errors _ _ _ I).
  - replace (checksum_logs m') with (checksum_logs m).
    + exact (ri_logs _ _ _ I).
    + unfold checksum_logs. subst m'. cbn. rewrite filter_app, length_app. cbn. lia.
Qed.

Lemma dma_complete_idle (data : list Z) (m : machine) :
  dma m = DMA_IDLE -> dma_complete data m = m.
Proof. intros H. unfold dma_complete. rewrite H. reflexivity. Qed.

Lemma dma_complete_keeps (data : list Z) (m : machine) :
  transfer_state (dma_complete data m) = transfer_state m /\
  inside_irq_handler (dma_complete data m) = inside_irq_handler m.
Proof. unfold dma_complete. destruct (dma m); split; reflexivity. Qed.

Lemma rx_irq_keeps_inside (env : handler_env) (m : machine) :
  inside_irq_handler (rp2040_sdio_rx_irq env m) = inside_irq_handler m.
Proof.
  unfold rp2040_sdio_rx_irq, sdio_start_next_block_rx.
  destruct (he_wait_timeout env); cbn; destruct (_ <? _); reflexivity.
Qed.

Lemma dma_fires_rx (n : Z) (base : nat) (t : tick) (m : machine) :
  rx_inv n base m -> dma_fires t m = true -> transfer_state m = SDIO_RX.
Proof.
  intros I Hf. destruct (ri_state _ _ _ I) as [H|H]; [exact H|].
  unfold dma_fires in Hf. rewrite (ri_idle _ _ _ I H) in Hf.
  destruct (t_block t); discriminate.
Qed.

Lemma dma_not_fired (t : tick) (m : machine) :
  dma_fires t m = false -> dma_progress t m = m.
Proof.
  unfold dma_fires, dma_progress. destruct (t_block t) as [data|]; [|reflexivity].
  intros H. apply dma_complete_idle. destruct (dma m); [reflexivity | discriminate..].
Qed.

(** In either mode a tick is: the handler for the finished block, if any,
    then the rest of the poll. *)
Lemma rx_tick_normal (n : Z) (base : nat) (t : tick) (m : machine) :
  rx_inv n base m ->
  rx_tick t m = rx_poll_finish (tick_env (dma_fires t m) t) true (rx_handled t m).
Proof.
  intros I. unfold rx_tick, rx_handled, rp2040_sdio_rx_poll.
  destruct (dma_fires t m) eqn:Hf.
  - pose proof (dma_fires_rx _ _ _ _ I Hf) as Hrx.
    f_equal. unfold irq_delivery, rx_poll_dispatch, dma_progress, dma_fires in *.
    destruct (t_block t) as [data|]; [|discriminate].
    destruct (dma_complete_keeps data m) as [Hs Hi].
    rewrite Hi. cbn [tick_env pe_ints0 pe_handler].
    destruct (inside_irq_handler m) eqn:Hin; cbn [negb andb].
    + rewrite Hi. reflexivity.
    + unfold rp2040_sdio_dma_irq. rewrite Hs, Hrx.
      rewrite rx_irq_keeps_inside, Hi. reflexivity.
  - rewrite (dma_not_fired _ _ Hf). unfold irq_delivery, rx_poll_dispatch.
    cbn. rewrite andb_false_r. reflexivity.
Qed.

Lemma rx_handled_inv (n : Z) (base : nat) (t : tick) (m : machine) :
  rx_inv n base m ->
  let m' := rx_handled t m in
  rx_inv n base m' /\
  blocks_done m <= blocks_done m' /\
  blocks_checksumed m' = blocks_checksumed m /\
  transfer_start_time m' = transfer_start_time m /\
  inside_irq_handler m' = inside_irq_handler m /\
  (transfer_state m = SDIO_IDLE -> m' = m).
Proof.
  intros I. unfold rx_handled.
  destruct (dma_fires t m) eqn:Hf.
  - pose proof (dma_fires_rx _ _ _ _ I Hf) as Hrx.
    unfold dma_fires, dma_progress in *. destruct (t_block t) as [data|]; [|discriminate].
    destruct (rx_irq_inv n base (t_handler t) data m I Hrx) as (I' & Hbd & Hbc & Ht & Hi & _).
    cbn zeta. repeat (split; [first [assumption | lia]|]). congruence.
  - cbn zeta. repeat (split; [first [assumption | reflexivity | lia]|]). reflexivity.
Qed.

(** What one tick of a receive session does. *)
Lemma rx_tick_spec (n : Z) (base : nat) (t : tick) (m : machine) :
  rx_inv n base m ->
  let h := rx_handled t m in
  let r := rx_tick t m in
  rx_inv n base (pr_machine r) /\
  blocks_done (pr_machine r) = blocks_done h /\
  pr_bytes r = Some (blocks_done h * 512) /\
  match transfer_state h with
  | SDIO_IDLE =>
      only_verification_changed h (pr_machine r) /\
      blocks_checksumed (pr_machine r) = blocks_done h /\
      (pr_status r = SDIO_OK /\ mismatches h (Z.to_nat (blocks_done h)) = 0 \/
       pr_status r = SDIO_ERR_DATA_CRC /\ mismatches h (Z.to_nat (blocks_done h)) <> 0)
  | _ =>
      if elapsed t m >? 1000 then
        pr_status r = SDIO_ERR_DATA_TIMEOUT /\
        pr_machine r = snd (rp2040_sdio_stop (azlog DBG_RX_POLL_TIMEOUT h))
      else
        pr_status r = SDIO_BUSY /\
        only_verification_changed h (pr_machine r) /\
        blocks_checksumed (pr_machine r) =
          blocks_checksumed h + (if blocks_checksumed h <? blocks_done h then 1 else 0)
  end.
Proof.
  intros I h r.
  destruct (rx_handled_inv n base t m I) as (Ih & Hmono & Hbc & Htime & Hin & Hid).
  fold h in Ih, Hmono, Hbc, Htime, Hin, Hid.
  assert (Hr : r = rx_poll_finish (tick_env (dma_fires t m) t) true h)
    by (apply (rx_tick_normal n base); exact I).
  unfold elapsed. rewrite <- Htime.
  destruct (ri_state _ _ _ Ih) as [Hrx|Hidle].
  - rewrite Hrx.
    destruct (Z.gtb_spec (wrap32 (t_millis t - transfer_start_time h)) 1000) as [Hgt|Hle].
    + destruct (rx_finish_timeout n base (tick_env (dma_fires t m) t) h Ih Hrx) as (I' & Hm & Hb & Hs);
        [cbn; lia|].
      rewrite <- Hr in I', Hm, Hb, Hs.
      split; [exact I'|]. split; [rewrite Hm; reflexivity|].
      split; [exact Hb|]. split; assumption.
    + destruct (rx_finish_busy n base (tick_env (dma_fires t m) t) h Ih Hrx) as (I' & Ho & Hb & Hs & Hc);
        [cbn; lia|].
      rewrite <- Hr in I', Ho, Hb, Hs, Hc.
      split; [exact I'|]. split; [rewrite Ho; reflexivity|].
      split; [exact Hb|]. repeat (split; [assumption|]). assumption.
  - rewrite Hidle.
    destruct (rx_finish_idle n base (tick_env (dma_fires t m) t) h Ih Hidle) as (I' & Ho & Hb & Hc & Hs).
    rewrite <- Hr in I', Ho, Hb, Hc, Hs.
    split; [exact I'|]. split; [rewrite Ho; reflexivity|].
    split; [exact Hb|]. repeat (split; [assumption|]). assumption.
Qed.

Lemma rx_tick_inv (n : Z) (base : nat) (t : tick) (m : machine) :
  rx_inv n base m -> rx_inv n base (pr_machine (rx_tick t m)).
Proof. intros I. apply (rx_tick_spec n base t m I). Qed.

Lemma run_cons (step : tick -> machine -> poll_result) (t : tick) (ts : list tick) (m : machine) :
  run step (t :: ts) m =
  ((pr_status (step t m), pr_bytes (step t m)) :: fst (run step ts (pr_machine (step t m))),
   snd (run step ts (pr_machine (step t m)))).
Proof.
  cbn [run]. unfold pr_status, pr_bytes, pr_machine.
  destruct (step t m) as [[st b] m1]. cbn [fst snd].
  destruct (run step ts m1). reflexivity.
Qed.

Lemma rx_run_inv (n : Z) (base : nat) (ts : list tick) :
  forall m, rx_inv n base m -> rx_inv n base (snd (rx_run ts m)).
Proof.
  unfold rx_run. induction ts as [|t ts IH]; intros m I.
  - exact I.
  - rewrite run_cons. cbn [snd]. apply IH, rx_tick_inv, I.
Qed.


Lemma rx_tick_keeps_time (n : Z) (base : nat) (t : tick) (m : machine) :
  rx_inv n base m ->
  transfer_start_time (pr_machine (rx_tick t m)) = transfer_start_time m.
Proof.
  intros I.
  destruct (rx_handled_inv n base t m I) as (_ & _ & _ & Htime & _).
  destruct (rx_tick_spec n base t m I) as (_ & _ & _ & Hcase).
  rewrite <- Htime.
  destruct (transfer_state (rx_handled t m)).
  - destruct Hcase as (Ho & _). rewrite Ho. reflexivity.
  - destruct (elapsed t m >? 1000).
    + destruct Hcase as (_ & Hm). rewrite Hm. reflexivity.
    + destruct Hcase as (_ & Ho & _). rewrite Ho. reflexivity.
  - destruct (elapsed t m >? 1000).
    + destruct Hcase as (_ & Hm). rewrite Hm. reflexivity.
    + destruct Hcase as (_ & Ho & _). rewrite Ho. reflexivity.
Qed.


End Receive.




(** A one-block session whose block arrives with a wrong checksum: the poll
    that dispatches the handler reports the error, with all bytes received,
    and logs one message. *)
Example rx_bad_checksum_sample :
  let r := Session.rx_tick (Session.block_tick [] 0 1 3)
             (snd (Xfer.rp2040_sdio_rx_start 0 1 0 true Session.blank_machine)) in
  Xfer.pr_status r = SDIO_ERR_DATA_CRC /\ Xfer.pr_bytes r = Some 512 /\
  Xfer.logged (Xfer.pr_machine r) = [Xfer.LOG_RX_CHECKSUM_ERROR 0 1].
Proof. vm_compute. repeat split. Qed.

(** *** Polls, call by call *)

Section Polls.
Import CRC Xfer Session.

Lemma rx_irq_keeps_time (env : handler_env) (m : machine) :
  transfer_start_time (rp2040_sdio_rx_irq env m) = transfer_start_time m.
Proof.
  unfold rp2040_sdio_rx_irq, sdio_start_next_block_rx.
  destruct (he_wait_timeout env); destruct m; cbn;
    destruct (wrap32 (blocks_done0 + 1) <? total_blocks0); reflexivity.
Qed.

Lemma tx_irq_keeps_time (env : handler_env) (m : machine) :
  transfer_start_time (rp2040_sdio_tx_irq env m) = transfer_start_time m.
Proof.
  unfold rp2040_sdio_tx_irq, sdio_start_next_block_tx, pio_sm_put.
  destruct (he_wait_timeout env); destruct m; cbn;
    destruct (wrap32 (blocks_done0 + 1) <? total_blocks0); reflexivity.
Qed.

Lemma poll_dispatch_keeps_time (d : direction) (env : poll_env) (m : machine) :
  transfer_start_time (poll_dispatch d env m) = transfer_start_time m.
Proof.
  destruct d; cbn; unfold rx_poll_dispatch, tx_poll_dispatch;
    destruct (_ && _); auto using rx_irq_keeps_time, tx_irq_keeps_time.
Qed.

(** The status of a poll is decided by the state after the dispatch and by
    the clock. *)
Lemma poll_cases (d : direction) (env : poll_env) (wb : bool) (m : machine) :
  let h := poll_dispatch d env m in
  let r := poll d env wb m in
  if state_eqb (transfer_state h) SDIO_IDLE then
    (pr_status r = SDIO_OK \/ d = DIR_RX /\ pr_status r = SDIO_ERR_DATA_CRC) /\
    transfer_state (pr_machine r) = SDIO_IDLE /\
    dma (pr_machine r) = dma h
  else if wrap32 (pe_millis env - transfer_start_time m) >? 1000 then
    pr_status r = SDIO_ERR_DATA_TIMEOUT /\
    pr_machine r = snd (rp2040_sdio_stop (azlog (poll_timeout_message d) h))
  else
    pr_status r = SDIO_BUSY /\
    pr_machine r =
      match d with
      | DIR_RX => if blocks_checksumed h <? blocks_done h
                  then sdio_verify_rx_block h else h
      | DIR_TX => h
      end.
Proof.
  intros h r. pose proof (poll_dispatch_keeps_time d env m) as Ht. fold h in Ht.
  rewrite <- Ht.
  destruct d; subst r; cbn [poll poll_dispatch] in *;
    unfold rp2040_sdio_rx_poll, rp2040_sdio_tx_poll, rx_poll_finish, tx_poll_finish;
    fold h.
  - destruct (state_eqb (transfer_state h) SDIO_IDLE) eqn:Hs.
    + apply state_eqb_eq in Hs.
      pose proof (verify_only (Z.to_nat (total_blocks h)) h) as Ho.
      destruct (checksum_errors _ =? 0); unfold pr_status, pr_machine; cbn [fst snd];
        (split; [auto|]); rewrite Ho; cbn; auto.
    + destruct (_ >? 1000); unfold pr_status, pr_machine; cbn [fst snd]; split; try reflexivity.
      cbn [sdio_verify_rx_checksums]. destruct (_ <? _); [|reflexivity].
      destruct (blocks_checksumed (sdio_verify_rx_block h) <? _); reflexivity.
  - destruct (state_eqb (transfer_state h) SDIO_IDLE) eqn:Hs.
    + apply state_eqb_eq in Hs. unfold pr_status, pr_machine; cbn [fst snd]. cbn. auto.
    + destruct (_ >? 1000); unfold pr_status, pr_machine; cbn [fst snd]; split; reflexivity.
Qed.

End Polls.

(** C5, counterexample to the claim as worded: a poll of a receive session
    that is in flight and within its budget, but with no completed block
    waiting for verification, returns [SDIO_BUSY] without advancing the
    verification; and a poll of a transmit session in flight returns
    [SDIO_BUSY] without computing any checksum. *)
Lemma poll_in_flight_without_checksum_work :
  (Xfer.transfer_state (Session.rx_armed 2 false) = Xfer.SDIO_RX /\
   Xfer.pr_status (Session.rx_tick (Session.quiet_tick 1) (Session.rx_armed 2 false)) = SDIO_BUSY /\
   Xfer.blocks_checksumed (Session.rx_armed 2 false) = 0 /\
   Xfer.blocks_checksumed
     (Xfer.pr_machine (Session.rx_tick (Session.quiet_tick 1) (Session.rx_armed 2 false))) = 0) /\
  (Xfer.transfer_state (Session.tx_armed 2 false) = Xfer.SDIO_TX /\
   Xfer.pr_status (Session.tx_tick (Session.quiet_tick 1) (Session.tx_armed 2 false)) = SDIO_BUSY /\
   Xfer.blocks_checksumed (Session.tx_armed 2 false) = 0 /\
   Xfer.blocks_checksumed
     (Xfer.pr_machine (Session.tx_tick (Session.quiet_tick 1) (Session.tx_armed 2 false))) = 0).
Proof. vm_compute. repeat split. Qed.

(** C5 (as amended): a poll made while the session is in flight (the state
    after the poll's own dispatch is not idle) and within the budget of
    1000 ms returns [SDIO_BUSY]; a receive poll then verifies exactly one
    more block if a completed block is still unverified and none otherwise;
    a transmit poll does no checksum work at all; so a poll forces at most
    one block's worth of checksum work, and it never writes the checksum
    table. *)
Theorem poll_in_flight_checksum_work
    (d : Xfer.direction) (env : Xfer.poll_env) (wb : bool) (m : Xfer.machine)
    (Hflight : Xfer.transfer_state (Xfer.poll_dispatch d env m) <> Xfer.SDIO_IDLE)
    (Hbudget : wrap32 (Xfer.pe_millis env - Xfer.transfer_start_time m) <= 1000) :
  let h := Xfer.poll_dispatch d env m in
  let r := Xfer.poll d env wb m in
  Xfer.pr_status r = SDIO_BUSY /\
  Xfer.pr_machine r =
    match d with
    | Xfer.DIR_RX => if Xfer.blocks_checksumed h <? Xfer.blocks_done h
                     then Xfer.sdio_verify_rx_block h else h
    | Xfer.DIR_TX => h
    end /\
  Xfer.blocks_checksumed (Xfer.pr_machine r) =
    match d with
    | Xfer.DIR_RX => if Xfer.blocks_checksumed h <? Xfer.blocks_done h
                     then wrap32 (Xfer.blocks_checksumed h + 1)
                     else Xfer.blocks_checksumed h
    | Xfer.DIR_TX => Xfer.blocks_checksumed h
    end /\
  Xfer.block_checksums (Xfer.pr_machine r) = Xfer.block_checksums h /\
  Xfer.blocks_done (Xfer.pr_machine r) = Xfer.blocks_done h.
Proof.
  intros h r. pose proof (poll_cases d env wb m) as H. cbv zeta in H.
  fold h r in H.
  apply state_eqb_neq in Hflight. fold h in Hflight. rewrite Hflight in H.
  destruct (Z.gtb_spec (wrap32 (Xfer.pe_millis env - Xfer.transfer_start_time m)) 1000);
    [lia|].
  destruct H as [Hs Hm]. split; [exact Hs|]. split; [exact Hm|].
  rewrite Hm. destruct d.
  - destruct (Xfer.blocks_checksumed h <? Xfer.blocks_done h).
    + pose proof (verify_block_only h) as Ho.
      split; [|split; rewrite Ho; reflexivity].
      unfold Xfer.sdio_verify_rx_block. cbn.
      repeat match goal with |- context [if ?c then _ else _] => destruct c; cbn end;
        reflexivity.
    + repeat split.
  - repeat split.
Qed.

Lemma poll_in_flight_checksum_work_witness :
  Xfer.transfer_state
    (Xfer.poll_dispatch Xfer.DIR_RX (Session.tick_env false (Session.quiet_tick 10))
       (Session.rx_armed 2 false)) <> Xfer.SDIO_IDLE /\
  wrap32 (Xfer.pe_millis (Session.tick_env false (Session.quiet_tick 10)) -
          Xfer.transfer_start_time (Session.rx_armed 2 false)) <= 1000 /\
  Xfer.pr_status
    (Xfer.poll Xfer.DIR_RX (Session.tick_env false (Session.quiet_tick 10)) true
       (Session.rx_armed 2 false)) = SDIO_BUSY.
Proof.
  assert (H1 : Xfer.transfer_state
                 (Xfer.poll_dispatch Xfer.DIR_RX
                    (Session.tick_env false (Session.quiet_tick 10))
                    (Session.rx_armed 2 false))
               <> Xfer.SDIO_IDLE) by (vm_compute; discriminate).
  assert (H2 : wrap32 (Xfer.pe_millis (Session.tick_env false (Session.quiet_tick 10)) -
                       Xfer.transfer_start_time (Session.rx_armed 2 false))
               <= 1000) by (vm_compute; discriminate).
  split; [exact H1|]. split; [exact H2|].
  apply (poll_in_flight_checksum_work Xfer.DIR_RX _ true _ H1 H2).
Defined.

(** C10: [rp2040_sdio_stop], from any machine state, returns [SDIO_OK] and
    leaves the session idle, the DMA channel aborted, the data state machine
    disabled and the data pins as inputs; calling it again changes nothing
    more. *)
Theorem stop_forces_idle_and_is_idempotent (m : Xfer.machine) :
  let m' := snd (Xfer.rp2040_sdio_stop m) in
  fst (Xfer.rp2040_sdio_stop m) = SDIO_OK /\
  Xfer.transfer_state m' = Xfer.SDIO_IDLE /\
  Xfer.dma m' = Xfer.DMA_IDLE /\
  Xfer.data_sm_enabled m' = false /\
  Xfer.data_pins_out m' = false /\
  Xfer.rp2040_sdio_stop m' = Xfer.rp2040_sdio_stop m.
Proof. destruct m; cbn. repeat split. Qed.

(** [rp2040_sdio_stop] in the middle of a block of a receive session and of
    a transmit session. *)
Example stop_mid_block_samples :
  let mr := snd (Xfer.rp2040_sdio_rx_start 0 4 0 false Session.blank_machine) in
  let mt := snd (Xfer.rp2040_sdio_tx_start 0 4 0 false Session.blank_machine) in
  (Xfer.transfer_state mr, Xfer.dma mr, Xfer.data_sm_enabled mr) =
    (Xfer.SDIO_RX, Xfer.DMA_TO_BUFFER 0 128, true) /\
  (Xfer.transfer_state mt, Xfer.dma mt, Xfer.data_sm_enabled mt, Xfer.data_pins_out mt) =
    (Xfer.SDIO_TX, Xfer.DMA_FROM_BUFFER 0 128, true, true) /\
  (let s := snd (Xfer.rp2040_sdio_stop mr) in
   (Xfer.transfer_state s, Xfer.dma s, Xfer.data_sm_enabled s, Xfer.data_pins_out s)) =
    (Xfer.SDIO_IDLE, Xfer.DMA_IDLE, false, false) /\
  (let s := snd (Xfer.rp2040_sdio_stop mt) in
   (Xfer.transfer_state s, Xfer.dma s, Xfer.data_sm_enabled s, Xfer.data_pins_out s)) =
    (Xfer.SDIO_IDLE, Xfer.DMA_IDLE, false, false).
Proof. vm_compute. repeat split. Qed.

(** C6: a poll (receive or transmit) that, after its own dispatch, finds the
    session not idle more than 1000 ms after arming returns
    [SDIO_ERR_DATA_TIMEOUT] after running [rp2040_sdio_stop]: the DMA
    channel is aborted, the data state machine disabled, the data pins are
    inputs and the state is idle.  No poll reports an error and leaves the
    DMA channel busy: the timeout error is only ever returned on that path,
    and in a receive session the checksum error is only returned with the
    state idle and the DMA channel idle. *)
Theorem poll_timeout_forces_idle
    (d : Xfer.direction) (env : Xfer.poll_env) (wb : bool) (m : Xfer.machine)
    (Hflight : Xfer.transfer_state (Xfer.poll_dispatch d env m) <> Xfer.SDIO_IDLE)
    (Hlate : wrap32 (Xfer.pe_millis env - Xfer.transfer_start_time m) > 1000) :
  let h := Xfer.poll_dispatch d env m in
  let r := Xfer.poll d env wb m in
  Xfer.pr_status r = SDIO_ERR_DATA_TIMEOUT /\
  Xfer.pr_machine r =
    snd (Xfer.rp2040_sdio_stop (Xfer.azlog (Xfer.poll_timeout_message d) h)) /\
  Xfer.transfer_state (Xfer.pr_machine r) = Xfer.SDIO_IDLE /\
  Xfer.dma (Xfer.pr_machine r) = Xfer.DMA_IDLE /\
  Xfer.data_sm_enabled (Xfer.pr_machine r) = false /\
  Xfer.data_pins_out (Xfer.pr_machine r) = false /\
  (forall d' env' wb' m',
     let r' := Xfer.poll d' env' wb' m' in
     Xfer.pr_status r' = SDIO_ERR_DATA_TIMEOUT ->
     Xfer.transfer_state (Xfer.pr_machine r') = Xfer.SDIO_IDLE /\
     Xfer.dma (Xfer.pr_machine r') = Xfer.DMA_IDLE /\
     Xfer.data_sm_enabled (Xfer.pr_machine r') = false /\
     Xfer.data_pins_out (Xfer.pr_machine r') = false) /\
  (forall buffer n now va m0 ts t,
     1 <= n <= Xfer.SDIO_MAX_BLOCKS ->
     let rs := Session.rx_tick t
                 (snd (Session.rx_run ts
                         (snd (Xfer.rp2040_sdio_rx_start buffer n now va m0)))) in
     Xfer.pr_status rs = SDIO_ERR_DATA_CRC ->
     Xfer.transfer_state (Xfer.pr_machine rs) = Xfer.SDIO_IDLE /\
     Xfer.dma (Xfer.pr_machine rs) = Xfer.DMA_IDLE).
Proof.
  intros h r. pose proof (poll_cases d env wb m) as H. cbv zeta in H.
  fold h r in H.
  apply state_eqb_neq in Hflight. fold h in Hflight. rewrite Hflight in H.
  destruct (Z.gtb_spec (wrap32 (Xfer.pe_millis env - Xfer.transfer_start_time m)) 1000);
    [|lia].
  destruct H as [Hs Hm].
  split; [exact Hs|]. split; [exact Hm|].
  rewrite Hm. repeat (split; [reflexivity|]).
  split.
  - intros d' env' wb' m' r' Hst.
    pose proof (poll_cases d' env' wb' m') as H'. cbv zeta in H'. fold r' in H'.
    match type of H' with
    | if ?c then _ else _ => destruct c
    end.
    + destruct H' as ([H'|[_ H']] & _); congruence.
    + match type of H' with
      | if ?c then _ else _ => destruct c
      end.
      * destruct H' as [_ Hm']. rewrite Hm'. repeat split.
      * destruct H' as [H' _]. congruence.
  - intros buffer n now va m0 ts t Hn rs Hst.
    pose proof (rx_start_inv buffer n now va m0 Hn) as I0.
    pose proof (rx_run_inv n _ ts _ I0) as I.
    pose proof (rx_tick_spec n _ t _ I) as (Ir & _ & _ & Hcase).
    fold rs in Ir, Hcase.
    assert (Hidle : Xfer.transfer_state (Xfer.pr_machine rs) = Xfer.SDIO_IDLE).
    { match type of Hcase with
      | match ?x with _ => _ end => destruct x eqn:Hh
      end.
      - destruct Hcase as (Ho & _). rewrite Ho. cbn. exact Hh.
      - match type of Hcase with
        | if ?c then _ else _ => destruct c
        end; destruct Hcase as [Hc _]; congruence.
      - match type of Hcase with
        | if ?c then _ else _ => destruct c
        end; destruct Hcase as [Hc _]; congruence. }
    split; [exact Hidle|]. exact (Session.ri_idle _ _ _ Ir Hidle).
Qed.

Lemma poll_timeout_forces_idle_witness :
  Xfer.transfer_state
    (Xfer.poll_dispatch Xfer.DIR_TX (Session.tick_env false (Session.quiet_tick 1001))
       (Session.tx_armed 2 true)) <> Xfer.SDIO_IDLE /\
  wrap32 (Xfer.pe_millis (Session.tick_env false (Session.quiet_tick 1001)) -
          Xfer.transfer_start_time (Session.tx_armed 2 true)) > 1000 /\
  Xfer.pr_status
    (Xfer.poll Xfer.DIR_TX (Session.tick_env false (Session.quiet_tick 1001)) true
       (Session.tx_armed 2 true)) = SDIO_ERR_DATA_TIMEOUT /\
  Xfer.dma
    (Xfer.pr_machine
       (Xfer.poll Xfer.DIR_TX (Session.tick_env false (Session.quiet_tick 1001)) true
          (Session.tx_armed 2 true))) = Xfer.DMA_IDLE.
Proof.
  assert (H1 : Xfer.transfer_state
                 (Xfer.poll_dispatch Xfer.DIR_TX
                    (Session.tick_env false (Session.quiet_tick 1001))
                    (Session.tx_armed 2 true))
               <> Xfer.SDIO_IDLE) by (vm_compute; discriminate).
  assert (H2 : wrap32 (Xfer.pe_millis (Session.tick_env false (Session.quiet_tick 1001)) -
                       Xfer.transfer_start_time (Session.tx_armed 2 true))
               > 1000) by (vm_compute; reflexivity).
  pose proof (poll_timeout_forces_idle Xfer.DIR_TX _ true _ H1 H2) as H.
  cbv zeta in H. destruct H as (Hs & _ & _ & Hd & _).
  split; [exact H1|]. split; [exact H2|]. split; [exact Hs | exact Hd].
Defined.

(** *** Transmit sessions *)

Section Transmit.
Import CRC Xfer Session.

(** [rp2040_sdio_tx_start], field by field: both calls of
    [sdio_compute_tx_checksums] find [blocks_checksumed = blocks_done = 0]
    and return at once. *)
Lemma tx_start_fields (buffer n now : Z) (va : bool) (m0 : machine) :
  let m := snd (rp2040_sdio_tx_start buffer n now va m0) in
  transfer_state m = SDIO_TX /\
  inside_irq_handler m = va /\
  transfer_start_time m = now /\
  data_buf m = buffer /\
  blocks_done m = 0 /\
  total_blocks m = n /\
  blocks_checksumed m = 0 /\
  block_checksums m = block_checksums m0 /\
  dma m = DMA_FROM_BUFFER (buffer + 128 * 0) 128 /\
  data_tx_fifo m = data_tx_fifo m0 /\
  ram m = ram m0.
Proof.
  unfold rp2040_sdio_tx_start. cbn.
  destruct (Z.to_nat n); cbn; repeat split.
Qed.

Lemma tx_start_inv (buffer n now : Z) (va : bool) (m0 : machine) :
  1 <= n <= SDIO_MAX_BLOCKS ->
  tx_inv n (snd (rp2040_sdio_tx_start buffer n now va m0)).
Proof.
  intros Hn.
  destruct (tx_start_fields buffer n now va m0)
    as (Hs & _ & _ & Hb & Hd & Ht & _ & _ & Hdma & _).
  constructor.
  - exact Ht.
  - rewrite Hd. lia.
  - lia.
  - left; exact Hs.
  - intros _. rewrite Hd, Hdma, Hb. split; [lia | reflexivity].
  - rewrite Hs. discriminate.
Qed.

Lemma tx_irq_fields (env : handler_env) (data : list Z) (m : machine) (a : Z) :
  dma m = DMA_FROM_BUFFER a 128 -> 0 <= blocks_done m < 2 ^ 32 - 1 ->
  let m' := rp2040_sdio_tx_irq env (dma_complete data m) in
  let more := blocks_done m + 1 <? total_blocks m in
  let crc := block_checksums m (blocks_done m) in
  blocks_done m' = blocks_done m + 1 /\
  total_blocks m' = total_blocks m /\
  blocks_checksumed m' = blocks_checksumed m /\
  block_checksums m' = block_checksums m /\
  data_buf m' = data_buf m /\
  transfer_start_time m' = transfer_start_time m /\
  inside_irq_handler m' = inside_irq_handler m /\
  ram m' = ram m /\
  data_tx_fifo m' =
    data_tx_fifo m ++ map CRC.bswap32 (load_words (ram m) a 128) ++
    [u32 (Z.shiftr crc 32); u32 (Z.shiftr crc 0); 0xFFFFFFFF] /\
  transfer_state m' = (if more then transfer_state m else SDIO_IDLE) /\
  dma m' = (if more then DMA_FROM_BUFFER (data_buf m + 128 * (blocks_done m + 1)) 128
            else DMA_IDLE).
Proof.
  intros Hdma Hbd. unfold dma_complete. rewrite Hdma.
  unfold rp2040_sdio_tx_irq, sdio_start_next_block_tx, pio_sm_put, azlog.
  change (Z.to_nat 128) with 128%nat.
  destruct (he_wait_timeout env); destruct m; cbn -[load_words] in *;
    rewrite (wrap32_small (blocks_done0 + 1)) by lia;
    destruct (blocks_done0 + 1 <? total_blocks0); cbn -[load_words];
    rewrite <- ?app_assoc; cbn -[load_words]; repeat split.
Qed.

Lemma tx_irq_inv (n : Z) (env : handler_env) (data : list Z) (m : machine) :
  tx_inv n m -> transfer_state m = SDIO_TX ->
  let m' := rp2040_sdio_tx_irq env (dma_complete data m) in
  tx_inv n m' /\
  blocks_checksumed m' = blocks_checksumed m /\
  block_checksums m' = block_checksums m.
Proof.
  intros I Htx m'.
  destruct (ti_tx _ _ I Htx) as [Hlt Hdma].
  pose proof (ti_done _ _ I) as Hd.
  pose proof (ti_total _ _ I) as Ht.
  pose proof (ti_max _ _ I) as Hmax. unfold SDIO_MAX_BLOCKS in Hmax.
  destruct (tx_irq_fields env data m _ Hdma) as
    (Fbd & Ftot & Fbc & Ftab & Fbuf & _ & _ & _ & _ & Fst & Fdma); [lia|].
  fold m' in Fbd, Ftot, Fbc, Ftab, Fbuf, Fst, Fdma.
  rewrite Ht in *.
  split; [|split; assumption].
  constructor.
  - congruence.
  - lia.
  - exact (ti_max _ _ I).
  - rewrite Fst. destruct (_ <? _); auto.
  - rewrite Fst, Fdma, Fbd, Fbuf.
    destruct (Z.ltb_spec (blocks_done m + 1) n); [|discriminate].
    intros _. split; [lia | reflexivity].
  - rewrite Fst, Fdma.
    destruct (Z.ltb_spec (blocks_done m + 1) n); [congruence | reflexivity].
Qed.

Lemma tx_irq_keeps_inside (env : handler_env) (m : machine) :
  inside_irq_handler (rp2040_sdio_tx_irq env m) = inside_irq_handler m.
Proof.
  unfold rp2040_sdio_tx_irq, sdio_start_next_block_tx, pio_sm_put.
  destruct (he_wait_timeout env); destruct m; cbn;
    destruct (wrap32 (blocks_done0 + 1) <? total_blocks0); reflexivity.
Qed.

Lemma dma_fires_tx (n : Z) (t : tick) (m : machine) :
  tx_inv n m -> dma_fires t m = true -> transfer_state m = SDIO_TX.
Proof.
  intros I Hf. destruct (ti_state _ _ I) as [H|H]; [exact H|].
  unfold dma_fires in Hf. rewrite (ti_idle _ _ I H) in Hf.
  destruct (t_block t); discriminate.
Qed.

Lemma tx_tick_normal (n : Z) (t : tick) (m : machine) :
  tx_inv n m ->
  tx_tick t m = tx_poll_finish (tick_env (dma_fires t m) t) true (tx_handled t m).
Proof.
  intros I. unfold tx_tick, tx_handled, rp2040_sdio_tx_poll.
  destruct (dma_fires t m) eqn:Hf.
  - pose proof (dma_fires_tx _ _ _ I Hf) as Htx.
    f_equal. unfold irq_delivery, tx_poll_dispatch, dma_progress, dma_fires in *.
    destruct (t_block t) as [data|]; [|discriminate].
    destruct (dma_complete_keeps data m) as [Hs Hi].
    rewrite Hi. cbn [tick_env pe_ints0 pe_handler].
    destruct (inside_irq_handler m) eqn:Hin; cbn [negb andb].
    + rewrite Hi. reflexivity.
    + unfold rp2040_sdio_dma_irq. rewrite Hs, Htx.
      rewrite tx_irq_keeps_inside, Hi. reflexivity.
  - rewrite (dma_not_fired _ _ Hf). unfold irq_delivery, tx_poll_dispatch.
    cbn. rewrite andb_false_r. reflexivity.
Qed.

Lemma tx_handled_inv (n : Z) (t : tick) (m : machine) :
  tx_inv n m ->
  let m' := tx_handled t m in
  tx_inv n m' /\
  blocks_checksumed m' = blocks_checksumed m /\
  block_checksums m' = block_checksums m.
Proof.
  intros I. unfold tx_handled.
  destruct (dma_fires t m) eqn:Hf.
  - pose proof (dma_fires_tx _ _ _ I Hf) as Htx.
    unfold dma_fires, dma_progress in *. destruct (t_block t) as [data|]; [|discriminate].
    apply (tx_irq_inv n (t_handler t) data m I Htx).
  - cbn zeta. auto.
Qed.

Lemma tx_finish_inv (n : Z) (env : poll_env) (m : machine) :
  tx_inv n m ->
  let r := tx_poll_finish env true m in
  tx_inv n (pr_machine r) /\
  blocks_checksumed (pr_machine r) = blocks_checksumed m /\
  block_checksums (pr_machine r) = block_checksums m.
Proof.
  intros I. unfold tx_poll_finish.
  destruct (ti_state _ _ I) as [Hs|Hs]; rewrite Hs; cbn [state_eqb].
  - destruct (_ >? 1000); unfold pr_machine; cbn [snd]; [|auto].
    split; [|split; reflexivity].
    constructor; cbn; try discriminate; auto.
    + exact (ti_total _ _ I).
    + exact (ti_done _ _ I).
    + exact (ti_max _ _ I).
  - unfold pr_machine; cbn [snd]. split; [|split; reflexivity].
    constructor; cbn.
    + exact (ti_total _ _ I).
    + exact (ti_done _ _ I).
    + exact (ti_max _ _ I).
    + auto.
    + congruence.
    + intros _. exact (ti_idle _ _ I Hs).
Qed.

Lemma tx_tick_inv (n : Z) (t : tick) (m : machine) :
  tx_inv n m ->
  let r := tx_tick t m in
  tx_inv n (pr_machine r) /\
  blocks_checksumed (pr_machine r) = blocks_checksumed m /\
  block_checksums (pr_machine r) = block_checksums m.
Proof.
  intros I. cbv zeta. rewrite (tx_tick_normal n t m I).
  destruct (tx_handled_inv n t m I) as (Ih & Hbc & Htab).
  destruct (tx_finish_inv n (tick_env (dma_fires t m) t) _ Ih) as (Ir & Hbc' & Htab').
  split; [exact Ir|]. split; congruence.
Qed.

Lemma tx_run_inv (n : Z) (ts : list tick) :
  forall m, tx_inv n m ->
  tx_inv n (snd (tx_run ts m)) /\
  blocks_checksumed (snd (tx_run ts m)) = blocks_checksumed m /\
  block_checksums (snd (tx_run ts m)) = block_checksums m.
Proof.
  unfold tx_run. induction ts as [|t ts IH]; intros m I.
  - auto.
  - rewrite run_cons. cbn [snd].
    destruct (tx_tick_inv n t m I) as (I' & Hbc & Htab).
    destruct (IH _ I') as (I'' & Hbc' & Htab').
    split; [exact I''|]. split; congruence.
Qed.

End Transmit.

(** In a transmit session the checksum table is never written and no block
    is ever counted as checksummed: the loop of [sdio_compute_tx_checksums]
    only runs while [blocks_checksumed < blocks_done], which does not hold
    when [rp2040_sdio_tx_start] calls it, and the polls do not call it. *)
Lemma tx_session_never_computes_checksums
    (buffer n now : Z) (va : bool) (m0 : Xfer.machine) (ts : list Session.tick) :
  1 <= n <= Xfer.SDIO_MAX_BLOCKS ->
  let m := snd (Session.tx_run ts (snd (Xfer.rp2040_sdio_tx_start buffer n now va m0))) in
  Xfer.blocks_checksumed m = 0 /\
  Xfer.block_checksums m = Xfer.block_checksums m0.
Proof.
  intros Hn m.
  destruct (tx_start_fields buffer n now va m0) as (_ & _ & _ & _ & _ & _ & Hbc & Htab & _).
  destruct (tx_run_inv n ts _ (tx_start_inv buffer n now va m0 Hn)) as (_ & Hbc' & Htab').
  fold m in Hbc', Htab'. split; congruence.
Qed.

(** C1 (the code departs from the claim): a one-block transmit session over
    a block whose CRC16x4 is [0x1100000110100110], started on a machine whose
    checksum table is all zero.  After [rp2040_sdio_tx_start] no block counts
    as checksummed, entry 0 of the table is still 0, and the condition that
    [sdio_start_next_block_tx] asserts ([blocks_checksumed > blocks_done])
    is false; when the block's DMA transfer completes, the handler appends
    the stale entry (two zero words) and the end marker to the 128
    byte-swapped data words, and the poll reports [SDIO_OK]. *)
Theorem tx_start_leaves_first_checksum_stale :
  let m0 := Xfer.set_ram Session.one_bit_memory Session.blank_machine in
  let m := snd (Xfer.rp2040_sdio_tx_start 0 1 0 false m0) in
  let r := Session.tx_tick (Session.block_tick [] 0 0 1) m in
  CRC.sdio_crc16_4bit_checksum (Xfer.ram m) (Xfer.data_buf m) 128 = 0x1100000110100110 /\
  Xfer.blocks_checksumed m = 0 /\
  Xfer.block_checksums m 0 = 0 /\
  Xfer.sdio_start_next_block_tx_assert m = false /\
  Xfer.pr_status r = SDIO_OK /\
  firstn 128 (Xfer.data_tx_fifo (Xfer.pr_machine r)) = 0x01000000 :: repeat 0 127 /\
  skipn 128 (Xfer.data_tx_fifo (Xfer.pr_machine r)) = [0; 0; 0xFFFFFFFF].
Proof. vm_compute. repeat split. Qed.

(** *** The two completion-detection modes *)

Section Modes.
Import CRC Xfer Session.

(** [inside_irq_handler] is read by the dispatch of the polls and by the
    delivery of the interrupt only: everything else commutes with setting
    it. *)
Lemma flag_dma_complete (v : bool) (data : list Z) (m : machine) :
  dma_complete data (set_inside_irq_handler v m) =
  set_inside_irq_handler v (dma_complete data m).
Proof. unfold dma_complete. cbn. destruct (dma m); reflexivity. Qed.

Lemma flag_rx_irq (v : bool) (env : handler_env) (m : machine) :
  rp2040_sdio_rx_irq env (set_inside_irq_handler v m) =
  set_inside_irq_handler v (rp2040_sdio_rx_irq env m).
Proof.
  unfold rp2040_sdio_rx_irq, sdio_start_next_block_rx.
  destruct (he_wait_timeout env); destruct m; cbn;
    destruct (wrap32 (blocks_done0 + 1) <? total_blocks0); reflexivity.
Qed.

Lemma flag_tx_irq (v : bool) (env : handler_env) (m : machine) :
  rp2040_sdio_tx_irq env (set_inside_irq_handler v m) =
  set_inside_irq_handler v (rp2040_sdio_tx_irq env m).
Proof.
  unfold rp2040_sdio_tx_irq, sdio_start_next_block_tx, pio_sm_put.
  destruct (he_wait_timeout env); destruct m; cbn;
    destruct (wrap32 (blocks_done0 + 1) <? total_blocks0); reflexivity.
Qed.

Lemma flag_verify_block (v : bool) (m : machine) :
  sdio_verify_rx_block (set_inside_irq_handler v m) =
  set_inside_irq_handler v (sdio_verify_rx_block m).
Proof.
  unfold sdio_verify_rx_block. destruct m; cbn.
  repeat match goal with |- context [if ?c then _ else _] => destruct c; cbn end;
    reflexivity.
Qed.

Lemma flag_verify (v : bool) (k : nat) :
  forall m,
  sdio_verify_rx_checksums k (set_inside_irq_handler v m) =
  set_inside_irq_handler v (sdio_verify_rx_checksums k m).
Proof.
  induction k as [|k IH]; intros m; cbn [sdio_verify_rx_checksums].
  - change (blocks_checksumed (set_inside_irq_handler v m)) with (blocks_checksumed m).
    change (blocks_done (set_inside_irq_handler v m)) with (blocks_done m).
    destruct (_ <? _); reflexivity.
  - change (blocks_checksumed (set_inside_irq_handler v m)) with (blocks_checksumed m).
    change (blocks_done (set_inside_irq_handler v m)) with (blocks_done m).
    destruct (_ <? _); [|reflexivity].
    rewrite flag_verify_block. apply IH.
Qed.

Lemma with_flag_status (v : bool) (r : poll_result) :
  pr_status (with_flag v r) = pr_status r.
Proof. reflexivity. Qed.

Lemma with_flag_bytes (v : bool) (r : poll_result) :
  pr_bytes (with_flag v r) = pr_bytes r.
Proof. reflexivity. Qed.

Lemma with_flag_machine (v : bool) (r : poll_result) :
  pr_machine (with_flag v r) = set_inside_irq_handler v (pr_machine r).
Proof. reflexivity. Qed.

Lemma flag_rx_finish (v : bool) (env : poll_env) (wb : bool) (m : machine) :
  rx_poll_finish env wb (set_inside_irq_handler v m) =
  with_flag v (rx_poll_finish env wb m).
Proof.
  unfold rx_poll_finish, with_flag.
  change (transfer_state (set_inside_irq_handler v m)) with (transfer_state m).
  change (total_blocks (set_inside_irq_handler v m)) with (total_blocks m).
  change (blocks_done (set_inside_irq_handler v m)) with (blocks_done m).
  change (transfer_start_time (set_inside_irq_handler v m)) with (transfer_start_time m).
  rewrite !flag_verify.
  change (checksum_errors (set_inside_irq_handler v ?x)) with (checksum_errors x).
  destruct (state_eqb _ _).
  - destruct (_ =? 0); reflexivity.
  - destruct (_ >? 1000); reflexivity.
Qed.

Lemma flag_tx_finish (v : bool) (env : poll_env) (wb : bool) (m : machine) :
  tx_poll_finish env wb (set_inside_irq_handler v m) =
  with_flag v (tx_poll_finish env wb m).
Proof.
  unfold tx_poll_finish, with_flag.
  change (transfer_state (set_inside_irq_handler v m)) with (transfer_state m).
  change (blocks_done (set_inside_irq_handler v m)) with (blocks_done m).
  change (transfer_start_time (set_inside_irq_handler v m)) with (transfer_start_time m).
  destruct (state_eqb _ _); [reflexivity|].
  destruct (_ >? 1000); reflexivity.
Qed.

Lemma flag_rx_handled (v : bool) (t : tick) (m : machine) :
  rx_handled t (set_inside_irq_handler v m) =
  set_inside_irq_handler v (rx_handled t m).
Proof.
  unfold rx_handled, dma_progress.
  change (dma_fires t (set_inside_irq_handler v m)) with (dma_fires t m).
  destruct (dma_fires t m); [|reflexivity].
  destruct (t_block t); [rewrite flag_dma_complete|]; apply flag_rx_irq.
Qed.

Lemma flag_tx_handled (v : bool) (t : tick) (m : machine) :
  tx_handled t (set_inside_irq_handler v m) =
  set_inside_irq_handler v (tx_handled t m).
Proof.
  unfold tx_handled, dma_progress.
  change (dma_fires t (set_inside_irq_handler v m)) with (dma_fires t m).
  destruct (dma_fires t m); [|reflexivity].
  destruct (t_block t); [rewrite flag_dma_complete|]; apply flag_tx_irq.
Qed.

Lemma flag_rx_inv (n : Z) (base : nat) (v : bool) (m : machine) :
  rx_inv n base m -> rx_inv n base (set_inside_irq_handler v m).
Proof.
  intros I.
  assert (Hm : forall k, mismatches (set_inside_irq_handler v m) k = mismatches m k)
    by (intros k; apply mismatches_ext; intros; apply block_ok_same; reflexivity).
  constructor; try rewrite Hm; apply I.
Qed.

Lemma flag_tx_inv (n : Z) (v : bool) (m : machine) :
  tx_inv n m -> tx_inv n (set_inside_irq_handler v m).
Proof. intros I. constructor; apply I. Qed.

Lemma flag_rx_tick (n : Z) (base : nat) (v : bool) (t : tick) (m : machine) :
  rx_inv n base m ->
  rx_tick t (set_inside_irq_handler v m) = with_flag v (rx_tick t m).
Proof.
  intros I.
  rewrite (rx_tick_normal n base t _ (flag_rx_inv n base v m I)).
  rewrite (rx_tick_normal n base t m I).
  rewrite flag_rx_handled, flag_rx_finish. reflexivity.
Qed.

Lemma flag_tx_tick (n : Z) (v : bool) (t : tick) (m : machine) :
  tx_inv n m ->
  tx_tick t (set_inside_irq_handler v m) = with_flag v (tx_tick t m).
Proof.
  intros I.
  rewrite (tx_tick_normal n t _ (flag_tx_inv n v m I)).
  rewrite (tx_tick_normal n t m I).
  rewrite flag_tx_handled, flag_tx_finish. reflexivity.
Qed.

Lemma flag_rx_run (n : Z) (base : nat) (v : bool) (ts : list tick) :
  forall m, rx_inv n base m ->
  rx_run ts (set_inside_irq_handler v m) =
  (fst (rx_run ts m), set_inside_irq_handler v (snd (rx_run ts m))).
Proof.
  unfold rx_run. induction ts as [|t ts IH]; intros m I.
  - reflexivity.
  - rewrite !run_cons. rewrite (flag_rx_tick n base v t m I).
    rewrite with_flag_status, with_flag_bytes, with_flag_machine.
    rewrite (IH _ (rx_tick_inv n base t m I)). reflexivity.
Qed.

Lemma flag_tx_run (n : Z) (v : bool) (ts : list tick) :
  forall m, tx_inv n m ->
  tx_run ts (set_inside_irq_handler v m) =
  (fst (tx_run ts m), set_inside_irq_handler v (snd (tx_run ts m))).
Proof.
  unfold tx_run. induction ts as [|t ts IH]; intros m I.
  - reflexivity.
  - rewrite !run_cons. rewrite (flag_tx_tick n v t m I).
    rewrite with_flag_status, with_flag_bytes, with_flag_machine.
    rewrite (IH _ (proj1 (tx_tick_inv n t m I))). reflexivity.
Qed.



End Modes.

(** A two-block receive timeline, run in both modes. *)
Example two_block_receive_sample :
  let ts := [Session.quiet_tick 1; Session.block_tick [] 0 0 2;
             Session.block_tick [] 0 0 3; Session.quiet_tick 4] in
  fst (Session.rx_run ts (snd (Xfer.rp2040_sdio_rx_start 0 2 0 true Session.blank_machine))) =
    [(SDIO_BUSY, Some 0); (SDIO_BUSY, Some 512); (SDIO_OK, Some 1024); (SDIO_OK, Some 1024)] /\
  fst (Session.rx_run ts (snd (Xfer.rp2040_sdio_rx_start 0 2 0 false Session.blank_machine))) =
    [(SDIO_BUSY, Some 0); (SDIO_BUSY, Some 512); (SDIO_OK, Some 1024); (SDIO_OK, Some 1024)].
Proof. vm_compute. split; reflexivity. Qed.

(** *** Card initialisation *)

Section Init.
Import Cmd Card.

Ltac mstep :=
  cbv beta iota zeta delta
    [bind ret command_R1 command_R2 command_R3 next_reply millis checkReturnOk
     set_error set_ocr set_rca set_cid get_ocr get_rca];
  cbn [fst snd commands_sent clock_reads g_sdio_ocr g_sdio_rca g_sdio_cid g_sdio_error].

Lemma command_R1_status_arg (command arg arg' : Z) (w : bool) (rxf : reply) :
  fst (rp2040_sdio_command_R1 command arg w rxf) =
  fst (rp2040_sdio_command_R1 command arg' w rxf).
Proof. reflexivity. Qed.

(** The loop condition [g_sdio_ocr & (1 << 31)] tests bit 31 of the OCR. *)
Lemma ocr_bit31 (ocr : Z) :
  negb (Z.land ocr (Z.shiftl 1 31) =? 0) = Z.testbit ocr 31.
Proof.
  change (Z.shiftl 1 31) with (2 ^ 31).
  destruct (Z.testbit ocr 31) eqn:Hb.
  - destruct (Z.eqb_spec (Z.land ocr (2 ^ 31)) 0) as [E|_]; [|reflexivity].
    apply (f_equal (fun x => Z.testbit x 31)) in E.
    rewrite Z.land_spec, Hb, Z.pow2_bits_true, Z.bits_0 in E by lia. discriminate.
  - destruct (Z.eqb_spec (Z.land ocr (2 ^ 31)) 0) as [_|N]; [reflexivity|].
    exfalso. apply N. apply Z.bits_inj'. intros n Hn.
    rewrite Z.land_spec, Z.bits_0, Z.pow2_bits_eqb by lia.
    destruct (Z.eqb_spec 31 n) as [<-|_]; [rewrite Hb|]; auto using andb_false_r.
Qed.

Lemma sent_sent (a b : nat) (s : driver) : sent a (sent b s) = sent (a + b) s.
Proof. unfold sent. cbn. f_equal. lia. Qed.

Lemma connect_loop_step (e : card_env) (rem : nat) (reply : Z) (status : sdio_status_t)
    (s : driver) :
  connect_loop e (S rem) reply status s =
  if cmd8_accepts (ce_reply e (S (commands_sent s)))
  then ((0x1AA, SDIO_OK), sent 2 s)
  else
    let r := rp2040_sdio_command_R1 CMD8 0x1AA true (ce_reply e (S (commands_sent s))) in
    connect_loop e rem (match snd r with Some v => v | None => 0 end) (fst r) (sent 2 s).
Proof.
  cbn [connect_loop]. unfold cmd8_accepts. mstep.
  set (r := rp2040_sdio_command_R1 CMD8 426 true _).
  change {| commands_sent := S (S (commands_sent s)); clock_reads := clock_reads s;
            g_sdio_ocr := g_sdio_ocr s; g_sdio_rca := g_sdio_rca s;
            g_sdio_cid := g_sdio_cid s; g_sdio_error := g_sdio_error s |}
    with (sent 2 s).
  destruct (status_eqb_spec (fst r) SDIO_OK) as [Hs|Hs]; cbn [andb]; [|reflexivity].
  destruct (Z.eqb_spec (match snd r with Some v => v | None => 0 end) 426) as [Hv|Hv];
    [|reflexivity].
  rewrite Hs, Hv. reflexivity.
Qed.

(** The first exchange that succeeds ends the loop. *)
Lemma connect_loop_first (e : card_env) (k : nat) :
  forall rem reply status s,
  (k < rem)%nat ->
  (forall i, (i < k)%nat -> cmd8_accepts (ce_reply e (commands_sent s + 2 * i + 1)) = false) ->
  cmd8_accepts (ce_reply e (commands_sent s + 2 * k + 1)) = true ->
  connect_loop e rem reply status s = ((0x1AA, SDIO_OK), sent (2 * (k + 1)) s).
Proof.
  induction k as [|k IH]; intros rem reply status s Hk Hfail Hok;
    (destruct rem as [|rem]; [lia|]); rewrite connect_loop_step.
  - replace (commands_sent s + 2 * 0 + 1)%nat with (S (commands_sent s)) in Hok by lia.
    rewrite Hok. reflexivity.
  - pose proof (Hfail 0%nat ltac:(lia)) as H0.
    replace (commands_sent s + 2 * 0 + 1)%nat with (S (commands_sent s)) in H0 by lia.
    rewrite H0. cbv zeta.
    rewrite (IH rem _ _ (sent 2 s)).
    + rewrite sent_sent. f_equal. f_equal. lia.
    + lia.
    + intros i Hi. cbn [sent commands_sent].
      replace (2 + commands_sent s + 2 * i + 1)%nat
        with (commands_sent s + 2 * S i + 1)%nat by lia.
      apply Hfail. lia.
    + cbn [sent commands_sent].
      replace (2 + commands_sent s + 2 * k + 1)%nat
        with (commands_sent s + 2 * S k + 1)%nat by lia.
      exact Hok.
Qed.

(** If no exchange succeeds the loop ends after all of them, with a reply
    or a status that [begin] refuses. *)
Lemma connect_loop_none (e : card_env) :
  forall rem reply status s,
  (0 < rem)%nat ->
  (forall i, (i < rem)%nat -> cmd8_accepts (ce_reply e (commands_sent s + 2 * i + 1)) = false) ->
  snd (connect_loop e rem reply status s) = sent (2 * rem) s /\
  (let r := fst (connect_loop e rem reply status s) in
   negb (fst r =? 0x1AA) || negb (status_eqb (snd r) SDIO_OK) = true).
Proof.
  induction rem as [|rem IH]; intros reply status s Hpos Hfail; [lia|].
  rewrite connect_loop_step.
  pose proof (Hfail 0%nat ltac:(lia)) as H0.
  replace (commands_sent s + 2 * 0 + 1)%nat with (S (commands_sent s)) in H0 by lia.
  rewrite H0. cbv zeta.
  destruct rem as [|rem].
  - cbn [connect_loop ret fst snd]. split; [reflexivity|].
    unfold cmd8_accepts in H0.
    destruct (status_eqb _ SDIO_OK); cbn [andb negb orb] in *.
    + rewrite H0. reflexivity.
    + apply orb_true_r.
  - destruct (IH (match snd (rp2040_sdio_command_R1 CMD8 426 true (ce_reply e (S (commands_sent s)))) with
                  | Some v => v | None => 0 end)
                 (fst (rp2040_sdio_command_R1 CMD8 426 true (ce_reply e (S (commands_sent s)))))
                 (sent 2 s)) as [Hs Hr].
    + lia.
    + intros i Hi. cbn [sent commands_sent].
      replace (2 + commands_sent s + 2 * i + 1)%nat
        with (commands_sent s + 2 * S i + 1)%nat by lia.
      apply Hfail. lia.
    + split; [|exact Hr]. rewrite Hs, sent_sent. f_equal. lia.
Qed.

Lemma command_R3_shape (command arg : Z) (rxf : reply) :
  (exists v, rp2040_sdio_command_R3 command arg rxf = (SDIO_OK, Some v)) \/
  rp2040_sdio_command_R3 command arg rxf = (SDIO_ERR_RESPONSE_TIMEOUT, None).
Proof.
  unfold rp2040_sdio_command_R3. cbv zeta.
  destruct (length rxf <? 2)%nat; eauto.
Qed.

(** One round of the ACMD41 loop. *)
Lemma acmd41_loop_step (e : card_env) (fuel : nat) (start : Z) (s : driver) :
  match acmd41_round e start (commands_sent s) (clock_reads s) with
  | ROUND_FAILED => fst (acmd41_loop e (S fuel) start s) = Some false
  | ROUND_DONE =>
      fst (acmd41_loop e (S fuel) start s) = Some true /\
      commands_sent (snd (acmd41_loop e (S fuel) start s)) = (2 + commands_sent s)%nat
  | ROUND_AGAIN =>
      exists s1,
        acmd41_loop e (S fuel) start s = acmd41_loop e fuel start s1 /\
        commands_sent s1 = (2 + commands_sent s)%nat /\
        clock_reads s1 = S (clock_reads s)
  end.
Proof.
  unfold acmd41_round, r1_ok, r3_ok, r3_ocr.
  cbn [acmd41_loop]. mstep.
  destruct (status_eqb (fst (rp2040_sdio_command_R1 CMD55 0 true (ce_reply e _))) SDIO_OK);
    cbn [negb]; [|reflexivity].
  mstep.
  destruct (command_R3_shape ACMD41 0xD0040000 (ce_reply e (S (commands_sent s))))
    as [[v Hv]|Hv]; rewrite Hv; mstep; cbn [status_eqb negb]; mstep; [|reflexivity].
  destruct (wrap32 (ce_millis e (clock_reads s) - start) >? 1000); [reflexivity|].
  mstep. rewrite <- (ocr_bit31 v).
  destruct (Z.land v (Z.shiftl 1 31) =? 0); cbn [negb].
  - eexists. split; [reflexivity|]. split; reflexivity.
  - split; reflexivity.
Qed.

Lemma acmd41_loop_again (e : card_env) (start : Z) :
  forall fuel s,
  (forall i, (i < fuel)%nat ->
     acmd41_round e start (commands_sent s + 2 * i) (clock_reads s + i) = ROUND_AGAIN) ->
  fst (acmd41_loop e fuel start s) = None.
Proof.
  induction fuel as [|fuel IH]; intros s Hall; [reflexivity|].
  pose proof (acmd41_loop_step e fuel start s) as Hstep.
  pose proof (Hall 0%nat ltac:(lia)) as H0.
  rewrite Nat.mul_0_r, !Nat.add_0_r in H0. rewrite H0 in Hstep.
  destruct Hstep as (s1 & -> & Hc & Hk).
  apply IH. intros i Hi. rewrite Hc, Hk.
  replace (2 + commands_sent s + 2 * i)%nat with (commands_sent s + 2 * S i)%nat by lia.
  replace (S (clock_reads s) + i)%nat with (clock_reads s + S i)%nat by lia.
  apply Hall. lia.
Qed.

Lemma acmd41_loop_decided (e : card_env) (start : Z) (j : nat) :
  forall fuel s,
  (j < fuel)%nat ->
  (forall i, (i < j)%nat ->
     acmd41_round e start (commands_sent s + 2 * i) (clock_reads s + i) = ROUND_AGAIN) ->
  match acmd41_round e start (commands_sent s + 2 * j) (clock_reads s + j) with
  | ROUND_FAILED => fst (acmd41_loop e fuel start s) = Some false
  | ROUND_DONE =>
      fst (acmd41_loop e fuel start s) = Some true /\
      commands_sent (snd (acmd41_loop e fuel start s)) = (commands_sent s + 2 * (j + 1))%nat
  | ROUND_AGAIN => True
  end.
Proof.
  induction j as [|j IH]; intros fuel s Hj Hall; (destruct fuel as [|fuel]; [lia|]);
    pose proof (acmd41_loop_step e fuel start s) as Hstep.
  - rewrite Nat.mul_0_r, !Nat.add_0_r.
    destruct (acmd41_round e start (commands_sent s) (clock_reads s)); auto.
    destruct Hstep as [H1 H2]. split; [exact H1|]. rewrite H2. lia.
  - pose proof (Hall 0%nat ltac:(lia)) as H0.
    rewrite Nat.mul_0_r, !Nat.add_0_r in H0. rewrite H0 in Hstep.
    destruct Hstep as (s1 & -> & Hc & Hk).
    specialize (IH fuel s1 ltac:(lia)).
    rewrite Hc, Hk in IH.
    replace (2 + commands_sent s + 2 * j)%nat with (commands_sent s + 2 * S j)%nat in IH by lia.
    replace (S (clock_reads s) + j)%nat with (clock_reads s + S j)%nat in IH by lia.
    replace (2 + commands_sent s + 2 * (j + 1))%nat
      with (commands_sent s + 2 * (S j + 1))%nat in IH by lia.
    apply IH. intros i Hi.
    replace (2 + commands_sent s + 2 * i)%nat with (commands_sent s + 2 * S i)%nat by lia.
    replace (S (clock_reads s) + i)%nat with (clock_reads s + S i)%nat by lia.
    apply Hall. lia.
Qed.

Lemma select_card_result (e : card_env) (s : driver) :
  fst (select_card e s) = select_card_ok e (commands_sent s).
Proof.
  unfold select_card, select_card_ok, r1_ok, r2_ok. mstep.
  change (1 + commands_sent s)%nat with (S (commands_sent s)).
  change (2 + commands_sent s)%nat with (S (S (commands_sent s))).
  change (3 + commands_sent s)%nat with (S (S (S (commands_sent s)))).
  change (4 + commands_sent s)%nat with (S (S (S (S (commands_sent s))))).
  destruct (status_eqb (fst (rp2040_sdio_command_R2 CMD2 0 _)) SDIO_OK);
    destruct (snd (rp2040_sdio_command_R2 CMD2 0 _)); mstep; cbn [negb andb]; try reflexivity;
  (destruct (status_eqb (fst (rp2040_sdio_command_R1 CMD3 0 true _)) SDIO_OK);
    destruct (snd (rp2040_sdio_command_R1 CMD3 0 true _)); mstep; cbn [negb andb]; try reflexivity;
   rewrite (command_R1_status_arg CMD7 _ 0);
   (destruct (status_eqb (fst (rp2040_sdio_command_R1 CMD7 0 true _)) SDIO_OK);
    mstep; cbn [negb andb]; try reflexivity;
    rewrite (command_R1_status_arg CMD55 _ 0);
    (destruct (status_eqb (fst (rp2040_sdio_command_R1 CMD55 0 true _)) SDIO_OK);
     mstep; cbn [negb andb]; try reflexivity;
     rewrite (command_R1_status_arg ACMD6 _ 0);
     destruct (status_eqb (fst (rp2040_sdio_command_R1 ACMD6 0 true _)) SDIO_OK);
     reflexivity))).
Qed.

(** Either a predicate fails below [n] everywhere, or it has a first index
    where it holds. *)
Lemma first_index (f : nat -> bool) (n : nat) :
  (forall i, (i < n)%nat -> f i = false) \/
  (exists k, (k < n)%nat /\ f k = true /\ forall i, (i < k)%nat -> f i = false).
Proof.
  induction n as [|n [IH|(k & Hk & Hf & Hfirst)]].
  - left. intros i Hi. lia.
  - destruct (f n) eqn:Hn.
    + right. exists n. repeat split; auto.
    + left. intros i Hi. destruct (Nat.eq_dec i n) as [->|]; [exact Hn | apply IH; lia].
  - right. exists k. repeat split; auto.
Qed.

Lemma begin_gives_up (e : card_env) (fuel : nat) (s : driver) :
  (forall i, (i < 5)%nat -> cmd8_accepts (ce_reply e (commands_sent s + 2 * i + 1)) = false) ->
  begin e fuel s = (Some false, sent 10 s).
Proof.
  intros Hall.
  destruct (connect_loop_none e 5 0 SDIO_OK s ltac:(lia) Hall) as [Hs Hr].
  unfold begin. unfold bind at 1.
  destruct (connect_loop e 5 0 SDIO_OK s) as [[reply status] s'].
  cbn [fst snd] in *. rewrite Hr. subst s'. reflexivity.
Qed.

Lemma begin_after_connect (e : card_env) (fuel k : nat) (s : driver) :
  (k < 5)%nat ->
  (forall i, (i < k)%nat -> cmd8_accepts (ce_reply e (commands_sent s + 2 * i + 1)) = false) ->
  cmd8_accepts (ce_reply e (commands_sent s + 2 * k + 1)) = true ->
  let s1 := snd (millis e (sent (2 * (k + 1)) s)) in
  let polled := acmd41_loop e fuel (ce_millis e (clock_reads s)) s1 in
  fst (begin e fuel s) =
  match fst polled with
  | None => None
  | Some false => Some false
  | Some true => Some (select_card_ok e (commands_sent (snd polled)))
  end.
Proof.
  intros Hk Hfail Hok s1 polled.
  unfold begin. unfold bind at 1.
  rewrite (connect_loop_first e k 5 0 SDIO_OK s Hk Hfail Hok).
  cbn [fst snd]. change (426 =? 426) with true. cbn [negb orb status_eqb].
  unfold bind at 1. cbn [millis sent clock_reads]. unfold bind at 1.
  fold (sent (2 * (k + 1)) s).
  change (acmd41_loop e fuel (ce_millis e (clock_reads s)) _) with polled.
  destruct polled as [[[|]|] s2]; cbn [fst snd]; try reflexivity.
  unfold bind, ret. rewrite <- select_card_result.
  destruct (select_card e s2). reflexivity.
Qed.

End Init.

(** C9: [SdioCard::begin] makes at most five CMD0/CMD8 exchanges and gives
    up (returns false, after ten commands) when none of them has CMD8
    succeed with the check pattern echoed; after the first exchange that
    succeeds it repeats CMD55 + ACMD41: a round in which a command fails or
    in which more than 1000 ms have passed since the loop started makes it
    return false, a round whose OCR has bit 31 set ends the loop, and then
    the result is true exactly when CMD2, CMD3, CMD7, CMD55 and ACMD6 all
    succeed; so it returns true only after the whole sequence has
    succeeded, and it returns as soon as some round is not a plain repeat. *)
Theorem begin_retries_then_polls_acmd41
    (e : Card.card_env) (fuel : nat) (s : Card.driver) :
  let c := Card.commands_sent s in
  let attempt i := Card.cmd8_accepts (Card.ce_reply e (c + 2 * i + 1)) in
  let start := Card.ce_millis e (Card.clock_reads s) in
  let round k j :=
    Card.acmd41_round e start (c + 2 * (k + 1) + 2 * j) (Card.clock_reads s + 1 + j) in
  let selected k j := Card.select_card_ok e (c + 2 * (k + 1) + 2 * (j + 1)) in
  let result := fst (Card.begin e fuel s) in
  ((forall i, (i < 5)%nat -> attempt i = false) ->
     result = Some false /\
     Card.commands_sent (snd (Card.begin e fuel s)) = (c + 10)%nat) /\
  (forall k, (k < 5)%nat -> (forall i, (i < k)%nat -> attempt i = false) ->
     attempt k = true ->
     ((forall j, (j < fuel)%nat -> round k j = Card.ROUND_AGAIN) -> result = None) /\
     (forall j, (j < fuel)%nat ->
        (forall i, (i < j)%nat -> round k i = Card.ROUND_AGAIN) ->
        (round k j = Card.ROUND_FAILED -> result = Some false) /\
        (round k j = Card.ROUND_DONE -> result = Some (selected k j)))) /\
  (result = Some true ->
     exists k j, (k < 5)%nat /\ (j < fuel)%nat /\
       attempt k = true /\ (forall i, (i < k)%nat -> attempt i = false) /\
       round k j = Card.ROUND_DONE /\
       (forall i, (i < j)%nat -> round k i = Card.ROUND_AGAIN) /\
       selected k j = true) /\
  ((forall k, (k < 5)%nat ->
      exists j, (j < fuel)%nat /\ round k j <> Card.ROUND_AGAIN) ->
   result <> None).
Proof.
  intros c attempt start round selected result.
  assert (Hgive : (forall i, (i < 5)%nat -> attempt i = false) ->
                  result = Some false /\
                  Card.commands_sent (snd (Card.begin e fuel s)) = (c + 10)%nat).
  { intros Hall. subst result. rewrite (begin_gives_up e fuel s Hall).
    cbn. split; [reflexivity | lia]. }
  assert (Hpoll : forall k, (k < 5)%nat -> (forall i, (i < k)%nat -> attempt i = false) ->
     attempt k = true ->
     ((forall j, (j < fuel)%nat -> round k j = Card.ROUND_AGAIN) -> result = None) /\
     (forall j, (j < fuel)%nat ->
        (forall i, (i < j)%nat -> round k i = Card.ROUND_AGAIN) ->
        (round k j = Card.ROUND_FAILED -> result = Some false) /\
        (round k j = Card.ROUND_DONE -> result = Some (selected k j)))).
  { intros k Hk Hfail Hok.
    pose proof (begin_after_connect e fuel k s Hk Hfail Hok) as Hb.
    cbv zeta in Hb. fold result in Hb.
    set (s1 := snd (Card.millis e (Card.sent (2 * (k + 1)) s))) in *.
    assert (Hround : forall j,
              Card.acmd41_round e start (Card.commands_sent s1 + 2 * j)
                (Card.clock_reads s1 + j) = round k j).
    { intros j. subst round s1. cbn. f_equal; lia. }
    split.
    - intros Hall. rewrite Hb. fold start.
      rewrite (acmd41_loop_again e start fuel s1); [reflexivity|].
      intros i Hi. rewrite Hround. apply Hall, Hi.
    - intros j Hj Hbefore.
      pose proof (acmd41_loop_decided e start j fuel s1 Hj) as Hd.
      rewrite Hround in Hd.
      assert (Hpre : forall i, (i < j)%nat ->
                Card.acmd41_round e start (Card.commands_sent s1 + 2 * i)
                  (Card.clock_reads s1 + i) = Card.ROUND_AGAIN)
        by (intros i Hi; rewrite Hround; apply Hbefore, Hi).
      specialize (Hd Hpre).
      split; intros Hr; rewrite Hr in Hd; rewrite Hb.
      + fold start. rewrite Hd. reflexivity.
      + fold start. destruct Hd as [Hd1 Hd2]. rewrite Hd1, Hd2.
        subst selected s1. cbn. do 2 f_equal. lia. }
  split; [exact Hgive|]. split; [exact Hpoll|]. split.
  - intros Htrue.
    destruct (first_index attempt 5) as [Hall|(k & Hk & Hok & Hfail)].
    { destruct (Hgive Hall) as [Hr _]. congruence. }
    destruct (Hpoll k Hk Hfail Hok) as [Hagain Hdec].
    destruct (first_index
                (fun j => match round k j with Card.ROUND_AGAIN => false | _ => true end)
                fuel) as [Hall|(j & Hj & Hrj & Hbefore)].
    { rewrite Hagain in Htrue; [discriminate|].
      intros j Hj. specialize (Hall j Hj). cbv beta in Hall.
      destruct (round k j); congruence. }
    assert (Hpre : forall i, (i < j)%nat -> round k i = Card.ROUND_AGAIN).
    { intros i Hi. specialize (Hbefore i Hi). cbv beta in Hbefore.
      destruct (round k i); congruence. }
    destruct (Hdec j Hj Hpre) as [Hf Hd].
    cbv beta in Hrj.
    destruct (round k j) eqn:Hr; [| |discriminate].
    + rewrite Hf in Htrue by reflexivity. discriminate.
    + exists k, j. rewrite Hd in Htrue by reflexivity.
      repeat split; auto. congruence.
  - intros Hsome.
    destruct (first_index attempt 5) as [Hall|(k & Hk & Hok & Hfail)].
    { destruct (Hgive Hall) as [Hr _]. congruence. }
    destruct (Hpoll k Hk Hfail Hok) as [_ Hdec].
    destruct (first_index
                (fun j => match round k j with Card.ROUND_AGAIN => false | _ => true end)
                fuel) as [Hall|(j & Hj & Hrj & Hbefore)].
    { destruct (Hsome k Hk) as (j & Hj & Hne). specialize (Hall j Hj). cbv beta in Hall.
      destruct (round k j); congruence. }
    assert (Hpre : forall i, (i < j)%nat -> round k i = Card.ROUND_AGAIN).
    { intros i Hi. specialize (Hbefore i Hi). cbv beta in Hbefore.
      destruct (round k i); congruence. }
    destruct (Hdec j Hj Hpre) as [Hf Hd].
    cbv beta in Hrj.
    destruct (round k j) eqn:Hr; [| |discriminate].
    + rewrite Hf by reflexivity. discriminate.
    + rewrite Hd by reflexivity. discriminate.
Qed.

(** [begin] against three sample cards: the card that becomes ready is
    initialised with thirteen commands; the card that stays busy makes
    [begin] return false once the clock has passed the budget; without a
    card [begin] gives up after ten commands. *)
Example begin_samples :
  fst (Card.begin Card.ready_card 10 Card.power_on) = Some true /\
  Card.commands_sent (snd (Card.begin Card.ready_card 10 Card.power_on)) = 13%nat /\
  Card.g_sdio_ocr (snd (Card.begin Card.ready_card 10 Card.power_on)) = 0xC0FF8000 /\
  Card.g_sdio_rca (snd (Card.begin Card.ready_card 10 Card.power_on)) = 0x12340000 /\
  fst (Card.begin Card.ready_card 1 Card.power_on) = None /\
  fst (Card.begin Card.busy_card 10 Card.power_on) = Some false /\
  Card.commands_sent (snd (Card.begin Card.busy_card 10 Card.power_on)) = 6%nat /\
  Card.begin Card.absent_card 10 Card.power_on = (Some false, Card.sent 10 Card.power_on).
Proof. vm_compute. repeat split. Qed.

(** * Further properties *)

(** ** CRC-7 *)

Section CRC7_facts.
Import CRC.

Lemma in_all_bytes (x : Z) : 0 <= x < 256 -> In x all_bytes.
Proof.
  intros H. unfold all_bytes. apply in_map_iff. exists (Z.to_nat x).
  split; [lia|]. apply in_seq. lia.
Qed.

Lemma lxor_bound (n a b : Z) :
  0 <= n -> 0 <= a < 2 ^ n -> 0 <= b < 2 ^ n -> 0 <= Z.lxor a b < 2 ^ n.
Proof.
  intros Hn Ha Hb.
  assert (E : Z.lxor a b = Z.lxor a b mod 2 ^ n).
  { rewrite <- Z.land_ones by lia.
    apply Z.bits_inj'. intros k Hk.
    rewrite Z.land_spec, !Z.lxor_spec.
    destruct (Z.ltb_spec k n).
    - rewrite Z.ones_spec_low by lia. btauto.
    - rewrite Z.ones_spec_high by lia.
      rewrite <- (Z.mod_small a (2 ^ n)), <- (Z.mod_small b (2 ^ n)) by lia.
      rewrite !Z.mod_pow2_bits_high by lia. reflexivity. }
  rewrite E. apply Z.mod_pos_bound. lia.
Qed.

Lemma lxor_byte (a b : Z) : 0 <= a < 256 -> 0 <= b < 256 -> 0 <= Z.lxor a b < 256.
Proof. apply (lxor_bound 8). lia. Qed.

Lemma land_byte (x : Z) : 0 <= Z.land x 0xFF < 256.
Proof.
  change 0xFF with (Z.ones 8). rewrite Z.land_ones by lia.
  apply Z.mod_pos_bound. lia.
Qed.

(** Every entry of the table is the remainder of its index, is a byte and
    has its lowest bit clear. *)
Lemma crc7_table_entries :
  forallb (fun x => (nth (Z.to_nat x) crc7_table 0 =? Ref.crc7_bits 8 x) &&
                    is_byte (nth (Z.to_nat x) crc7_table 0) &&
                    Z.even (nth (Z.to_nat x) crc7_table 0))
          all_bytes = true.
Proof. vm_compute. reflexivity. Qed.

Lemma crc7_table_entry (x : Z) :
  0 <= x < 256 ->
  nth (Z.to_nat x) crc7_table 0 = Ref.crc7_bits 8 x /\
  0 <= nth (Z.to_nat x) crc7_table 0 < 256 /\
  Z.even (nth (Z.to_nat x) crc7_table 0) = true.
Proof.
  intros H. pose proof crc7_table_entries as A.
  rewrite forallb_forall in A. specialize (A x (in_all_bytes x H)).
  unfold is_byte in A.
  apply andb_prop in A. destruct A as [A A3].
  apply andb_prop in A. destruct A as [A1 A2].
  apply andb_prop in A2. destruct A2 as [A2 A2'].
  split; [lia|]. split; [lia|exact A3].
Qed.

Lemma crc7_step_byte (c b : Z) :
  0 <= c < 256 -> 0 <= b < 256 -> 0 <= crc7_step c b < 256.
Proof.
  intros Hc Hb. unfold crc7_step.
  apply (crc7_table_entry (Z.lxor c b)), lxor_byte; assumption.
Qed.

Lemma crc7_step_bitwise (c b : Z) :
  0 <= c < 256 -> 0 <= b < 256 -> crc7_step c b = Ref.crc7_byte c b.
Proof.
  intros Hc Hb. unfold crc7_step, Ref.crc7_byte.
  apply (crc7_table_entry (Z.lxor c b)), lxor_byte; assumption.
Qed.

Lemma crc7_fold_bitwise (bytes : list Z) :
  Forall (fun b => 0 <= b < 256) bytes ->
  forall c, 0 <= c < 256 ->
  fold_left crc7_step bytes c = fold_left Ref.crc7_byte bytes c /\
  0 <= fold_left crc7_step bytes c < 256.
Proof.
  induction 1 as [|b l Hb Hl IH]; intros c Hc; cbn [fold_left].
  - split; [reflexivity|exact Hc].
  - rewrite <- (crc7_step_bitwise c b Hc Hb).
    apply IH, crc7_step_byte; assumption.
Qed.

(** The table is linear over xor. *)
Lemma crc7_table_linear_check :
  forallb (fun x => forallb (fun y =>
     nth (Z.to_nat (Z.lxor x y)) crc7_table 0 =?
     Z.lxor (nth (Z.to_nat x) crc7_table 0) (nth (Z.to_nat y) crc7_table 0))
     all_bytes) all_bytes = true.
Proof. vm_compute. reflexivity. Qed.

Lemma crc7_table_linear (x y : Z) :
  0 <= x < 256 -> 0 <= y < 256 ->
  nth (Z.to_nat (Z.lxor x y)) crc7_table 0 =
  Z.lxor (nth (Z.to_nat x) crc7_table 0) (nth (Z.to_nat y) crc7_table 0).
Proof.
  intros Hx Hy. pose proof crc7_table_linear_check as A.
  rewrite forallb_forall in A. specialize (A x (in_all_bytes x Hx)).
  rewrite forallb_forall in A. specialize (A y (in_all_bytes y Hy)).
  lia.
Qed.

Lemma crc7_step_lxor (c1 c2 b1 b2 : Z) :
  0 <= c1 < 256 -> 0 <= c2 < 256 -> 0 <= b1 < 256 -> 0 <= b2 < 256 ->
  crc7_step (Z.lxor c1 c2) (Z.lxor b1 b2) =
  Z.lxor (crc7_step c1 b1) (crc7_step c2 b2).
Proof.
  intros H1 H2 H3 H4. unfold crc7_step.
  rewrite <- crc7_table_linear by (apply lxor_byte; assumption).
  f_equal. f_equal.
  apply Z.bits_inj'; intros n _; rewrite ?Z.lxor_spec; btauto.
Qed.

Lemma crc7_fold_lxor (f g : nat -> Z) (l : list nat) :
  (forall k, 0 <= f k < 256) -> (forall k, 0 <= g k < 256) ->
  forall c1 c2, 0 <= c1 < 256 -> 0 <= c2 < 256 ->
  fold_left crc7_step (map (fun k => Z.lxor (f k) (g k)) l) (Z.lxor c1 c2) =
  Z.lxor (fold_left crc7_step (map f l) c1) (fold_left crc7_step (map g l) c2).
Proof.
  intros Hf Hg. induction l as [|k l IH]; intros c1 c2 H1 H2; cbn [map fold_left].
  - reflexivity.
  - rewrite crc7_step_lxor by auto.
    apply IH; apply crc7_step_byte; auto.
Qed.

End CRC7_facts.

Lemma crc7_fold_even (l : list Z) :
  Forall (fun b => 0 <= b < 256) l ->
  forall c, 0 <= c < 256 -> Z.even c = true ->
  Z.even (fold_left CRC.crc7_step l c) = true.
Proof.
  induction 1 as [|b l Hb Hl IH]; intros c Hc He; cbn [fold_left]; [exact He|].
  apply IH; [apply crc7_step_byte; assumption|].
  unfold CRC.crc7_step. apply (crc7_table_entry (Z.lxor c b)), lxor_byte; assumption.
Qed.

(** The CRC-7 that the driver computes by table lookup is the remainder of
    the division by the generator polynomial x^7 + x^3 + 1, computed bit by
    bit; the seven bits are left-aligned in the byte, whose lowest bit is
    clear. *)
Theorem crc7_table_is_polynomial_division (bytes : list Z) :
  Forall (fun b => 0 <= b < 256) bytes ->
  CRC.crc7 bytes = Ref.crc7_bitwise bytes /\
  0 <= CRC.crc7 bytes < 256 /\
  Z.even (CRC.crc7 bytes) = true.
Proof.
  intros H. unfold CRC.crc7, Ref.crc7_bitwise.
  destruct (crc7_fold_bitwise bytes H 0 ltac:(lia)) as [E B].
  split; [exact E|]. split; [exact B|].
  apply crc7_fold_even; [exact H | lia | reflexivity].
Qed.

Lemma crc7_table_is_polynomial_division_witness :
  Forall (fun b => 0 <= b < 256) [0x48; 0x00; 0x00; 0x01; 0xAA] /\
  CRC.crc7 [0x48; 0x00; 0x00; 0x01; 0xAA] = Ref.crc7_bitwise [0x48; 0x00; 0x00; 0x01; 0xAA].
Proof.
  assert (H : Forall (fun b => 0 <= b < 256) [0x48; 0x00; 0x00; 0x01; 0xAA])
    by (repeat constructor; lia).
  split; [exact H|].
  exact (proj1 (crc7_table_is_polynomial_division _ H)).
Defined.

(** ** Validation of R1 and R2 replies *)

Section Reply_checks.
Import CRC Cmd.

Lemma lxor_changes (x d : Z) : d <> 0 -> Z.lxor x d <> x.
Proof.
  intros Hd E. apply Hd.
  assert (A : Z.lxor (Z.lxor x d) x = 0) by (rewrite E; apply Z.lxor_nilpotent).
  rewrite <- A.
  apply Z.bits_inj'; intros n _; rewrite ?Z.lxor_spec; btauto.
Qed.

Lemma byte_lxor (a e s : Z) :
  Z.land (Z.shiftr (Z.lxor a e) s) 0xFF =
  Z.lxor (Z.land (Z.shiftr a s) 0xFF) (Z.land (Z.shiftr e s) 0xFF).
Proof. rewrite Z.shiftr_lxor. apply land_lxor_distr. Qed.

Lemma crc7_r1_lxor (a0 a1 e0 e1 : Z) :
  crc7 (r1_checked_bytes (Z.lxor a0 e0) (Z.lxor a1 e1)) =
  Z.lxor (crc7 (r1_checked_bytes a0 a1)) (crc7 (r1_checked_bytes e0 e1)).
Proof.
  unfold crc7, r1_checked_bytes. cbn [fold_left].
  rewrite !byte_lxor, !land_lxor_distr.
  change 0 with (Z.lxor 0 0) at 1.
  repeat (rewrite crc7_step_lxor;
          [| first [apply land_byte | lia
                   | repeat (apply crc7_step_byte; try apply land_byte; try lia)] ..]).
  reflexivity.
Qed.

(** A single flipped bit of the first word, or of the argument byte of the
    second word, changes the computed checksum. *)
Lemma crc7_r1_unit_errors :
  forallb (fun b => negb (crc7 (r1_checked_bytes (Z.shiftl 1 b) 0) =? 0))
          (map Z.of_nat (seq 0 32)) &&
  forallb (fun b => negb (crc7 (r1_checked_bytes 0 (Z.shiftl 1 b)) =? 0) &&
                    (Z.land (Z.shiftl 1 b) 0xFE =? 0))
          (map Z.of_nat (seq 8 8)) &&
  forallb (fun b => (crc7 (r1_checked_bytes 0 (Z.shiftl 1 b)) =? 0) &&
                    negb (Z.land (Z.shiftl 1 b) 0xFE =? 0))
          (map Z.of_nat (seq 1 7)) = true.
Proof. vm_compute. reflexivity. Qed.

Lemma in_range (b : Z) (lo n : nat) :
  Z.of_nat lo <= b < Z.of_nat lo + Z.of_nat n -> In b (map Z.of_nat (seq lo n)).
Proof.
  intros H. apply in_map_iff. exists (Z.to_nat b). split; [lia|]. apply in_seq. lia.
Qed.

Lemma command_R1_crc_ok (command arg resp0 resp1 : Z) (more : list Z) :
  fst (rp2040_sdio_command_R1 command arg true (resp0 :: resp1 :: more)) <>
    SDIO_ERR_RESPONSE_CRC <->
  crc7 (r1_checked_bytes resp0 resp1) = Z.land resp1 0xFE.
Proof.
  rewrite command_R1_cases.
  destruct (Z.eqb_spec (crc7 (r1_checked_bytes resp0 resp1)) (Z.land resp1 0xFE)) as [E|E];
    cbn [negb fst].
  - split; [intros _; exact E|]. intros _.
    destruct (_ && _); cbn [fst]; discriminate.
  - split; [intros H; exfalso; apply H; reflexivity | intros H; contradiction].
Qed.

End Reply_checks.

(** A reply that passes the checksum test of [rp2040_sdio_command_R1] fails
    it with [SDIO_ERR_RESPONSE_CRC] once any single bit of its 40 covered
    bits (the whole first word and bits 8 to 15 of the second) or of its
    seven checksum bits (bits 1 to 7 of the second word) is flipped. *)
Theorem command_R1_detects_single_bit_errors
    (command arg resp0 resp1 : Z) (more : list Z) (b : Z)
    (Hok : fst (Cmd.rp2040_sdio_command_R1 command arg true (resp0 :: resp1 :: more)) <>
           SDIO_ERR_RESPONSE_CRC) :
  (0 <= b < 32 ->
   fst (Cmd.rp2040_sdio_command_R1 command arg true
          (Z.lxor resp0 (Z.shiftl 1 b) :: resp1 :: more)) = SDIO_ERR_RESPONSE_CRC) /\
  (1 <= b < 16 ->
   fst (Cmd.rp2040_sdio_command_R1 command arg true
          (resp0 :: Z.lxor resp1 (Z.shiftl 1 b) :: more)) = SDIO_ERR_RESPONSE_CRC).
Proof.
  apply command_R1_crc_ok in Hok.
  pose proof crc7_r1_unit_errors as U.
  apply andb_prop in U. destruct U as [U U3].
  apply andb_prop in U. destruct U as [U1 U2].
  rewrite forallb_forall in U1, U2, U3.
  assert (Hbad : forall r0 r1,
            CRC.crc7 (Cmd.r1_checked_bytes r0 r1) <> Z.land r1 0xFE ->
            fst (Cmd.rp2040_sdio_command_R1 command arg true (r0 :: r1 :: more)) =
            SDIO_ERR_RESPONSE_CRC).
  { intros r0 r1 H. apply Decidable.not_not.
    - destruct (fst _); [right|right|right|left|right|right|right]; congruence.
    - intros N. apply command_R1_crc_ok in N. contradiction. }
  split; intros Hb; apply Hbad.
  - specialize (U1 b (in_range b 0 32 ltac:(lia))).
    rewrite <- (Z.lxor_0_r resp1) at 1. rewrite crc7_r1_lxor, Hok.
    apply lxor_changes. lia.
  - rewrite <- (Z.lxor_0_r resp0). rewrite crc7_r1_lxor, Hok, land_lxor_distr.
    destruct (Z.ltb_spec b 8) as [Hlt|Hge].
    + specialize (U3 b (in_range b 1 7 ltac:(lia))).
      apply andb_prop in U3. destruct U3 as [U3 U3'].
      replace (CRC.crc7 (Cmd.r1_checked_bytes 0 (Z.shiftl 1 b))) with 0 by lia.
      rewrite Z.lxor_0_r. intros E. symmetry in E. revert E.
      apply lxor_changes. lia.
    + specialize (U2 b (in_range b 8 8 ltac:(lia))).
      apply andb_prop in U2. destruct U2 as [U2 U2'].
      replace (Z.land (Z.shiftl 1 b) 254) with 0 by lia.
      rewrite Z.lxor_0_r. apply lxor_changes. lia.
Qed.

Lemma command_R1_detects_single_bit_errors_witness :
  fst (Cmd.rp2040_sdio_command_R1 8 0x1AA true [0x08000001; 0xAA12]) <>
    SDIO_ERR_RESPONSE_CRC /\
  fst (Cmd.rp2040_sdio_command_R1 8 0x1AA true
         [Z.lxor 0x08000001 (Z.shiftl 1 5); 0xAA12]) = SDIO_ERR_RESPONSE_CRC /\
  fst (Cmd.rp2040_sdio_command_R1 8 0x1AA true
         [0x08000001; Z.lxor 0xAA12 (Z.shiftl 1 9)]) = SDIO_ERR_RESPONSE_CRC.
Proof.
  assert (H : fst (Cmd.rp2040_sdio_command_R1 8 0x1AA true [0x08000001; 0xAA12]) <>
              SDIO_ERR_RESPONSE_CRC) by (vm_compute; discriminate).
  split; [exact H|].
  split.
  - apply (proj1 (command_R1_detects_single_bit_errors 8 0x1AA 0x08000001 0xAA12 [] 5 H)). lia.
  - apply (proj2 (command_R1_detects_single_bit_errors 8 0x1AA 0x08000001 0xAA12 [] 9 H)). lia.
Defined.

Section Reply_blind_spots.
Import CRC Cmd.

Lemma testbit_one_shifted (b n : Z) :
  0 <= b -> 0 <= n -> Z.testbit (Z.shiftl 1 b) n = (n =? b).
Proof.
  intros Hb Hn. rewrite Z.shiftl_1_l, Z.pow2_bits_eqb by lia.
  rewrite Z.eqb_sym. reflexivity.
Qed.

(** A flipped bit outside a field leaves the field as it is. *)
Lemma field_keeps (r b s w : Z) :
  0 <= b -> 0 <= s -> 0 <= w -> b < s \/ s + w <= b ->
  Z.land (Z.shiftr (Z.lxor r (Z.shiftl 1 b)) s) (Z.ones w) =
  Z.land (Z.shiftr r s) (Z.ones w).
Proof.
  intros Hb Hs Hw Hout. apply Z.bits_inj'. intros n Hn.
  rewrite !Z.land_spec, !Z.shiftr_spec, Z.lxor_spec by lia.
  destruct (Z.ltb_spec n w).
  - rewrite testbit_one_shifted by lia.
    replace (n + s =? b) with false by lia. rewrite xorb_false_r. reflexivity.
  - rewrite Z.ones_spec_high by lia. rewrite !andb_false_r. reflexivity.
Qed.

Lemma crc_field_keeps (r b : Z) :
  b = 0 \/ 8 <= b ->
  Z.land (Z.lxor r (Z.shiftl 1 b)) 0xFE = Z.land r 0xFE.
Proof.
  intros Hb. rewrite land_lxor_distr.
  replace (Z.land (Z.shiftl 1 b) 0xFE) with 0; [apply Z.lxor_0_r|].
  symmetry. apply Z.bits_inj'. intros n Hn.
  rewrite Z.land_spec, testbit_one_shifted, Z.bits_0 by lia.
  destruct (Z.eqb_spec n b) as [->|]; [|reflexivity].
  destruct Hb as [->|Hb]; [reflexivity|].
  change 0xFE with (Z.shiftl (Z.ones 7) 1).
  rewrite Z.shiftl_spec, Z.ones_spec_high by lia. reflexivity.
Qed.

Lemma crc7_generator_errors :
  forallb (fun k => crc7 (r1_checked_bytes (Z.shiftl 0x89 (8 * k)) 0) =? 0)
          (map Z.of_nat (seq 0 4)) = true.
Proof. vm_compute. reflexivity. Qed.

Lemma r1_payload_bit (r0 r1 n : Z) :
  8 <= n < 32 -> Z.testbit (r1_payload r0 r1) n = Z.testbit r0 (n - 8).
Proof.
  intros Hn. unfold r1_payload, u32.
  change 0xFFFFFF with (Z.ones 24). change 0xFF with (Z.ones 8).
  rewrite Z.land_spec, Z.lor_spec, Z.shiftl_spec, !Z.land_spec by lia.
  rewrite (Z.ones_spec_low 32), (Z.ones_spec_low 24), (Z.ones_spec_high 8) by lia.
  rewrite !andb_true_r, andb_false_r, orb_false_r. reflexivity.
Qed.

End Reply_blind_spots.

(** What the test of an R1 reply does not see.  The end bit (bit 0 of the
    second word) and bits 16 and up of the second word are not looked at:
    flipping one of them changes nothing in the result.  And the bits of
    the generator polynomial ([0x89]) flipped within one of the three lower
    bytes of the first word leave the computed checksum as it is, so the
    status is the same while the value returned through [response] is
    another one. *)
Theorem command_R1_blind_spots
    (command arg resp0 resp1 : Z) (more : list Z) :
  (forall b, b = 0 \/ 16 <= b ->
     Cmd.rp2040_sdio_command_R1 command arg true
       (resp0 :: Z.lxor resp1 (Z.shiftl 1 b) :: more) =
     Cmd.rp2040_sdio_command_R1 command arg true (resp0 :: resp1 :: more)) /\
  (forall k, 0 <= k < 3 ->
     let resp0' := Z.lxor resp0 (Z.shiftl 0x89 (8 * k)) in
     fst (Cmd.rp2040_sdio_command_R1 command arg true (resp0' :: resp1 :: more)) =
     fst (Cmd.rp2040_sdio_command_R1 command arg true (resp0 :: resp1 :: more)) /\
     Cmd.r1_payload resp0' resp1 <> Cmd.r1_payload resp0 resp1).
Proof.
  split.
  - intros b Hb. rewrite !command_R1_cases.
    assert (Hbytes : Cmd.r1_checked_bytes resp0 (Z.lxor resp1 (Z.shiftl 1 b)) =
                     Cmd.r1_checked_bytes resp0 resp1).
    { unfold Cmd.r1_checked_bytes. do 4 f_equal.
      change 0xFF with (Z.ones 8). rewrite field_keeps by lia. reflexivity. }
    assert (Hpay : Cmd.r1_payload resp0 (Z.lxor resp1 (Z.shiftl 1 b)) =
                   Cmd.r1_payload resp0 resp1).
    { unfold Cmd.r1_payload. do 2 f_equal.
      change 0xFF with (Z.ones 8). rewrite field_keeps by lia. reflexivity. }
    rewrite Hbytes, Hpay, crc_field_keeps by lia. reflexivity.
  - intros k Hk resp0'.
    pose proof crc7_generator_errors as G. rewrite forallb_forall in G.
    specialize (G k (in_range k 0 4 ltac:(lia))).
    assert (Hcrc : CRC.crc7 (Cmd.r1_checked_bytes resp0' resp1) =
                   CRC.crc7 (Cmd.r1_checked_bytes resp0 resp1)).
    { subst resp0'. rewrite <- (Z.lxor_0_r resp1) at 1.
      apply Z.eqb_eq in G. rewrite crc7_r1_lxor, G.
      apply Z.lxor_0_r. }
    assert (Hecho : Z.land (Z.shiftr resp0' 24) 0xFF = Z.land (Z.shiftr resp0 24) 0xFF).
    { subst resp0'. rewrite byte_lxor.
      replace (Z.land (Z.shiftr (Z.shiftl 0x89 (8 * k)) 24) 0xFF) with 0;
        [apply Z.lxor_0_r|].
      assert (K : k = 0 \/ k = 1 \/ k = 2) by lia.
      destruct K as [->|[->| ->]]; reflexivity. }
    split.
    + rewrite !command_R1_cases, Hcrc, Hecho.
      destruct (negb _); [reflexivity|]. destruct (_ && _); reflexivity.
    + intros E.
      apply (f_equal (fun x => Z.testbit x (8 * k + 8))) in E.
      rewrite !r1_payload_bit in E by lia. subst resp0'.
      rewrite Z.lxor_spec, Z.shiftl_spec in E by lia.
      replace (8 * k + 8 - 8 - 8 * k) with 0 in E by lia.
      change (Z.testbit 137 0) with true in E.
      destruct (Z.testbit resp0 _); discriminate.
Qed.

Section R2_validation.
Import CRC Cmd.

Lemma command_R2_cases (command arg w0 w1 w2 w3 w4 : Z) (more : list Z) :
  let rxf := w0 :: w1 :: w2 :: w3 :: w4 :: more in
  rp2040_sdio_command_R2 command arg rxf =
  if negb (crc7 (firstn 15 (r2_response rxf)) =? Z.land (Z.land w4 0xFF) 0xFE)
  then (SDIO_ERR_RESPONSE_CRC, Some (r2_response rxf))
  else if negb (Z.land (Z.shiftr w0 24) 0xFF =? 0x3F)
       then (SDIO_ERR_RESPONSE_CODE, Some (r2_response rxf))
       else (SDIO_OK, Some (r2_response rxf)).
Proof.
  intros rxf. subst rxf.
  unfold rp2040_sdio_command_R2, r2_response, crc7. cbv zeta.
  cbn [length Nat.ltb Nat.leb nth firstn].
  rewrite !Z.shiftr_0_r. reflexivity.
Qed.

Lemma crc7_r2_lxor (a0 a1 a2 a3 a4 e0 e1 e2 e3 e4 : Z) (more : list Z) :
  crc7 (firstn 15 (r2_response
     (Z.lxor a0 e0 :: Z.lxor a1 e1 :: Z.lxor a2 e2 :: Z.lxor a3 e3 :: Z.lxor a4 e4 :: more))) =
  Z.lxor (crc7 (firstn 15 (r2_response (a0 :: a1 :: a2 :: a3 :: a4 :: more))))
         (crc7 (firstn 15 (r2_response [e0; e1; e2; e3; e4]))).
Proof.
  unfold crc7, r2_response. cbn [firstn nth fold_left].
  rewrite !byte_lxor.
  change 0 with (Z.lxor 0 0) at 1.
  repeat (rewrite crc7_step_lxor;
          [| first [apply land_byte | lia
                   | repeat (apply crc7_step_byte; try apply land_byte; try lia)] ..]).
  reflexivity.
Qed.

Lemma crc_byte_mask (w : Z) : Z.land (Z.land w 0xFF) 0xFE = Z.land w 0xFE.
Proof. rewrite <- Z.land_assoc. reflexivity. Qed.

Lemma r2_response_bytes (rxf : reply) :
  Forall (fun b => 0 <= b < 256) (r2_response rxf) /\ length (r2_response rxf) = 16%nat.
Proof.
  split; [|reflexivity].
  unfold r2_response. repeat constructor; apply land_byte.
Qed.

(** The checksum of the error pattern that is a single bit of one of the
    first four words is zero exactly for the header bits, which the
    checksum does not cover; a bit of the checksum field changes that
    field, and a header bit changes the header. *)
Lemma crc7_r2_unit_errors :
  forallb (fun i => forallb (fun b =>
     Bool.eqb (crc7 (firstn 15 (r2_response (flip_reply_bit [0; 0; 0; 0; 0] i (Z.of_nat b)))) =? 0)
              ((i =? 0)%nat && (24 <=? b)%nat))
     (seq 0 32)) (seq 0 4) &&
  forallb (fun b =>
     (crc7 (firstn 15 (r2_response (flip_reply_bit [0; 0; 0; 0; 0] 4 (Z.of_nat b)))) =? 0) &&
     negb (Z.land (Z.land (Z.shiftl 1 (Z.of_nat b)) 0xFF) 0xFE =? 0))
     (seq 1 7) &&
  forallb (fun b => negb (Z.land (Z.shiftr (Z.shiftl 1 (Z.of_nat b)) 24) 0xFF =? 0))
     (seq 24 8) = true.
Proof. vm_compute. reflexivity. Qed.

Lemma command_R2_ok (command arg w0 w1 w2 w3 w4 : Z) (more : list Z) :
  let rxf := w0 :: w1 :: w2 :: w3 :: w4 :: more in
  fst (rp2040_sdio_command_R2 command arg rxf) = SDIO_OK <->
  crc7 (firstn 15 (r2_response rxf)) = Z.land (Z.land w4 0xFF) 0xFE /\
  Z.land (Z.shiftr w0 24) 0xFF = 0x3F.
Proof.
  intros rxf. subst rxf. rewrite command_R2_cases. cbv zeta.
  destruct (Z.eqb_spec (crc7 (firstn 15 (r2_response (w0 :: w1 :: w2 :: w3 :: w4 :: more))))
                       (Z.land (Z.land w4 0xFF) 0xFE)) as [E|E];
    destruct (Z.eqb_spec (Z.land (Z.shiftr w0 24) 0xFF) 0x3F) as [F|F];
    cbn [negb fst]; split; try tauto; try discriminate; intros [? ?]; contradiction.
Qed.

End R2_validation.

(** An R2 reply that [rp2040_sdio_command_R2] accepts is refused once a
    single bit of it is flipped, the end bit and the bits of the last word
    that are not captured apart: with a checksum error for a bit of the 120
    covered bits or of the checksum field, with a response-code error for a
    bit of the header byte. *)
Theorem command_R2_detects_single_bit_errors
    (command arg : Z) (rxf : Cmd.reply) (i : nat) (b : Z)
    (Hlen : (5 <= length rxf)%nat)
    (Hok : fst (Cmd.rp2040_sdio_command_R2 command arg rxf) = SDIO_OK)
    (Hi : (i < 5)%nat) (Hb : 0 <= b < 32) (Hlast : i = 4%nat -> 1 <= b < 8) :
  fst (Cmd.rp2040_sdio_command_R2 command arg (flip_reply_bit rxf i b)) =
  if (i =? 0)%nat && (24 <=? b) then SDIO_ERR_RESPONSE_CODE else SDIO_ERR_RESPONSE_CRC.
Proof.
  destruct rxf as [|w0 [|w1 [|w2 [|w3 [|w4 more]]]]]; cbn [length] in Hlen; try lia.
  apply command_R2_ok in Hok. destruct Hok as [Hcrc Hhdr].
  pose proof crc7_r2_unit_errors as U.
  apply andb_prop in U. destruct U as [U U3].
  apply andb_prop in U. destruct U as [U1 U2].
  rewrite forallb_forall in U1, U2, U3.
  assert (Hbn : b = Z.of_nat (Z.to_nat b)) by lia.
  set (e := Z.shiftl 1 b).
  assert (Hcov : forall k, (k < 4)%nat ->
            (CRC.crc7 (firstn 15 (r2_response (flip_reply_bit [0; 0; 0; 0; 0] k b))) =? 0) =
            ((k =? 0)%nat && (24 <=? b))).
  { intros k Hk. specialize (U1 k ltac:(apply in_seq; lia)).
    rewrite forallb_forall in U1.
    specialize (U1 (Z.to_nat b) ltac:(apply in_seq; lia)).
    rewrite <- Hbn in U1. apply Bool.eqb_prop in U1. rewrite U1.
    f_equal. destruct (Z.leb_spec 24 b), (Nat.leb_spec 24 (Z.to_nat b)); lia || reflexivity. }
  assert (Hcase : forall a0 a1 a2 a3 a4 : Z,
            fst (Cmd.rp2040_sdio_command_R2 command arg (a0 :: a1 :: a2 :: a3 :: a4 :: more)) =
            if negb (CRC.crc7 (firstn 15 (r2_response (a0 :: a1 :: a2 :: a3 :: a4 :: more))) =?
                     Z.land (Z.land a4 0xFF) 0xFE)
            then SDIO_ERR_RESPONSE_CRC
            else if negb (Z.land (Z.shiftr a0 24) 0xFF =? 0x3F)
                 then SDIO_ERR_RESPONSE_CODE else SDIO_OK).
  { intros. rewrite command_R2_cases. cbv zeta.
    destruct (negb _); [reflexivity|]. destruct (negb _); reflexivity. }
  assert (Hlin : forall e0 e1 e2 e3 e4 : Z,
            CRC.crc7 (firstn 15 (r2_response
              (Z.lxor w0 e0 :: Z.lxor w1 e1 :: Z.lxor w2 e2 :: Z.lxor w3 e3 ::
               Z.lxor w4 e4 :: more))) =
            Z.lxor (Z.land (Z.land w4 0xFF) 0xFE)
                   (CRC.crc7 (firstn 15 (r2_response [e0; e1; e2; e3; e4])))).
  { intros. rewrite crc7_r2_lxor, Hcrc. reflexivity. }
  unfold flip_reply_bit.
  destruct i as [|[|[|[|[|i]]]]]; try lia; cbn [firstn skipn nth app Nat.eqb andb];
    fold e; rewrite Hcase.
  - (* word 0 *)
    pose proof (Hcov 0%nat ltac:(lia)) as C. cbn [Nat.eqb andb] in C.
    change (flip_reply_bit [0; 0; 0; 0; 0] 0 b) with [Z.lxor 0 (Z.shiftl 1 b); 0; 0; 0; 0] in C.
    rewrite Z.lxor_0_l in C. fold e in C.
    rewrite <- (Z.lxor_0_r w1), <- (Z.lxor_0_r w2), <- (Z.lxor_0_r w3), <- (Z.lxor_0_r w4) at 1.
    rewrite Hlin, ?Z.lxor_0_r.
    destruct (Z.leb_spec 24 b) as [Hhi|Hlo].
    + apply Z.eqb_eq in C. rewrite C, Z.lxor_0_r, Z.eqb_refl. cbn [negb].
      rewrite byte_lxor, Hhdr.
      specialize (U3 (Z.to_nat b) ltac:(apply in_seq; lia)). rewrite <- Hbn in U3.
      fold e in U3.
      destruct (Z.eqb_spec (Z.lxor 63 (Z.land (Z.shiftr e 24) 255)) 63) as [E|E];
        [|reflexivity].
      exfalso. revert E. apply lxor_changes. lia.
    + apply Z.eqb_neq in C.
      destruct (Z.eqb_spec (Z.lxor (Z.land (Z.land w4 255) 254)
                  (CRC.crc7 (firstn 15 (r2_response [e; 0; 0; 0; 0]))))
                  (Z.land (Z.land w4 255) 254)) as [E|E]; [|reflexivity].
      exfalso. revert E. apply lxor_changes. exact C.
  - (* word 1 *)
    pose proof (Hcov 1%nat ltac:(lia)) as C. cbn [Nat.eqb andb] in C.
    change (flip_reply_bit [0; 0; 0; 0; 0] 1 b) with [0; Z.lxor 0 (Z.shiftl 1 b); 0; 0; 0] in C.
    rewrite Z.lxor_0_l in C. fold e in C. apply Z.eqb_neq in C.
    rewrite <- (Z.lxor_0_r w0), <- (Z.lxor_0_r w2), <- (Z.lxor_0_r w3), <- (Z.lxor_0_r w4) at 1.
    rewrite Hlin, ?Z.lxor_0_r.
    destruct (Z.eqb_spec (Z.lxor (Z.land (Z.land w4 255) 254)
                (CRC.crc7 (firstn 15 (r2_response [0; e; 0; 0; 0]))))
                (Z.land (Z.land w4 255) 254)) as [E|E]; [|reflexivity].
    exfalso. revert E. apply lxor_changes. exact C.
  - (* word 2 *)
    pose proof (Hcov 2%nat ltac:(lia)) as C. cbn [Nat.eqb andb] in C.
    change (flip_reply_bit [0; 0; 0; 0; 0] 2 b) with [0; 0; Z.lxor 0 (Z.shiftl 1 b); 0; 0] in C.
    rewrite Z.lxor_0_l in C. fold e in C. apply Z.eqb_neq in C.
    rewrite <- (Z.lxor_0_r w0), <- (Z.lxor_0_r w1), <- (Z.lxor_0_r w3), <- (Z.lxor_0_r w4) at 1.
    rewrite Hlin, ?Z.lxor_0_r.
    destruct (Z.eqb_spec (Z.lxor (Z.land (Z.land w4 255) 254)
                (CRC.crc7 (firstn 15 (r2_response [0; 0; e; 0; 0]))))
                (Z.land (Z.land w4 255) 254)) as [E|E]; [|reflexivity].
    exfalso. revert E. apply lxor_changes. exact C.
  - (* word 3 *)
    pose proof (Hcov 3%nat ltac:(lia)) as C. cbn [Nat.eqb andb] in C.
    change (flip_reply_bit [0; 0; 0; 0; 0] 3 b) with [0; 0; 0; Z.lxor 0 (Z.shiftl 1 b); 0] in C.
    rewrite Z.lxor_0_l in C. fold e in C. apply Z.eqb_neq in C.
    rewrite <- (Z.lxor_0_r w0), <- (Z.lxor_0_r w1), <- (Z.lxor_0_r w2), <- (Z.lxor_0_r w4) at 1.
    rewrite Hlin, ?Z.lxor_0_r.
    destruct (Z.eqb_spec (Z.lxor (Z.land (Z.land w4 255) 254)
                (CRC.crc7 (firstn 15 (r2_response [0; 0; 0; e; 0]))))
                (Z.land (Z.land w4 255) 254)) as [E|E]; [|reflexivity].
    exfalso. revert E. apply lxor_changes. exact C.
  - (* word 4: the checksum field *)
    specialize (Hlast eq_refl).
    specialize (U2 (Z.to_nat b) ltac:(apply in_seq; lia)). rewrite <- Hbn in U2.
    apply andb_prop in U2. destruct U2 as [C D].
    change (flip_reply_bit [0; 0; 0; 0; 0] 4 b) with [0; 0; 0; 0; Z.lxor 0 (Z.shiftl 1 b)] in C.
    rewrite Z.lxor_0_l in C. fold e in C, D. apply Z.eqb_eq in C.
    rewrite <- (Z.lxor_0_r w0), <- (Z.lxor_0_r w1), <- (Z.lxor_0_r w2), <- (Z.lxor_0_r w3) at 1.
    rewrite Hlin, C, ?Z.lxor_0_r, !land_lxor_distr.
    destruct (Z.eqb_spec (Z.land (Z.land w4 255) 254)
                (Z.lxor (Z.land (Z.land w4 255) 254) (Z.land (Z.land e 255) 254))) as [E|E];
      [|reflexivity].
    exfalso. symmetry in E. revert E. apply lxor_changes. lia.
Qed.

Lemma command_R2_detects_single_bit_errors_witness :
  (5 <= length Card.r2_zero_reply)%nat /\
  fst (Cmd.rp2040_sdio_command_R2 2 0 Card.r2_zero_reply) = SDIO_OK /\
  fst (Cmd.rp2040_sdio_command_R2 2 0 (flip_reply_bit Card.r2_zero_reply 2 8)) =
  SDIO_ERR_RESPONSE_CRC.
Proof.
  assert (H1 : (5 <= length Card.r2_zero_reply)%nat) by (cbn; lia).
  assert (H2 : fst (Cmd.rp2040_sdio_command_R2 2 0 Card.r2_zero_reply) = SDIO_OK)
    by (vm_compute; reflexivity).
  split; [exact H1|]. split; [exact H2|].
  exact (command_R2_detects_single_bit_errors 2 0 Card.r2_zero_reply 2 8
           H1 H2 ltac:(lia) ltac:(lia) ltac:(intros; lia)).
Defined.

(** ** Command frames *)

Section Frame_packing.

Lemma testbit_high (x n k : Z) : 0 <= x < 2 ^ n -> n <= k -> Z.testbit x k = false.
Proof.
  intros Hx Hk.
  destruct (Z.ltb_spec n 0).
  - rewrite Z.pow_neg_r in Hx by lia. lia.
  - rewrite <- (Z.mod_small x (2 ^ n)) by lia.
    apply Z.mod_pow2_bits_high. lia.
Qed.

Lemma lor_pack (a lo k : Z) :
  0 <= k -> a mod 2 ^ k = 0 -> 0 <= lo < 2 ^ k -> Z.lor a lo = a + lo.
Proof.
  intros Hk Ha Hlo.
  rewrite <- Z.lxor_lor, <- Z.add_nocarry_lxor; try reflexivity.
  all: apply Z.bits_inj'; intros n Hn; rewrite Z.land_spec, Z.bits_0;
    destruct (Z.ltb_spec n k);
    [ rewrite <- (Z.mod_pow2_bits_low a k n), Ha, Z.bits_0 by lia; reflexivity
    | rewrite (testbit_high lo k n) by lia; apply andb_false_r ].
Qed.

Lemma pack_word0 (c x y : Z) :
  0 <= c < 64 -> 0 <= x < 256 -> 0 <= y < 256 ->
  Z.lor (Z.lor (Z.lor (Z.lor (Z.shiftl 47 24) (Z.shiftl 1 22)) (Z.shiftl c 16))
               (Z.shiftl x 8)) (Z.shiftl y 0) =
  47 * 2 ^ 24 + (64 + c) * 2 ^ 16 + x * 2 ^ 8 + y.
Proof.
  intros Hc Hx Hy.
  rewrite !Z.shiftl_mul_pow2 by lia.
  change (Z.lor (47 * 2 ^ 24) (1 * 2 ^ 22)) with (47 * 2 ^ 24 + 64 * 2 ^ 16).
  rewrite (lor_pack _ (c * 2 ^ 16) 22) by (try Z.div_mod_to_equations; lia).
  rewrite (lor_pack _ (x * 2 ^ 8) 16) by (try Z.div_mod_to_equations; lia).
  rewrite (lor_pack _ (y * 2 ^ 0) 8) by (try Z.div_mod_to_equations; lia).
  lia.
Qed.

Lemma byte_of (x s : Z) : 0 <= s -> Z.land (Z.shiftr x s) 0xFF = x / 2 ^ s mod 256.
Proof.
  intros Hs. rewrite Z.shiftr_div_pow2 by lia.
  change 0xFF with (Z.ones 8). rewrite Z.land_ones by lia. reflexivity.
Qed.

Lemma pack_word1 (x y q r : Z) :
  0 <= x < 256 -> 0 <= y < 256 -> 0 <= q < 128 -> 0 <= r < 256 ->
  Z.lor (Z.lor (Z.lor (Z.lor (Z.shiftl x 24) (Z.shiftl y 16)) (Z.shiftl 1 8)) r)
        (Z.shiftl (2 * q) 8) =
  x * 2 ^ 24 + y * 2 ^ 16 + (2 * q + 1) * 2 ^ 8 + r.
Proof.
  intros Hx Hy Hq Hr.
  replace (Z.lor (Z.lor (Z.lor (Z.lor (Z.shiftl x 24) (Z.shiftl y 16)) (Z.shiftl 1 8)) r)
             (Z.shiftl (2 * q) 8))
    with (Z.lor (Z.lor (Z.lor (Z.lor (Z.shiftl x 24) (Z.shiftl y 16)) (Z.shiftl (2 * q) 8))
                       (Z.shiftl 1 8)) r)
    by (apply Z.bits_inj'; intros n _; rewrite ?Z.lor_spec; btauto).
  rewrite !Z.shiftl_mul_pow2 by lia.
  rewrite (lor_pack _ (y * 2 ^ 16) 24) by (try Z.div_mod_to_equations; lia).
  rewrite (lor_pack _ (2 * q * 2 ^ 8) 16) by (try Z.div_mod_to_equations; lia).
  rewrite (lor_pack _ (1 * 2 ^ 8) 9) by (try Z.div_mod_to_equations; lia).
  rewrite (lor_pack _ r 8) by (try Z.div_mod_to_equations; lia).
  lia.
Qed.

End Frame_packing.

(** The two words that [sdio_send_command] hands to the command state
    machine, for a command index below 64: the first holds the bit count
    47, the start and direction bits with the command index, and the upper
    half of the argument; the second holds the lower half of the argument,
    the CRC-7 of the five packet bytes with the end bit, and the number of
    response bits minus one (zero when no response is expected). *)
Theorem send_command_frame (command arg response_bits : Z) :
  0 <= command < 64 -> 0 <= arg < 2 ^ 32 -> 0 <= response_bits < 256 ->
  let w := Cmd.sdio_send_command command arg response_bits in
  let packet := [64 + command; arg / 2 ^ 24; arg / 2 ^ 16 mod 256;
                 arg / 2 ^ 8 mod 256; arg mod 256] in
  fst w = 47 * 2 ^ 24 + (64 + command) * 2 ^ 16 + arg / 2 ^ 16 /\
  snd w = (arg mod 2 ^ 16) * 2 ^ 16 + (CRC.crc7 packet + 1) * 2 ^ 8 +
          (if response_bits =? 0 then 0 else response_bits - 1).
Proof.
  intros Hc Ha Hr w packet. subst w. unfold Cmd.sdio_send_command.
  set (a3 := Z.land (Z.shiftr arg 24) 255).
  set (a2 := Z.land (Z.shiftr arg 16) 255).
  set (a1 := Z.land (Z.shiftr arg 8) 255).
  set (a0 := Z.land (Z.shiftr arg 0) 255).
  assert (E3 : a3 = arg / 2 ^ 24) by (subst a3; rewrite byte_of by lia; Z.div_mod_to_equations; lia).
  assert (E2 : a2 = arg / 2 ^ 16 mod 256) by (subst a2; apply byte_of; lia).
  assert (E1 : a1 = arg / 2 ^ 8 mod 256) by (subst a1; apply byte_of; lia).
  assert (E0 : a0 = arg mod 256) by (subst a0; rewrite byte_of by lia; rewrite Z.div_1_r; reflexivity).
  assert (B3 : 0 <= a3 < 256) by apply land_byte.
  assert (B2 : 0 <= a2 < 256) by apply land_byte.
  assert (B1 : 0 <= a1 < 256) by apply land_byte.
  assert (B0 : 0 <= a0 < 256) by apply land_byte.
  rewrite (pack_word0 command a3 a2 Hc B3 B2).
  cbv zeta.
  set (r := if response_bits =? 0 then 0 else response_bits - 1).
  assert (Br : 0 <= r < 256) by (subst r; destruct (Z.eqb_spec response_bits 0); lia).
  replace (if response_bits =? 0
           then Z.lor (Z.lor (Z.shiftl a1 24) (Z.shiftl a0 16)) (Z.shiftl 1 8)
           else Z.lor (Z.lor (Z.lor (Z.shiftl a1 24) (Z.shiftl a0 16)) (Z.shiftl 1 8))
                      (Z.shiftl (response_bits - 1) 0))
    with (Z.lor (Z.lor (Z.lor (Z.shiftl a1 24) (Z.shiftl a0 16)) (Z.shiftl 1 8)) r)
    by (subst r; destruct (response_bits =? 0);
        [apply Z.lor_0_r | rewrite Z.shiftl_0_r; reflexivity]).
  set (w1 := Z.lor (Z.lor (Z.lor (Z.shiftl a1 24) (Z.shiftl a0 16)) (Z.shiftl 1 8)) r).
  assert (W1 : w1 = a1 * 2 ^ 24 + a0 * 2 ^ 16 + (2 * 0 + 1) * 2 ^ 8 + r).
  { subst w1. rewrite <- (pack_word1 a1 a0 0 r B1 B0 ltac:(lia) Br).
    symmetry. apply Z.lor_0_r. }
  set (w0 := 47 * 2 ^ 24 + (64 + command) * 2 ^ 16 + a3 * 2 ^ 8 + a2).
  assert (P0 : Z.land (Z.shiftr w0 16) 255 = 64 + command)
    by (rewrite byte_of by lia; subst w0; Z.div_mod_to_equations; lia).
  assert (P1 : Z.land (Z.shiftr w0 8) 255 = a3)
    by (rewrite byte_of by lia; subst w0; Z.div_mod_to_equations; lia).
  assert (P2 : Z.land (Z.shiftr w0 0) 255 = a2)
    by (rewrite byte_of by lia; subst w0; Z.div_mod_to_equations; lia).
  assert (P3 : Z.land (Z.shiftr w1 24) 255 = a1)
    by (rewrite byte_of by lia; rewrite W1; Z.div_mod_to_equations; lia).
  assert (P4 : Z.land (Z.shiftr w1 16) 255 = a0)
    by (rewrite byte_of by lia; rewrite W1; Z.div_mod_to_equations; lia).
  rewrite P0, P1, P2, P3, P4.
  change (CRC.crc7_step (CRC.crc7_step (CRC.crc7_step (CRC.crc7_step (CRC.crc7_step 0 (64 + command)) a3) a2) a1) a0)
    with (CRC.crc7 [64 + command; a3; a2; a1; a0]).
  subst packet. rewrite <- E3, <- E2, <- E1, <- E0.
  assert (Hbytes : Forall (fun b => 0 <= b < 256) [64 + command; a3; a2; a1; a0])
    by (repeat constructor; lia).
  set (c7 := CRC.crc7 [64 + command; a3; a2; a1; a0]).
  assert (C7 : 0 <= c7 < 256 /\ Z.even c7 = true).
  { split; [apply (crc7_fold_bitwise _ Hbytes 0); lia|].
    apply crc7_fold_even; [exact Hbytes | lia | reflexivity]. }
  destruct C7 as [C7 C7e].
  assert (Q : c7 = 2 * (c7 / 2)).
  { apply Zeven_bool_iff in C7e. destruct (Zeven_ex c7 C7e) as [q Hq].
    rewrite Hq at 2. rewrite (Z.mul_comm 2 q), Z.div_mul by lia. lia. }
  cbn [fst snd]. split.
  - subst w0. Z.div_mod_to_equations; lia.
  - rewrite Q at 1. subst w1.
    rewrite (pack_word1 a1 a0 (c7 / 2) r B1 B0 ltac:(Z.div_mod_to_equations; lia) Br).
    rewrite <- Q. Z.div_mod_to_equations; lia.
Qed.

Lemma send_command_frame_witness :
  0 <= 8 < 64 /\ 0 <= 0x1AA < 2 ^ 32 /\ 0 <= 48 < 256 /\
  fst (Cmd.sdio_send_command 8 0x1AA 48) = 47 * 2 ^ 24 + (64 + 8) * 2 ^ 16 + 0x1AA / 2 ^ 16.
Proof.
  assert (H1 : 0 <= 8 < 64) by lia.
  assert (H2 : 0 <= 0x1AA < 2 ^ 32) by lia.
  assert (H3 : 0 <= 48 < 256) by lia.
  split; [exact H1|]. split; [exact H2|]. split; [exact H3|].
  exact (proj1 (send_command_frame 8 0x1AA 48 H1 H2 H3)).
Defined.

(** ** CRC-16 of the four data lines *)

Section CRC16_lines.
Import CRC.

Example crc16_reference_samples :
  fold_left Ref.crc16_byte [0x31; 0x32; 0x33; 0x34; 0x35; 0x36; 0x37; 0x38; 0x39] 0 = 0x31C3 /\
  fold_left Ref.crc16_byte (repeat 0xFF 512) 0 = 0x7FA1 /\
  Ref.crc7_bitwise [0x40; 0; 0; 0; 0] = 0x94.
Proof. vm_compute. repeat split. Qed.

(** On the unit vectors of the accumulator and of the data word, each line
    of the four-line step is eight steps of the one-line CRC. *)
Lemma crc16_step_units :
  forallb (fun k =>
    forallb (fun i =>
      Ref.lane k 16 (crc16_4bit_step (Z.shiftl 1 (Z.of_nat i)) 0) =?
      Ref.crc16_byte (Ref.lane k 16 (Z.shiftl 1 (Z.of_nat i))) 0) (seq 0 64) &&
    forallb (fun i =>
      Ref.lane k 16 (crc16_4bit_step 0 (Z.shiftl 1 (Z.of_nat i))) =?
      Ref.crc16_byte 0 (Ref.lane k 8 (bswap32 (Z.shiftl 1 (Z.of_nat i))))) (seq 0 32))
    [0; 1; 2; 3] = true.
Proof. vm_compute. reflexivity. Qed.

Lemma bounded_by_bits (x n : Z) :
  0 <= n -> (forall i, n <= i -> Z.testbit x i = false) -> 0 <= x < 2 ^ n.
Proof.
  intros Hn Hhigh.
  assert (E : x = x mod 2 ^ n).
  { apply Z.bits_inj'. intros i Hi. destruct (Z.ltb_spec i n).
    - rewrite Z.mod_pow2_bits_low by lia. reflexivity.
    - rewrite Z.mod_pow2_bits_high by lia. apply Hhigh. lia. }
  rewrite E. apply Z.mod_pos_bound. lia.
Qed.

Lemma bits_of_bounded (x n i : Z) : 0 <= x < 2 ^ n -> n <= i -> Z.testbit x i = false.
Proof.
  intros Hx Hi. destruct (Z.ltb_spec n 0).
  - rewrite Z.pow_neg_r in Hx by lia. lia.
  - rewrite <- (Z.mod_small x (2 ^ n)) by lia. apply Z.mod_pow2_bits_high. lia.
Qed.

Lemma lane_spec (k : Z) (n : nat) (x i : Z) :
  0 <= k -> 0 <= i ->
  Z.testbit (Ref.lane k n x) i =
  if i <? Z.of_nat n then Z.testbit x (4 * i + k) else false.
Proof.
  intros Hk Hi. induction n as [|n IH].
  - cbn [Ref.lane]. rewrite Z.bits_0.
    destruct (Z.ltb_spec i (Z.of_nat 0)); [lia | reflexivity].
  - cbn [Ref.lane]. rewrite Z.lor_spec, IH, Z.shiftl_spec by lia.
    destruct (Z.ltb_spec i (Z.of_nat n)), (Z.ltb_spec i (Z.of_nat (S n))); try lia.
    + rewrite (Z.testbit_neg_r _ (i - Z.of_nat n)) by lia. apply orb_false_r.
    + replace i with (Z.of_nat n) by lia. rewrite Z.sub_diag.
      change 1 with (Z.ones 1). rewrite Z.land_spec, Z.shiftr_spec by lia.
      rewrite Z.ones_spec_low by lia. cbn. rewrite andb_true_r. reflexivity.
    + change 1 with (Z.ones 1). rewrite Z.land_spec, Z.ones_spec_high by lia.
      rewrite andb_false_r. reflexivity.
Qed.

Lemma lane_lxor (k : Z) (n : nat) (x y : Z) :
  0 <= k ->
  Ref.lane k n (Z.lxor x y) = Z.lxor (Ref.lane k n x) (Ref.lane k n y).
Proof.
  intros Hk. apply Z.bits_inj'. intros i Hi.
  rewrite Z.lxor_spec, !lane_spec by lia.
  destruct (i <? Z.of_nat n); [apply Z.lxor_spec | reflexivity].
Qed.

Lemma lane_zero (k : Z) (n : nat) : 0 <= k -> Ref.lane k n 0 = 0.
Proof.
  intros Hk. apply Z.bits_inj'. intros i Hi.
  rewrite lane_spec, !Z.bits_0 by lia. destruct (i <? Z.of_nat n); reflexivity.
Qed.

(** The one-line step written with shifts, masks and xor only. *)
Lemma crc16_bit_linear_form (c d : Z) :
  Ref.crc16_bit c d =
  let fb := Z.lxor (Z.land (Z.shiftr c 15) 1) (Z.land d 1) in
  Z.lxor (Z.land (Z.shiftl c 1) 0xFFFF)
         (Z.lxor fb (Z.lxor (Z.shiftl fb 5) (Z.shiftl fb 12))).
Proof.
  unfold Ref.crc16_bit. cbv zeta.
  assert (A : Z.land (Z.shiftr c 15) 1 = Z.b2z (Z.testbit c 15)).
  { rewrite Z.testbit_odd. change 1 with (Z.ones 1) at 1.
    rewrite Z.land_ones, Zmod_odd by lia. destruct (Z.odd _); reflexivity. }
  assert (B : Z.land d 1 = Z.b2z (Z.odd d)).
  { change 1 with (Z.ones 1) at 1.
    rewrite Z.land_ones, Zmod_odd by lia. destruct (Z.odd _); reflexivity. }
  rewrite A, B.
  destruct (Z.testbit c 15), (Z.odd d); cbn [xorb Z.b2z];
    rewrite ?Z.lxor_0_r; reflexivity.
Qed.

Lemma crc16_bit_lxor (c1 c2 d1 d2 : Z) :
  Ref.crc16_bit (Z.lxor c1 c2) (Z.lxor d1 d2) =
  Z.lxor (Ref.crc16_bit c1 d1) (Ref.crc16_bit c2 d2).
Proof.
  rewrite !crc16_bit_linear_form. cbv zeta.
  repeat (rewrite ?Z.shiftr_lxor, ?Z.shiftl_lxor, ?land_lxor_distr).
  apply Z.bits_inj'; intros n _; rewrite ?Z.lxor_spec; btauto.
Qed.

Lemma crc16_byte_lxor (c1 c2 b1 b2 : Z) :
  Ref.crc16_byte (Z.lxor c1 c2) (Z.lxor b1 b2) =
  Z.lxor (Ref.crc16_byte c1 b1) (Ref.crc16_byte c2 b2).
Proof.
  unfold Ref.crc16_byte.
  generalize [7; 6; 5; 4; 3; 2; 1; 0] as js. intros js. revert c1 c2.
  induction js as [|j js IH]; intros c1 c2; cbn [fold_left]; [reflexivity|].
  rewrite Z.shiftr_lxor, land_lxor_distr, crc16_bit_lxor. apply IH.
Qed.

(** Two xor-linear functions that agree on the powers of two below [2^n]
    agree on every value below [2^n]. *)
Lemma linear_ext (f g : Z -> Z) (n : nat) :
  (forall x y, f (Z.lxor x y) = Z.lxor (f x) (f y)) ->
  (forall x y, g (Z.lxor x y) = Z.lxor (g x) (g y)) ->
  (forall i, (i < n)%nat -> f (Z.shiftl 1 (Z.of_nat i)) = g (Z.shiftl 1 (Z.of_nat i))) ->
  forall x, 0 <= x < 2 ^ Z.of_nat n -> f x = g x.
Proof.
  intros Hf Hg. 
  assert (F0 : f 0 = 0).
  { pose proof (Hf 0 0) as H. rewrite Z.lxor_0_r, Z.lxor_nilpotent in H. exact H. }
  assert (G0 : g 0 = 0).
  { pose proof (Hg 0 0) as H. rewrite Z.lxor_0_r, Z.lxor_nilpotent in H. exact H. }
  induction n as [|n IH]; intros Hunits x Hx.
  - replace x with 0 by (change (2 ^ Z.of_nat 0) with 1 in Hx; lia). congruence.
  - assert (Hsplit : x = Z.lxor (x mod 2 ^ Z.of_nat n)
                               (if Z.testbit x (Z.of_nat n) then Z.shiftl 1 (Z.of_nat n) else 0)).
    { apply Z.bits_inj'. intros i Hi. rewrite Z.lxor_spec.
      destruct (Z.ltb_spec i (Z.of_nat n)).
      - rewrite Z.mod_pow2_bits_low by lia.
        destruct (Z.testbit x (Z.of_nat n)).
        + rewrite testbit_one_shifted by lia. replace (i =? Z.of_nat n) with false by lia.
          rewrite xorb_false_r. reflexivity.
        + rewrite Z.bits_0, xorb_false_r. reflexivity.
      - rewrite Z.mod_pow2_bits_high by lia. rewrite xorb_false_l.
        destruct (Z.eqb_spec i (Z.of_nat n)) as [->|Hne].
        + destruct (Z.testbit x (Z.of_nat n)).
          * rewrite testbit_one_shifted, Z.eqb_refl by lia. reflexivity.
          * rewrite Z.bits_0. reflexivity.
        + rewrite (bits_of_bounded x (Z.of_nat (S n)) i) by lia.
          destruct (Z.testbit x (Z.of_nat n)).
          * rewrite testbit_one_shifted by lia. symmetry. lia.
          * rewrite Z.bits_0. reflexivity. }
    rewrite Hsplit, Hf, Hg.
    rewrite (IH (fun i Hi => Hunits i (Nat.lt_lt_succ_r _ _ Hi)))
      by (apply Z.mod_pos_bound; lia).
    f_equal. destruct (Z.testbit x (Z.of_nat n)); [|congruence].
    apply Hunits. lia.
Qed.

Lemma bswap32_high (w i : Z) : 32 <= i -> Z.testbit (bswap32 w) i = false.
Proof.
  intros Hi. unfold bswap32. change 0xFF with (Z.ones 8).
  rewrite !Z.lor_spec, !Z.shiftl_spec, !Z.land_spec by lia.
  rewrite !Z.ones_spec_high by lia.
  rewrite !andb_false_r. reflexivity.
Qed.

Lemma crc16_4bit_step_range (c w : Z) : 0 <= crc16_4bit_step c w < 2 ^ 64.
Proof.
  apply bounded_by_bits; [lia|]. intros i Hi.
  unfold crc16_4bit_step, u64, u32. cbv zeta.
  rewrite !Z.lxor_spec, !Z.land_spec, !Z.shiftr_spec, !Z.land_spec by lia.
  rewrite !Z.ones_spec_high by lia.
  rewrite !bswap32_high by lia.
  rewrite !andb_false_r. reflexivity.
Qed.

Lemma crc16_4bit_step_split (c w : Z) :
  crc16_4bit_step c w = Z.lxor (crc16_4bit_step c 0) (crc16_4bit_step 0 w).
Proof.
  rewrite <- crc16_4bit_step_lxor, Z.lxor_0_r, Z.lxor_0_l. reflexivity.
Qed.

Lemma crc16_byte_split (c b : Z) :
  Ref.crc16_byte c b = Z.lxor (Ref.crc16_byte c 0) (Ref.crc16_byte 0 b).
Proof.
  rewrite <- crc16_byte_lxor, Z.lxor_0_r, Z.lxor_0_l. reflexivity.
Qed.

(** Each line of the four-line step is eight steps of the one-line CRC. *)
Lemma crc16_4bit_step_lane (k c w : Z) :
  0 <= k < 4 -> 0 <= c < 2 ^ 64 -> 0 <= w < 2 ^ 32 ->
  Ref.lane k 16 (crc16_4bit_step c w) =
  Ref.crc16_byte (Ref.lane k 16 c) (Ref.lane k 8 (bswap32 w)).
Proof.
  intros Hk Hc Hw.
  pose proof crc16_step_units as U. rewrite forallb_forall in U.
  assert (Hin : In k [0; 1; 2; 3]) by (cbn; lia).
  specialize (U k Hin). apply andb_prop in U. destruct U as [U1 U2].
  rewrite forallb_forall in U1, U2.
  rewrite crc16_4bit_step_split, lane_lxor by lia.
  rewrite (crc16_byte_split (Ref.lane k 16 c)).
  f_equal.
  - apply (linear_ext (fun c => Ref.lane k 16 (crc16_4bit_step c 0))
                      (fun c => Ref.crc16_byte (Ref.lane k 16 c) 0) 64).
    + intros x y. rewrite <- lane_lxor by lia. f_equal.
      rewrite <- crc16_4bit_step_lxor, Z.lxor_0_r. reflexivity.
    + intros x y. rewrite lane_lxor by lia.
      rewrite <- crc16_byte_lxor, Z.lxor_0_r. reflexivity.
    + intros i Hi. apply Z.eqb_eq, U1, in_seq. lia.
    + exact Hc.
  - apply (linear_ext (fun w => Ref.lane k 16 (crc16_4bit_step 0 w))
                      (fun w => Ref.crc16_byte 0 (Ref.lane k 8 (bswap32 w))) 32).
    + intros x y. rewrite <- lane_lxor by lia. f_equal.
      rewrite <- crc16_4bit_step_lxor, Z.lxor_0_r. reflexivity.
    + intros x y. rewrite bswap32_lxor, lane_lxor by lia.
      rewrite <- crc16_byte_lxor, Z.lxor_0_r. reflexivity.
    + intros i Hi. apply Z.eqb_eq, U2, in_seq. lia.
    + exact Hw.
Qed.

Lemma fold_left_cons {A B : Type} (f : A -> B -> A) (x : B) (l : list B) (a : A) :
  fold_left f (x :: l) a = fold_left f l (f a x).
Proof. reflexivity. Qed.

Lemma fold_left_nil {A B : Type} (f : A -> B -> A) (a : A) :
  fold_left f [] a = a.
Proof. reflexivity. Qed.

Lemma crc16_4bit_fold_lane (k : Z) (words : list Z) :
  0 <= k < 4 -> Forall (fun w => 0 <= w < 2 ^ 32) words ->
  forall c, 0 <= c < 2 ^ 64 ->
  Ref.lane k 16 (fold_left crc16_4bit_step words c) =
  fold_left (fun c w => Ref.crc16_byte c (Ref.lane k 8 (bswap32 w))) words (Ref.lane k 16 c) /\
  0 <= fold_left crc16_4bit_step words c < 2 ^ 64.
Proof.
  intros Hk. induction 1 as [|w words Hw Hws IH]; intros c Hc.
  - rewrite !fold_left_nil. split; [reflexivity | exact Hc].
  - rewrite !fold_left_cons.
    destruct (IH (crc16_4bit_step c w) (crc16_4bit_step_range c w)) as [E B].
    split; [|exact B].
    rewrite E. f_equal. apply crc16_4bit_step_lane; assumption.
Qed.

End CRC16_lines.

(** The 64-bit checksum of [sdio_crc16_4bit_checksum] is made of the four
    CRC-16 values of the data lines: for each line [k], the sixteen bits
    [k], [k+4], ..., [k+60] of the result are the CCITT CRC-16 of the bits
    that line carries when the words are sent in order, bytes swapped, most
    significant nibble first. *)
Theorem crc16_4bit_is_crc16_of_each_line (mem : memory) (data num_words k : Z) :
  (forall a, 0 <= mem a < 2 ^ 32) -> 0 <= k < 4 ->
  Ref.lane k 16 (CRC.sdio_crc16_4bit_checksum mem data num_words) =
  Ref.crc16_line k (load_words mem data (Z.to_nat num_words)) /\
  0 <= CRC.sdio_crc16_4bit_checksum mem data num_words < 2 ^ 64.
Proof.
  intros Hmem Hk.
  assert (Hdef : CRC.sdio_crc16_4bit_checksum mem data num_words =
                 fold_left CRC.crc16_4bit_step (load_words mem data (Z.to_nat num_words)) 0)
    by reflexivity.
  rewrite Hdef. unfold Ref.crc16_line.
  assert (Hws : Forall (fun w => 0 <= w < 2 ^ 32) (load_words mem data (Z.to_nat num_words))).
  { unfold load_words. apply Forall_forall. intros w Hw.
    apply in_map_iff in Hw. destruct Hw as (j & <- & _). apply Hmem. }
  destruct (crc16_4bit_fold_lane k _ Hk Hws 0 ltac:(lia)) as [E B].
  rewrite (lane_zero k 16) in E by lia.
  split; [exact E | exact B].
Qed.

Lemma crc16_4bit_is_crc16_of_each_line_witness :
  (forall a, 0 <= Session.one_bit_memory a < 2 ^ 32) /\ 0 <= 2 < 4 /\
  Ref.lane 2 16 (CRC.sdio_crc16_4bit_checksum Session.one_bit_memory 0 128) =
  Ref.crc16_line 2 (load_words Session.one_bit_memory 0 (Z.to_nat 128)).
Proof.
  assert (H1 : forall a, 0 <= Session.one_bit_memory a < 2 ^ 32).
  { intros a. unfold Session.one_bit_memory. destruct (a =? 0); lia. }
  assert (H2 : 0 <= 2 < 4) by lia.
  split; [exact H1|]. split; [exact H2|].
  exact (proj1 (crc16_4bit_is_crc16_of_each_line Session.one_bit_memory 0 128 2 H1 H2)).
Defined.

(** ** Transmit sessions *)

Lemma tx_session_never_computes_checksums_witness :
  1 <= 2 <= Xfer.SDIO_MAX_BLOCKS /\
  Xfer.blocks_checksumed
    (snd (Session.tx_run [Session.block_tick [] 0 0 1; Session.block_tick [] 0 0 2]
            (Session.tx_armed 2 false))) = 0.
Proof.
  assert (H : 1 <= 2 <= Xfer.SDIO_MAX_BLOCKS) by (unfold Xfer.SDIO_MAX_BLOCKS; lia).
  split; [exact H|].
  exact (proj1 (tx_session_never_computes_checksums 0 2 0 false Session.blank_machine
                  [Session.block_tick [] 0 0 1; Session.block_tick [] 0 0 2] H)).
Defined.

Section Wire_format.
Import CRC Xfer Session.





End Wire_format.



(** ** Polling after a timeout *)

Section After_timeout.
Import CRC Xfer Session.


Lemma tx_finish_cases (env : poll_env) (h : machine) :
  let r := tx_poll_finish env true h in
  pr_bytes r = Some (wrap32 (blocks_done h * 512)) /\
  blocks_done (pr_machine r) = blocks_done h /\
  match transfer_state h with
  | SDIO_IDLE => pr_status r = SDIO_OK
  | _ =>
      if wrap32 (pe_millis env - transfer_start_time h) >? 1000
      then pr_status r = SDIO_ERR_DATA_TIMEOUT /\
           pr_machine r = snd (rp2040_sdio_stop (azlog DBG_TX_POLL_TIMEOUT h))
      else pr_status r = SDIO_BUSY
  end.
Proof.
  unfold tx_poll_finish. cbv zeta.
  destruct (transfer_state h) eqn:Hs; cbn [state_eqb];
    try (destruct (_ >? 1000)); destruct h; cbn; repeat split.
Qed.



End After_timeout.



(** ** The checksum loop of the transmit side *)

Section Compute_checksums.
Import CRC Xfer Session.

Lemma compute_block_fields (m : machine) :
  0 <= blocks_checksumed m < 2 ^ 31 ->
  let m' := sdio_compute_tx_block m in
  blocks_checksumed m' = blocks_checksumed m + 1 /\
  block_checksums m' =
    store_checksum (blocks_checksumed m)
      (sdio_crc16_4bit_checksum (ram m) (data_buf m + blocks_checksumed m * 128) 128)
      (block_checksums m) /\
  m' = set_block_checksums (block_checksums m')
         (set_blocks_checksumed (blocks_checksumed m') m).
Proof.
  intros Hbc. unfold sdio_compute_tx_block. cbv zeta.
  rewrite (int_of_u32_small (blocks_checksumed m)) by lia.
  rewrite (wrap32_small (blocks_checksumed m + 1)) by lia.
  destruct m; cbn. repeat split.
Qed.

Lemma compute_checksums_spec (k : nat) :
  forall m,
  0 <= blocks_checksumed m -> blocks_done m < 2 ^ 31 ->
  let m' := sdio_compute_tx_checksums k m in
  let last := if blocks_checksumed m <? blocks_done m
              then Z.min (blocks_done m) (blocks_checksumed m + Z.of_nat k)
              else blocks_checksumed m in
  blocks_checksumed m' = last /\
  (forall i, blocks_checksumed m <= i < last ->
     block_checksums m' i =
     sdio_crc16_4bit_checksum (ram m) (data_buf m + i * 128) 128) /\
  (forall i, ~ (blocks_checksumed m <= i < last) ->
     block_checksums m' i = block_checksums m i) /\
  m' = set_block_checksums (block_checksums m')
         (set_blocks_checksumed (blocks_checksumed m') m).
Proof.
  induction k as [|k IH]; intros m Hbc Hbd; cbv zeta.
  - assert (E : sdio_compute_tx_checksums 0 m = m)
      by (cbn [sdio_compute_tx_checksums]; destruct (_ <? _); reflexivity).
    rewrite E.
    destruct (Z.ltb_spec (blocks_checksumed m) (blocks_done m)).
    + split; [lia|]. split; [intros i Hi; lia|]. split; [reflexivity|].
      destruct m; reflexivity.
    + split; [reflexivity|]. split; [intros i Hi; lia|]. split; [reflexivity|].
      destruct m; reflexivity.
  - cbn [sdio_compute_tx_checksums].
    destruct (Z.ltb_spec (blocks_checksumed m) (blocks_done m)) as [Hlt|Hge].
    + destruct (compute_block_fields m ltac:(lia)) as (B1 & B2 & B3).
      set (m1 := sdio_compute_tx_block m) in *.
      assert (R1 : ram m1 = ram m /\ data_buf m1 = data_buf m /\ blocks_done m1 = blocks_done m).
      { rewrite B3. destruct m; cbn. repeat split. }
      destruct R1 as (R1 & R2 & R3).
      specialize (IH m1 ltac:(lia) ltac:(lia)). cbv zeta in IH.
      rewrite B1, R1, R2, R3 in IH.
      destruct IH as (I1 & I2 & I3 & I4).
      assert (Hlast : (if blocks_checksumed m + 1 <? blocks_done m
                       then Z.min (blocks_done m) (blocks_checksumed m + 1 + Z.of_nat k)
                       else blocks_checksumed m + 1) =
                      Z.min (blocks_done m) (blocks_checksumed m + Z.of_nat (S k))).
      { destruct (Z.ltb_spec (blocks_checksumed m + 1) (blocks_done m)); lia. }
      rewrite Hlast in I1, I2, I3.
      split; [exact I1|]. split; [|split].
      * intros i Hi.
        destruct (Z.eq_dec i (blocks_checksumed m)) as [->|Hne].
        -- rewrite I3 by lia. rewrite B2. unfold store_checksum.
           rewrite Z.eqb_refl. reflexivity.
        -- apply I2. lia.
      * intros i Hi. rewrite I3 by lia. rewrite B2. unfold store_checksum.
        destruct (Z.eqb_spec i (blocks_checksumed m)); [lia | reflexivity].
      * rewrite I4 at 1. rewrite B3. destruct m; reflexivity.
    + split; [reflexivity|]. split; [intros i Hi; lia|]. split; [reflexivity|].
      destruct m; reflexivity.
Qed.

End Compute_checksums.

(** [sdio_compute_tx_checksums(maxcount)] fills the checksum table for the
    blocks from [blocks_checksumed] up to, and not including, the smaller of
    [blocks_done] and [blocks_checksumed + maxcount], each entry with the
    CRC of its block, and moves [blocks_checksumed] there; it changes
    nothing else.  So it never writes the entry of a block that is not yet
    done, the entry of the block being sent included. *)
Theorem compute_tx_checksums_only_covers_done_blocks (maxcount : nat) (m : Xfer.machine)
    (Hbc : 0 <= Xfer.blocks_checksumed m) (Hbd : Xfer.blocks_done m < 2 ^ 31) :
  let m' := Xfer.sdio_compute_tx_checksums maxcount m in
  let last := if Xfer.blocks_checksumed m <? Xfer.blocks_done m
              then Z.min (Xfer.blocks_done m) (Xfer.blocks_checksumed m + Z.of_nat maxcount)
              else Xfer.blocks_checksumed m in
  Xfer.blocks_checksumed m' = last /\
  (forall i, Xfer.blocks_checksumed m <= i < last ->
     Xfer.block_checksums m' i =
     CRC.sdio_crc16_4bit_checksum (Xfer.ram m) (Xfer.data_buf m + i * 128) 128) /\
  (forall i, ~ (Xfer.blocks_checksumed m <= i < last) ->
     Xfer.block_checksums m' i = Xfer.block_checksums m i) /\
  (forall i, Xfer.blocks_done m <= i ->
     Xfer.block_checksums m' i = Xfer.block_checksums m i) /\
  m' = Xfer.set_block_checksums (Xfer.block_checksums m')
         (Xfer.set_blocks_checksumed (Xfer.blocks_checksumed m') m).
Proof.
  intros m' last.
  destruct (compute_checksums_spec maxcount m Hbc Hbd) as (H1 & H2 & H3 & H4).
  fold m' in H1, H2, H3, H4. fold last in H1, H2, H3.
  split; [exact H1|]. split; [exact H2|]. split; [exact H3|]. split; [|exact H4].
  intros i Hi. apply H3. subst last.
  destruct (Z.ltb_spec (Xfer.blocks_checksumed m) (Xfer.blocks_done m)); lia.
Qed.

Lemma compute_tx_checksums_only_covers_done_blocks_witness :
  0 <= Xfer.blocks_checksumed (Xfer.set_blocks_done 2 Session.blank_machine) /\
  Xfer.blocks_done (Xfer.set_blocks_done 2 Session.blank_machine) < 2 ^ 31 /\
  forall i, 2 <= i ->
    Xfer.block_checksums
      (Xfer.sdio_compute_tx_checksums 5 (Xfer.set_blocks_done 2 Session.blank_machine)) i =
    Xfer.block_checksums (Xfer.set_blocks_done 2 Session.blank_machine) i.
Proof.
  assert (H1 : 0 <= Xfer.blocks_checksumed (Xfer.set_blocks_done 2 Session.blank_machine))
    by (cbn; lia).
  assert (H2 : Xfer.blocks_done (Xfer.set_blocks_done 2 Session.blank_machine) < 2 ^ 31)
    by (cbn; lia).
  split; [exact H1|]. split; [exact H2|].
  pose proof (compute_tx_checksums_only_covers_done_blocks 5
                (Xfer.set_blocks_done 2 Session.blank_machine) H1 H2) as P.
  cbv zeta in P. destruct P as (_ & _ & _ & P & _).
  exact P.
Defined.

(** ** Receive sessions in which every block arrives *)

Section Delivery_facts.
Import CRC Xfer Session Delivery.

Lemma load_store_same (mem : memory) (a : Z) (d : list Z) (n : nat) :
  length d = n ->
  load_words (store_block mem a (Z.of_nat n) d) a n = d.
Proof.
  intros Hlen. unfold load_words.
  apply (nth_ext _ _ 0 0).
  - rewrite length_map, length_seq. symmetry. exact Hlen.
  - intros k Hk. rewrite length_map, length_seq in Hk.
    rewrite (nth_indep _ 0 ((fun k => store_block mem a (Z.of_nat n) d (a + Z.of_nat k)) 0%nat))
      by (rewrite length_map, length_seq; exact Hk).
    rewrite (map_nth (fun k => store_block mem a (Z.of_nat n) d (a + Z.of_nat k))).
    rewrite seq_nth by exact Hk. cbn [Nat.add].
    unfold store_block.
    destruct (Z.leb_spec a (a + Z.of_nat k)); [|lia].
    destruct (Z.ltb_spec (a + Z.of_nat k) (a + Z.of_nat n)); [|lia].
    cbn [andb]. f_equal. lia.
Qed.

Lemma only_verification_fields (m m' : machine) :
  only_verification_changed m m' ->
  ram m' = ram m /\ block_checksums m' = block_checksums m /\
  data_buf m' = data_buf m /\ blocks_done m' = blocks_done m /\
  transfer_state m' = transfer_state m /\
  transfer_start_time m' = transfer_start_time m.
Proof. intros H. rewrite H. destruct m; cbn. repeat split. Qed.

Lemma delivered_same (ts : list tick) (buffer : Z) (m m' : machine) (j : nat) :
  ram m' = ram m -> block_checksums m' = block_checksums m ->
  delivered ts buffer m j -> delivered ts buffer m' j.
Proof. intros Hr Ht D i Hi. rewrite Hr, Ht. apply D, Hi. Qed.

Lemma delivered_block_ok (ts : list tick) (buffer : Z) (m : machine) (j i : nat) :
  data_buf m = buffer -> delivered ts buffer m j -> (i < j)%nat ->
  block_ok m (Z.of_nat i) = block_good (nth i ts (quiet_tick 0)).
Proof.
  intros Hbuf D Hi. destruct (D i Hi) as [Hram Htab].
  unfold block_ok, block_good, crc_computed.
  assert (Hdef : forall mem p, sdio_crc16_4bit_checksum mem p 128 =
                               crc16_4bit_words (load_words mem p (Z.to_nat 128)))
    by reflexivity.
  rewrite Hdef, Hbuf, Htab.
  replace (buffer + Z.of_nat i * 128) with (buffer + 128 * Z.of_nat i) by lia.
  change (Z.to_nat 128) with 128%nat. rewrite Hram. reflexivity.
Qed.

(** One tick that carries a block, in a session that still waits for
    blocks. *)
Lemma rx_block_step (n : Z) (base : nat) (ts : list tick) (buffer now : Z)
    (t : tick) (m : machine) (j : nat) :
  rx_inv n base m -> transfer_state m = SDIO_RX ->
  transfer_start_time m = now -> data_buf m = buffer ->
  blocks_done m = Z.of_nat j -> delivered ts buffer m j ->
  nth j ts (quiet_tick 0) = t -> carries_block now t = true ->
  let r := rx_tick t m in
  let h := rx_handled t m in
  rx_inv n base (pr_machine r) /\
  transfer_start_time (pr_machine r) = now /\ data_buf (pr_machine r) = buffer /\
  blocks_done (pr_machine r) = Z.of_nat (S j) /\
  delivered ts buffer (pr_machine r) (S j) /\
  pr_bytes r = Some (Z.of_nat (S j) * 512) /\
  (Z.of_nat (S j) < n ->
   pr_status r = SDIO_BUSY /\ transfer_state (pr_machine r) = SDIO_RX) /\
  (Z.of_nat (S j) = n ->
   delivered ts buffer h (S j) /\ data_buf h = buffer /\
   (pr_status r = SDIO_OK /\ mismatches h (S j) = 0 \/
    pr_status r = SDIO_ERR_DATA_CRC /\ mismatches h (S j) <> 0)).
Proof.
  intros Hinv Hstate Htime Hbuf Hdone Hdel Hnth Hcarry r h.
  unfold carries_block in Hcarry.
  destruct (t_block t) as [data|] eqn:Hblock; [|discriminate].
  apply andb_prop in Hcarry. destruct Hcarry as [Hlen Hintime].
  apply Nat.eqb_eq in Hlen. apply Z.leb_le in Hintime.
  destruct (ri_rx n base m Hinv Hstate) as [Hlt Hdma].
  pose proof (ri_max n base m Hinv) as Hmax. unfold SDIO_MAX_BLOCKS in Hmax.
  pose proof (ri_total n base m Hinv) as Htotal.
  assert (Hfires : dma_fires t m = true)
    by (unfold dma_fires; rewrite Hblock, Hdma; reflexivity).
  assert (Hh : h = rp2040_sdio_rx_irq (t_handler t) (dma_complete data m)).
  { subst h. unfold rx_handled, dma_progress. rewrite Hfires, Hblock. reflexivity. }
  destruct (rx_irq_fields (t_handler t) data m _ Hdma ltac:(lia))
    as (F1 & F2 & _ & _ & F5 & F6 & _ & F8 & F9 & F10 & _).
  rewrite <- Hh in F1, F2, F5, F6, F8, F9, F10.
  assert (Hdelh : delivered ts buffer h (S j)).
  { intros i Hi. rewrite F8, F9, Hbuf, Hdone.
    destruct (Nat.eq_dec i j) as [->|Hne].
    - split.
      + change 128 with (Z.of_nat 128) at 2.
        rewrite load_store_same by (rewrite length_map; exact Hlen).
        rewrite Hnth. unfold tick_data. rewrite Hblock. reflexivity.
      + unfold store_checksum. rewrite Z.eqb_refl, Hnth. reflexivity.
    - destruct (Hdel i ltac:(lia)) as [D1 D2]. split.
      + rewrite load_store_other by lia. exact D1.
      + unfold store_checksum.
        destruct (Z.eqb_spec (Z.of_nat i) (Z.of_nat j)); [lia | exact D2]. }
  pose proof (rx_tick_spec n base t m Hinv) as S. cbv zeta in S.
  fold h in S. fold r in S.
  destruct S as (Hinv' & Hbd & Hbytes & Hcase).
  assert (Hel : (elapsed t m >? 1000) = false).
  { unfold elapsed. rewrite Htime. lia. }
  rewrite Hel in Hcase.
  assert (Hov : only_verification_changed h (pr_machine r)).
  { destruct (transfer_state h); apply Hcase. }
  destruct (only_verification_fields _ _ Hov) as (V1 & V2 & V3 & V4 & V5 & V6).
  split; [exact Hinv'|].
  split; [rewrite V6, F6; exact Htime|].
  split; [rewrite V3, F5; exact Hbuf|].
  split; [rewrite V4, F1, Hdone; lia|].
  split; [apply (delivered_same ts buffer h); assumption|].
  split; [rewrite Hbytes, F1, Hdone; do 2 f_equal; lia|].
  split.
  - intros Hmore.
    assert (Hs : transfer_state h = SDIO_RX).
    { rewrite F10, Htotal, Hdone.
      destruct (Z.ltb_spec (Z.of_nat j + 1) n); [exact Hstate | lia]. }
    rewrite Hs in Hcase. rewrite V5, Hs. split; [apply Hcase | reflexivity].
  - intros Hlast.
    assert (Hs : transfer_state h = SDIO_IDLE).
    { rewrite F10, Htotal, Hdone.
      destruct (Z.ltb_spec (Z.of_nat j + 1) n); [lia | reflexivity]. }
    rewrite Hs in Hcase. destruct Hcase as (_ & _ & Hst).
    split; [exact Hdelh|]. split; [rewrite F5; exact Hbuf|].
    rewrite F1, Hdone in Hst.
    replace (Z.to_nat (Z.of_nat j + 1)) with (S j) in Hst by lia.
    exact Hst.
Qed.

Lemma forallb_nth {A : Type} (f : A -> bool) (l : list A) (d : A) :
  forallb f l = true <-> forall i, (i < length l)%nat -> f (nth i l d) = true.
Proof.
  rewrite forallb_forall. split.
  - intros H i Hi. apply H, nth_In, Hi.
  - intros H x Hx. destruct (In_nth l x d Hx) as (i & Hi & <-). apply H, Hi.
Qed.

Lemma final_status_of_mismatches (ts : list tick) (buffer : Z) (h : machine) :
  data_buf h = buffer -> delivered ts buffer h (length ts) ->
  (mismatches h (length ts) = 0 <-> forallb block_good ts = true).
Proof.
  intros Hbuf Hdel.
  rewrite mismatches_zero_iff, (forallb_nth block_good ts (quiet_tick 0)).
  split.
  - intros H i Hi.
    rewrite <- (delivered_block_ok ts buffer h (length ts) i Hbuf Hdel Hi).
    apply H. lia.
  - intros H i Hi.
    replace i with (Z.of_nat (Z.to_nat i)) by lia.
    rewrite (delivered_block_ok ts buffer h (length ts) _ Hbuf Hdel) by lia.
    apply H. lia.
Qed.

Lemma rx_deliver_run (n : Z) (base : nat) (ts : list tick) (buffer now : Z) :
  Z.of_nat (length ts) = n ->
  forall rest pre m,
  ts = pre ++ rest ->
  forallb (carries_block now) rest = true ->
  rx_inv n base m -> transfer_state m = SDIO_RX ->
  transfer_start_time m = now -> data_buf m = buffer ->
  blocks_done m = Z.of_nat (length pre) -> delivered ts buffer m (length pre) ->
  rest <> [] ->
  fst (rx_run rest m) =
    expected_from (if forallb block_good ts then SDIO_OK else SDIO_ERR_DATA_CRC)
      (length pre) rest /\
  delivered ts buffer (snd (rx_run rest m)) (length ts).
Proof.
  intros Hn. induction rest as [|t rest IH];
    intros pre m Hts Hall Hinv Hstate Htime Hbuf Hdone Hdel Hne; [congruence|].
  cbn [forallb] in Hall. apply andb_prop in Hall. destruct Hall as [Hcarry Hall].
  assert (Hnth : nth (length pre) ts (quiet_tick 0) = t) by (rewrite Hts; apply nth_middle).
  assert (Hlen : length ts = (length pre + S (length rest))%nat)
    by (rewrite Hts, length_app; reflexivity).
  pose proof (rx_block_step n base ts buffer now t m (length pre)
                Hinv Hstate Htime Hbuf Hdone Hdel Hnth Hcarry) as Hstep.
  cbv zeta in Hstep.
  destruct Hstep as (S1 & S2 & S3 & S4 & S5 & S6 & Smore & Slast).
  unfold rx_run in *. rewrite run_cons. cbn [fst snd].
  destruct rest as [|t2 rest]; cbn [length] in Hlen.
  - (* the last block *)
    assert (Hj : Z.of_nat (S (length pre)) = n) by lia.
    destruct (Slast Hj) as (Hdelh & Hbufh & Hst).
    assert (Hall_len : S (length pre) = length ts) by lia.
    rewrite Hall_len in Hdelh, Hst, S5.
    pose proof (final_status_of_mismatches ts buffer _ Hbufh Hdelh) as Hfin.
    cbn [run expected_from fst snd]. rewrite S6. split; [|exact S5].
    f_equal. f_equal.
    destruct (forallb block_good ts).
    + destruct Hst as [[E _]|[_ E]]; [exact E|]. exfalso. apply E, Hfin. reflexivity.
    + destruct Hst as [[_ E]|[E _]]; [|exact E]. apply Hfin in E. discriminate.
  - (* more blocks follow *)
    assert (Hj : Z.of_nat (S (length pre)) < n) by lia.
    destruct (Smore Hj) as [Hbusy Hrx].
    assert (Hpre : length (pre ++ [t]) = S (length pre))
      by (rewrite length_app; cbn; lia).
    destruct (IH (pre ++ [t]) (pr_machine (rx_tick t m))) as [I1 I2].
    + rewrite <- app_assoc. exact Hts.
    + exact Hall.
    + exact S1.
    + exact Hrx.
    + exact S2.
    + exact S3.
    + rewrite Hpre. exact S4.
    + rewrite Hpre. exact S5.
    + discriminate.
    + rewrite Hpre in I1. cbn [expected_from]. rewrite Hbusy, S6.
      split; [|exact I2]. f_equal. exact I1.
Qed.

Lemma rx_start_deliver_run (buffer n now : Z) (va : bool) (m0 : machine) (ts : list tick) :
  1 <= n <= SDIO_MAX_BLOCKS -> Z.of_nat (length ts) = n ->
  forallb (carries_block now) ts = true ->
  fst (rx_run ts (snd (rp2040_sdio_rx_start buffer n now va m0))) = expected_polls ts /\
  delivered ts buffer (snd (rx_run ts (snd (rp2040_sdio_rx_start buffer n now va m0))))
    (length ts).
Proof.
  intros Hn Hlen Hall.
  pose proof (rx_start_inv buffer n now va m0 Hn) as Hinv.
  apply (rx_deliver_run n (checksum_logs m0) ts buffer now Hlen ts []).
  - reflexivity.
  - exact Hall.
  - exact Hinv.
  - destruct m0; reflexivity.
  - destruct m0; reflexivity.
  - destruct m0; reflexivity.
  - destruct m0; reflexivity.
  - intros i Hi. cbn in Hi. lia.
  - intros E. subst ts. cbn in Hlen. lia.
Qed.

End Delivery_facts.

(** A receive session in which every poll finds that the DMA engine has
    finished one more block of 128 words, within the time budget: the polls
    return [SDIO_BUSY] with the bytes received so far until the last block
    is in, and then [SDIO_OK] if the checksum words read after each block
    are the CRC of that block as it lies in RAM (byte-swapped), and
    [SDIO_ERR_DATA_CRC] otherwise; the blocks lie in the buffer one after
    the other. *)
Theorem rx_session_delivers_blocks
    (buffer n now : Z) (va : bool) (m0 : Xfer.machine) (ts : list Session.tick)
    (Hn : 1 <= n <= Xfer.SDIO_MAX_BLOCKS)
    (Hlen : Z.of_nat (length ts) = n)
    (Hall : forallb (Delivery.carries_block now) ts = true) :
  let r := Session.rx_run ts (snd (Xfer.rp2040_sdio_rx_start buffer n now va m0)) in
  fst r = Delivery.expected_polls ts /\
  forall i, (i < length ts)%nat ->
    load_words (Xfer.ram (snd r)) (buffer + 128 * Z.of_nat i) 128 =
    map CRC.bswap32 (Delivery.tick_data (nth i ts (Session.quiet_tick 0))).
Proof.
  intros r.
  destruct (rx_start_deliver_run buffer n now va m0 ts Hn Hlen Hall) as [R1 R2].
  split; [exact R1|].
  intros i Hi. apply (R2 i Hi).
Qed.

Lemma rx_session_delivers_blocks_witness :
  1 <= 1 <= Xfer.SDIO_MAX_BLOCKS /\
  Z.of_nat (length [Session.block_tick (repeat 0 128) 0 0 5]) = 1 /\
  forallb (Delivery.carries_block 0) [Session.block_tick (repeat 0 128) 0 0 5] = true /\
  fst (Session.rx_run [Session.block_tick (repeat 0 128) 0 0 5] (Session.rx_armed 1 false)) =
  Delivery.expected_polls [Session.block_tick (repeat 0 128) 0 0 5].
Proof.
  unfold Session.rx_armed.
  assert (H1 : 1 <= 1 <= Xfer.SDIO_MAX_BLOCKS) by (unfold Xfer.SDIO_MAX_BLOCKS; lia).
  assert (H2 : Z.of_nat (length [Session.block_tick (repeat 0 128) 0 0 5]) = 1)
    by reflexivity.
  assert (H3 : forallb (Delivery.carries_block 0) [Session.block_tick (repeat 0 128) 0 0 5] = true)
    by (vm_compute; reflexivity).
  split; [exact H1|]. split; [exact H2|]. split; [exact H3|].
  pose proof (rx_session_delivers_blocks 0 1 0 false Session.blank_machine
                [Session.block_tick (repeat 0 128) 0 0 5] H1 H2 H3) as P.
  cbv zeta in P. exact (proj1 P).
Defined.

(** ** Sector transfers *)

Section Sector_facts.
Import Cmd Xfer Session Card Sd.

Lemma checked_R1_eq (e : card_env) (command arg : Z) (s : card) :
  checked_R1 e command arg s =
  let r := rp2040_sdio_command_R1 command arg true (ce_reply e (commands_sent (drv s))) in
  (status_eqb (fst r) SDIO_OK, snd r, after_command (fst r) s).
Proof. destruct s as [d m cb buf cnt st br calls]. destruct d. reflexivity. Qed.

Lemma checked_R1_status (e : card_env) (command arg : Z) (s : card) :
  checked_R1 e command arg s =
  (status_eqb (reply_status e command (commands_sent (drv s))) SDIO_OK,
   snd (rp2040_sdio_command_R1 command arg true (ce_reply e (commands_sent (drv s)))),
   after_command (reply_status e command (commands_sent (drv s))) s).
Proof.
  rewrite checked_R1_eq. cbv zeta. unfold reply_status.
  rewrite (command_R1_status_arg command arg 0). reflexivity.
Qed.

Lemma rx_start_pair (b n now : Z) (va : bool) (m : machine) :
  rp2040_sdio_rx_start b n now va m = (SDIO_OK, snd (rp2040_sdio_rx_start b n now va m)).
Proof. unfold rp2040_sdio_rx_start. cbv zeta. cbn [snd]. reflexivity. Qed.

Lemma tx_start_pair (b n now : Z) (va : bool) (m : machine) :
  rp2040_sdio_tx_start b n now va m = (SDIO_OK, snd (rp2040_sdio_tx_start b n now va m)).
Proof. unfold rp2040_sdio_tx_start. cbv zeta. cbn [snd]. reflexivity. Qed.

Lemma checked_start_eq (start : Z -> machine -> sdio_status_t * machine)
    (e : card_env) (s : card) :
  checked_start start e s =
  let r := start (ce_millis e (clock_reads (drv s))) (sdio s) in
  (status_eqb (fst r) SDIO_OK, after_start (fst r) (snd r) s).
Proof.
  destruct s as [d m cb buf cnt st br calls]. destruct d as [cs cr ocr rca cid err].
  unfold checked_start, lift, millis. cbn [drv sdio clock_reads set_drv].
  cbv zeta. destruct (start (ce_millis e cr) m) as [st' m']. reflexivity.
Qed.

Lemma checked_rx_start_eq (e : card_env) (va : bool) (dst n : Z) (s : card) :
  checked_rx_start e va dst n s =
  (true, after_start SDIO_OK
           (snd (rp2040_sdio_rx_start (dst / 4) n (ce_millis e (clock_reads (drv s))) va
                   (sdio s))) s).
Proof.
  unfold checked_rx_start. rewrite checked_start_eq. cbv zeta.
  rewrite rx_start_pair. reflexivity.
Qed.

Lemma checked_tx_start_eq (e : card_env) (va : bool) (src n : Z) (s : card) :
  checked_tx_start e va src n s =
  (true, after_start SDIO_OK
           (snd (rp2040_sdio_tx_start (src / 4) n (ce_millis e (clock_reads (drv s))) va
                   (sdio s))) s).
Proof.
  unfold checked_tx_start. rewrite checked_start_eq. cbv zeta.
  rewrite tx_start_pair. reflexivity.
Qed.

Lemma polls_only_refl (s : card) : polls_only s s.
Proof. unfold polls_only. repeat split. Qed.

Lemma polls_only_trans (s1 s2 s3 : card) :
  polls_only s1 s2 -> polls_only s2 s3 -> polls_only s1 s3.
Proof.
  unfold polls_only.
  intros (A1 & A2 & A3 & A4 & A5 & A6 & A7 & A8 & A9 & A10)
         (B1 & B2 & B3 & B4 & B5 & B6 & B7 & B8 & B9 & B10).
  repeat split; congruence.
Qed.

Lemma polled_fields (cb : option nat) (r : poll_result) (s : card) :
  sdio (polled cb r s) = pr_machine r /\
  g_sdio_error (drv (polled cb r s)) = pr_status r /\
  polls_only s (polled cb r s) /\
  callback_calls (polled cb r s) =
    callback_calls s ++
    match cb with
    | Some f => [(f, wrap32 (m_stream_count_start s +
                            match pr_bytes r with Some v => v | None => 0 end))]
    | None => []
    end.
Proof.
  destruct s as [d m c buf cnt st br calls]. destruct d as [cs cr ocr rca cid err].
  unfold polled, polls_only, lift, set_error.
  destruct cb; cbn; rewrite ?app_nil_r; repeat split.
Qed.

Lemma poll_loop_cons (step : tick -> machine -> poll_result) (cb : option nat)
    (t : tick) (ts : list tick) (s : card) :
  poll_loop step cb (t :: ts) s =
  if status_eqb (pr_status (step t (sdio s))) SDIO_BUSY
  then poll_loop step cb ts (polled cb (step t (sdio s)) s)
  else Some (polled cb (step t (sdio s)) s).
Proof. reflexivity. Qed.

Lemma poll_loop_keeps (step : tick -> machine -> poll_result) (cb : option nat)
    (ts : list tick) :
  forall s s', poll_loop step cb ts s = Some s' ->
  polls_only s s' /\ g_sdio_error (drv s') <> SDIO_BUSY.
Proof.
  induction ts as [|t ts IH]; intros s s' H; [discriminate|].
  rewrite poll_loop_cons in H.
  destruct (polled_fields cb (step t (sdio s)) s) as (_ & Herr & Hsame & _).
  destruct (status_eqb_spec (pr_status (step t (sdio s))) SDIO_BUSY) as [Hb|Hb].
  - destruct (IH _ _ H) as [I1 I2]. split; [|exact I2].
    apply (polls_only_trans _ _ _ Hsame I1).
  - injection H as <-. split; [exact Hsame|]. rewrite Herr. exact Hb.
Qed.

(** A receive session is over, at the latest, at the first poll made after
    more than 1000 ms. *)
Lemma rx_poll_loop_ends (n : Z) (base : nat) (cb : option nat) (ts : list tick) :
  forall s, rx_inv n base (sdio s) ->
  existsb (late (transfer_start_time (sdio s))) ts = true ->
  exists s', poll_loop rx_tick cb ts s = Some s' /\ rx_inv n base (sdio s').
Proof.
  induction ts as [|t ts IH]; intros s Hinv Hlate; [discriminate|].
  rewrite poll_loop_cons.
  destruct (polled_fields cb (rx_tick t (sdio s)) s) as (Hsdio & _ & _ & _).
  pose proof (rx_tick_inv n base t (sdio s) Hinv) as Hinv'.
  destruct (status_eqb_spec (pr_status (rx_tick t (sdio s))) SDIO_BUSY) as [Hb|Hb].
  - cbn [existsb] in Hlate. apply orb_prop in Hlate. destruct Hlate as [Hl|Hl].
    + exfalso.
      pose proof (rx_tick_spec n base t (sdio s) Hinv) as S. cbv zeta in S.
      destruct S as (_ & _ & _ & Hcase).
      unfold late in Hl. unfold elapsed in Hcase. rewrite Hl in Hcase.
      destruct (transfer_state (rx_handled t (sdio s))).
      * destruct Hcase as (_ & _ & [[E _]|[E _]]); congruence.
      * destruct Hcase as [E _]. congruence.
      * destruct Hcase as [E _]. congruence.
    + apply IH.
      * rewrite Hsdio. exact Hinv'.
      * rewrite Hsdio, (rx_tick_keeps_time n base t (sdio s) Hinv). exact Hl.
  - eexists. split; [reflexivity|]. rewrite Hsdio. exact Hinv'.
Qed.

Lemma tx_handled_keeps_time (t : tick) (m : machine) :
  transfer_start_time (tx_handled t m) = transfer_start_time m.
Proof.
  unfold tx_handled. destruct (dma_fires t m); [|reflexivity].
  rewrite tx_irq_keeps_time. unfold dma_progress.
  destruct (t_block t); [|reflexivity].
  unfold dma_complete. destruct (dma m); destruct m; reflexivity.
Qed.

Lemma tx_tick_keeps_time (n : Z) (t : tick) (m : machine) :
  tx_inv n m ->
  transfer_start_time (pr_machine (tx_tick t m)) = transfer_start_time m.
Proof.
  intros Hinv. rewrite (tx_tick_normal n t m Hinv).
  rewrite <- (tx_handled_keeps_time t m).
  generalize (tx_handled t m) as h. intros h.
  unfold tx_poll_finish. cbv zeta.
  destruct (state_eqb (transfer_state h) SDIO_IDLE).
  - destruct h; reflexivity.
  - destruct (_ >? 1000); destruct h; reflexivity.
Qed.

Lemma tx_poll_loop_ends (n : Z) (cb : option nat) (ts : list tick) :
  forall s, tx_inv n (sdio s) ->
  existsb (late (transfer_start_time (sdio s))) ts = true ->
  exists s', poll_loop tx_tick cb ts s = Some s' /\ tx_inv n (sdio s').
Proof.
  induction ts as [|t ts IH]; intros s Hinv Hlate; [discriminate|].
  rewrite poll_loop_cons.
  destruct (polled_fields cb (tx_tick t (sdio s)) s) as (Hsdio & _ & _ & _).
  destruct (tx_tick_inv n t (sdio s) Hinv) as (Hinv' & _).
  destruct (status_eqb_spec (pr_status (tx_tick t (sdio s))) SDIO_BUSY) as [Hb|Hb].
  - cbn [existsb] in Hlate. apply orb_prop in Hlate. destruct Hlate as [Hl|Hl].
    + exfalso. rewrite (tx_tick_normal n t (sdio s) Hinv) in Hb.
      destruct (tx_finish_cases (tick_env (dma_fires t (sdio s)) t) (tx_handled t (sdio s)))
        as (_ & _ & Hcase).
      rewrite tx_handled_keeps_time in Hcase.
      unfold late in Hl. cbn [tick_env pe_millis] in Hcase. rewrite Hl in Hcase.
      destruct (transfer_state (tx_handled t (sdio s))).
      * congruence.
      * destruct Hcase as [E _]. congruence.
      * destruct Hcase as [E _]. congruence.
    + apply IH.
      * rewrite Hsdio. exact Hinv'.
      * rewrite Hsdio, (tx_tick_keeps_time n t (sdio s) Hinv). exact Hl.
  - eexists. split; [reflexivity|]. rewrite Hsdio. exact Hinv'.
Qed.

Lemma get_stream_callback_fields (buf count : Z) (s : card) :
  let r := get_stream_callback buf count s in
  drv (snd r) = drv s /\ sdio (snd r) = sdio s /\
  busy_reads (snd r) = busy_reads s /\ callback_calls (snd r) = callback_calls s /\
  m_stream_callback (snd r) = m_stream_callback s /\
  m_stream_buffer (snd r) = m_stream_buffer s /\
  m_stream_count_start (snd r) = m_stream_count s /\
  (fst r = None \/ fst r = m_stream_callback s) /\
  (fst r, m_stream_count (snd r)) =
    match m_stream_callback s with
    | Some f =>
        if buf =? wrap32 (m_stream_buffer s + m_stream_count s)
        then (Some f, wrap32 (m_stream_count s + count))
        else (None, m_stream_count s)
    | None => (None, m_stream_count s)
    end.
Proof.
  destruct s as [d m c b cnt st br calls]. unfold get_stream_callback.
  cbn [set_stream_count_start m_stream_callback m_stream_buffer m_stream_count].
  destruct c as [f|]; [destruct (buf =? wrap32 (b + cnt))|]; cbn; repeat split; auto.
Qed.

Lemma rx_start_time (b n now : Z) (va : bool) (m : machine) :
  transfer_start_time (snd (rp2040_sdio_rx_start b n now va m)) = now.
Proof. destruct m; reflexivity. Qed.

Lemma tx_start_time (b n now : Z) (va : bool) (m : machine) :
  transfer_start_time (snd (rp2040_sdio_tx_start b n now va m)) = now.
Proof. apply (tx_start_fields b n now va m). Qed.

End Sector_facts.

Ltac sd_simpl :=
  cbn [Sd.after_command Sd.after_start Sd.set_drv Sd.set_sdio Sd.drv Sd.sdio
       Card.commands_sent Card.clock_reads Card.g_sdio_ocr Card.g_sdio_rca
       Card.g_sdio_cid Card.g_sdio_error Sd.m_stream_callback Sd.m_stream_buffer
       Sd.m_stream_count Sd.m_stream_count_start Sd.busy_reads Sd.callback_calls
       Sd.result Sd.errorCode fst snd negb status_eqb] in *.

(** A multi-sector transfer whose setup commands succeed returns the
    outcome of the CMD12 that it sends after the poll loop, and leaves that
    outcome in [g_sdio_error]: the status with which the polls ended (a
    data timeout or a checksum error, say) is overwritten.  The loop ends
    if some poll is made more than 1000 ms after the start. *)
Theorem multi_sector_transfers_return_stop_status
    (e : Card.card_env) (va : bool) (ts : list Session.tick) (sector buf n : Z)
    (s : Sd.card)
    (Hn : 1 <= n <= Xfer.SDIO_MAX_BLOCKS)
    (Hlate : existsb (Sd.late (Card.ce_millis e (Card.clock_reads (Sd.drv s)))) ts = true) :
  let c := Card.commands_sent (Sd.drv s) in
  (Sd.reply_status e 16 c = SDIO_OK ->
   Sd.reply_status e Sd.CMD18 (1 + c) = SDIO_OK ->
   exists s',
     Sd.readSectors e va ts sector buf n s =
       Some (status_eqb (Sd.reply_status e Sd.CMD12 (2 + c)) SDIO_OK, s') /\
     Sd.errorCode s' = Sd.reply_status e Sd.CMD12 (2 + c)) /\
  (Sd.reply_status e 16 c = SDIO_OK ->
   Sd.reply_status e Card.CMD55 (1 + c) = SDIO_OK ->
   Sd.reply_status e Sd.ACMD23 (2 + c) = SDIO_OK ->
   Sd.reply_status e Sd.CMD25 (3 + c) = SDIO_OK ->
   exists s',
     Sd.writeSectors e va ts sector buf n s =
       Some (status_eqb (Sd.reply_status e Sd.CMD12 (4 + c)) SDIO_OK, s') /\
     Sd.errorCode s' = Sd.reply_status e Sd.CMD12 (4 + c)).
Proof.
  intros c. split.
  - intros H16 H18. unfold Sd.readSectors.
    destruct (get_stream_callback_fields buf (wrap32 (n * 512)) s)
      as (Gd & Gm & _).
    destruct (Sd.get_stream_callback buf (wrap32 (n * 512)) s) as [cb s0].
    cbn [fst snd] in Gd, Gm.
    rewrite checked_R1_status, Gd. fold c. rewrite H16. cbn [status_eqb negb].
    rewrite checked_rx_start_eq. sd_simpl. rewrite Gd, Gm.
    rewrite checked_R1_status. sd_simpl. rewrite Gd. fold c.
    change (S c) with (1 + c)%nat. rewrite H18. cbn [status_eqb negb].
    match goal with
    | |- context [Sd.poll_loop Session.rx_tick cb ts ?s3] =>
        destruct (rx_poll_loop_ends n (Session.checksum_logs (Sd.sdio s)) cb ts s3)
          as (s4 & Hloop & _)
    end.
    + sd_simpl. apply rx_start_inv, Hn.
    + sd_simpl. rewrite rx_start_time. exact Hlate.
    + rewrite Hloop.
      destruct (poll_loop_keeps _ _ _ _ _ Hloop) as [(K1 & _) _].
      sd_simpl. rewrite Gd in K1. fold c in K1.
      rewrite checked_R1_status, K1.
      eexists. split; reflexivity.
  - intros H16 H55 H23 H25. unfold Sd.writeSectors.
    destruct (get_stream_callback_fields buf 512 s) as (Gd & Gm & _).
    destruct (Sd.get_stream_callback buf 512 s) as [cb s0].
    cbn [fst snd] in Gd, Gm.
    rewrite checked_R1_status, Gd. fold c. rewrite H16. cbn [status_eqb negb].
    rewrite checked_R1_status. sd_simpl. rewrite Gd. fold c.
    change (S c) with (1 + c)%nat. rewrite H55. cbn [status_eqb negb].
    rewrite checked_R1_status. sd_simpl. rewrite Gd. fold c.
    change (S (S c)) with (2 + c)%nat. rewrite H23. cbn [status_eqb negb].
    rewrite checked_R1_status. sd_simpl. rewrite Gd. fold c.
    change (S (S (S c))) with (3 + c)%nat. rewrite H25. cbn [status_eqb negb].
    rewrite checked_tx_start_eq. sd_simpl. rewrite Gd, Gm.
    match goal with
    | |- context [Sd.poll_loop Session.tx_tick cb ts ?s3] =>
        destruct (tx_poll_loop_ends n cb ts s3) as (s4 & Hloop & _)
    end.
    + sd_simpl. apply tx_start_inv, Hn.
    + sd_simpl. rewrite tx_start_time. exact Hlate.
    + rewrite Hloop.
      destruct (poll_loop_keeps _ _ _ _ _ Hloop) as [(K1 & _) _].
      sd_simpl. rewrite Gd in K1. fold c in K1.
      rewrite checked_R1_status, K1.
      eexists. split; reflexivity.
Qed.

Lemma multi_sector_transfers_return_stop_status_witness :
  1 <= 1 <= Xfer.SDIO_MAX_BLOCKS /\
  existsb (Sd.late (Card.ce_millis (Sd.answering [16; Sd.CMD18; Sd.CMD12])
                      (Card.clock_reads (Sd.drv Sd.fresh)))) Sd.bad_block_timeline = true /\
  exists s',
    Sd.readSectors (Sd.answering [16; Sd.CMD18; Sd.CMD12]) false Sd.bad_block_timeline
      0 0 1 Sd.fresh =
    Some (status_eqb
            (Sd.reply_status (Sd.answering [16; Sd.CMD18; Sd.CMD12]) Sd.CMD12
               (2 + Card.commands_sent (Sd.drv Sd.fresh))) SDIO_OK, s') /\
    Sd.errorCode s' =
    Sd.reply_status (Sd.answering [16; Sd.CMD18; Sd.CMD12]) Sd.CMD12
      (2 + Card.commands_sent (Sd.drv Sd.fresh)).
Proof.
  assert (H1 : 1 <= 1 <= Xfer.SDIO_MAX_BLOCKS) by (unfold Xfer.SDIO_MAX_BLOCKS; lia).
  assert (H2 : existsb (Sd.late (Card.ce_millis (Sd.answering [16; Sd.CMD18; Sd.CMD12])
                                   (Card.clock_reads (Sd.drv Sd.fresh))))
                 Sd.bad_block_timeline = true) by (vm_compute; reflexivity).
  split; [exact H1|]. split; [exact H2|].
  pose proof (multi_sector_transfers_return_stop_status
                (Sd.answering [16; Sd.CMD18; Sd.CMD12]) false Sd.bad_block_timeline
                0 0 1 Sd.fresh H1 H2) as P.
  cbv zeta in P. destruct P as [P _].
  apply P; vm_compute; reflexivity.
Defined.

(** The same bad block read with [readSectors] and with [readSector]: the
    first returns true with [SDIO_OK] as error code although one checksum
    error was counted, the second returns false with [SDIO_ERR_DATA_CRC]. *)
Example read_bad_block_samples :
  (let r := Sd.readSectors (Sd.answering [16; Sd.CMD18; Sd.CMD12]) false
              Sd.bad_block_timeline 0 0 1 Sd.fresh in
   option_map fst r = Some true /\
   option_map (fun x => Sd.errorCode (snd x)) r = Some SDIO_OK /\
   option_map (fun x => Xfer.checksum_errors (Sd.sdio (snd x))) r = Some 1) /\
  (let r := Sd.readSector (Sd.answering [16; Sd.CMD17]) false
              Sd.bad_block_timeline 0 0 Sd.fresh in
   option_map fst r = Some false /\
   option_map (fun x => Sd.errorCode (snd x)) r = Some SDIO_ERR_DATA_CRC).
Proof. vm_compute. repeat split. Qed.

Lemma rx_start_armed (b n now : Z) (va : bool) (m : Xfer.machine) :
  let m' := snd (Xfer.rp2040_sdio_rx_start b n now va m) in
  Xfer.transfer_state m' = Xfer.SDIO_RX /\
  Xfer.dma m' = Xfer.DMA_TO_BUFFER (b + 128 * 0) 128 /\
  Xfer.data_sm_enabled m' = true /\
  Xfer.total_blocks m' = n /\ Xfer.blocks_done m' = 0.
Proof. destruct m; cbn. repeat split. Qed.

(** The read functions arm the engine before they send the read command.
    When the card refuses that command, they return false and leave the
    session armed: the engine in the receiving state, the DMA channel
    waiting for the first block, the data state machine enabled.  The write
    functions send their commands first, so a refused command leaves the
    engine as it was. *)
Theorem refused_read_command_leaves_session_armed
    (e : Card.card_env) (va : bool) (ts : list Session.tick) (sector buf n : Z)
    (s : Sd.card)
    (H16 : Sd.reply_status e 16 (Card.commands_sent (Sd.drv s)) = SDIO_OK) :
  let c := Card.commands_sent (Sd.drv s) in
  let armed s' :=
    Xfer.transfer_state (Sd.sdio s') = Xfer.SDIO_RX /\
    Xfer.dma (Sd.sdio s') = Xfer.DMA_TO_BUFFER (buf / 4 + 128 * 0) 128 /\
    Xfer.data_sm_enabled (Sd.sdio s') = true in
  (Sd.reply_status e Sd.CMD17 (1 + c) <> SDIO_OK ->
   exists s', Sd.readSector e va ts sector buf s = Some (false, s') /\ armed s' /\
              Sd.errorCode s' = Sd.reply_status e Sd.CMD17 (1 + c)) /\
  (Sd.reply_status e Sd.CMD18 (1 + c) <> SDIO_OK ->
   exists s', Sd.readSectors e va ts sector buf n s = Some (false, s') /\ armed s' /\
              Sd.errorCode s' = Sd.reply_status e Sd.CMD18 (1 + c)) /\
  (Sd.reply_status e Sd.CMD24 (1 + c) <> SDIO_OK ->
   exists s', Sd.writeSector e va ts sector buf s = Some (false, s') /\
              Sd.sdio s' = Sd.sdio s /\
              Sd.errorCode s' = Sd.reply_status e Sd.CMD24 (1 + c)).
Proof.
  intros c armed.
  assert (Hno : forall st, st <> SDIO_OK -> status_eqb st SDIO_OK = false).
  { intros st Hst. destruct (status_eqb_spec st SDIO_OK); [contradiction | reflexivity]. }
  split; [|split].
  - intros H17. unfold Sd.readSector.
    destruct (get_stream_callback_fields buf 512 s) as (Gd & Gm & _).
    destruct (Sd.get_stream_callback buf 512 s) as [cb s0].
    cbn [fst snd] in Gd, Gm.
    rewrite checked_R1_status, Gd, H16. cbn [status_eqb negb].
    rewrite checked_rx_start_eq. sd_simpl. rewrite Gd, Gm.
    rewrite checked_R1_status. sd_simpl. rewrite Gd. fold c.
    change (S c) with (1 + c)%nat. rewrite (Hno _ H17). cbn [negb].
    eexists. split; [reflexivity|]. sd_simpl.
    split; [|reflexivity].
    destruct (rx_start_armed (buf / 4) 1
                (Card.ce_millis e (Card.clock_reads (Sd.drv s))) va (Sd.sdio s))
      as (A1 & A2 & A3 & _).
    subst armed. cbv beta. sd_simpl. auto.
  - intros H18. unfold Sd.readSectors.
    destruct (get_stream_callback_fields buf (wrap32 (n * 512)) s) as (Gd & Gm & _).
    destruct (Sd.get_stream_callback buf (wrap32 (n * 512)) s) as [cb s0].
    cbn [fst snd] in Gd, Gm.
    rewrite checked_R1_status, Gd, H16. cbn [status_eqb negb].
    rewrite checked_rx_start_eq. sd_simpl. rewrite Gd, Gm.
    rewrite checked_R1_status. sd_simpl. rewrite Gd. fold c.
    change (S c) with (1 + c)%nat. rewrite (Hno _ H18). cbn [negb].
    eexists. split; [reflexivity|]. sd_simpl.
    split; [|reflexivity].
    destruct (rx_start_armed (buf / 4) n
                (Card.ce_millis e (Card.clock_reads (Sd.drv s))) va (Sd.sdio s))
      as (A1 & A2 & A3 & _).
    subst armed. cbv beta. sd_simpl. auto.
  - intros H24. unfold Sd.writeSector.
    destruct (get_stream_callback_fields buf 512 s) as (Gd & Gm & _).
    destruct (Sd.get_stream_callback buf 512 s) as [cb s0].
    cbn [fst snd] in Gd, Gm.
    rewrite checked_R1_status, Gd, H16. cbn [status_eqb negb].
    rewrite checked_R1_status. sd_simpl. rewrite Gd. fold c.
    change (S c) with (1 + c)%nat. rewrite (Hno _ H24). cbn [negb].
    eexists. split; [reflexivity|]. sd_simpl. split; [exact Gm | reflexivity].
Qed.

Lemma refused_read_command_leaves_session_armed_witness :
  Sd.reply_status (Sd.answering [16]) 16 (Card.commands_sent (Sd.drv Sd.fresh)) = SDIO_OK /\
  exists s',
    Sd.readSector (Sd.answering [16]) false [] 0 0 Sd.fresh = Some (false, s') /\
    Xfer.transfer_state (Sd.sdio s') = Xfer.SDIO_RX.
Proof.
  assert (H : Sd.reply_status (Sd.answering [16]) 16
                (Card.commands_sent (Sd.drv Sd.fresh)) = SDIO_OK)
    by (vm_compute; reflexivity).
  split; [exact H|].
  pose proof (refused_read_command_leaves_session_armed (Sd.answering [16]) false [] 0 0 1
                Sd.fresh H) as P.
  cbv zeta beta in P. destruct P as [P _].
  destruct P as (s' & P1 & (P2 & _) & _).
  - vm_compute. discriminate.
  - exists s'. split; [exact P1 | exact P2].
Defined.

Section Read_end_to_end.
Import Cmd Xfer Session Card Sd Delivery.

(** The poll loop over a timeline whose polls go as [expected_from] says. *)
Lemma poll_loop_expected (step : tick -> machine -> poll_result) (cb : option nat)
    (final : sdio_status_t) (more : list tick) :
  final <> SDIO_BUSY ->
  forall ts j s,
  ts <> [] ->
  fst (run step ts (sdio s)) = expected_from final j ts ->
  exists s',
    poll_loop step cb (ts ++ more) s = Some s' /\
    sdio s' = snd (run step ts (sdio s)) /\
    g_sdio_error (drv s') = final /\
    polls_only s s' /\
    callback_calls s' =
      callback_calls s ++
      match cb with
      | Some f =>
          map (fun k => (f, wrap32 (m_stream_count_start s + Z.of_nat k * 512)))
              (seq (S j) (length ts))
      | None => []
      end.
Proof.
  intros Hfinal. induction ts as [|t ts IH]; intros j s Hne Hrun; [congruence|].
  rewrite run_cons in Hrun. cbn [fst expected_from] in Hrun.
  injection Hrun as Hst Hbytes Hrest.
  cbn [app]. rewrite poll_loop_cons. rewrite run_cons. cbn [snd].
  destruct (polled_fields cb (step t (sdio s)) s) as (P1 & P2 & P3 & P4).
  rewrite Hbytes in P4.
  destruct ts as [|t2 ts].
  - rewrite Hst. destruct (status_eqb_spec final SDIO_BUSY) as [E|_]; [contradiction|].
    eexists. split; [reflexivity|].
    split; [exact P1|]. split; [rewrite P2; exact Hst|]. split; [exact P3|].
    rewrite P4. destruct cb; reflexivity.
  - rewrite Hst. cbn [status_eqb].
    destruct (IH (S j) (polled cb (step t (sdio s)) s)) as (s' & I1 & I2 & I3 & I4 & I5).
    + discriminate.
    + rewrite P1. exact Hrest.
    + exists s'. split; [exact I1|].
      split; [rewrite I2, P1; reflexivity|]. split; [exact I3|].
      split; [apply (polls_only_trans _ _ _ P3 I4)|].
      rewrite I5, P4.
      destruct P3 as (_ & _ & _ & _ & _ & _ & _ & _ & Hstart & _). rewrite Hstart.
      destruct cb; [|rewrite app_nil_r; reflexivity].
      rewrite <- app_assoc. reflexivity.
Qed.

Lemma expected_final_not_busy (ts : list tick) :
  (if forallb block_good ts then SDIO_OK else SDIO_ERR_DATA_CRC) <> SDIO_BUSY.
Proof. destruct (forallb block_good ts); discriminate. Qed.

End Read_end_to_end.

(** The read functions, when the card accepts the commands and every poll
    finds one more block delivered in time: the poll loop ends with the last
    block, the blocks lie in the buffer one after the other, and the
    progress callback (if the buffer is the one announced for the stream)
    has been called once per block with the stream position advanced by 512
    each time.  [readSector] returns whether the checksum of its block
    matched and leaves [SDIO_OK] or [SDIO_ERR_DATA_CRC] as error code;
    [readSectors] returns the outcome of CMD12. *)
Theorem read_functions_deliver_blocks
    (e : Card.card_env) (va : bool) (ts more : list Session.tick) (sector dst n : Z)
    (s : Sd.card)
    (Hn : 1 <= n <= Xfer.SDIO_MAX_BLOCKS)
    (Hlen : Z.of_nat (length ts) = n)
    (Hall : forallb (Delivery.carries_block
                       (Card.ce_millis e (Card.clock_reads (Sd.drv s)))) ts = true)
    (Halign : dst mod 4 = 0)
    (H16 : Sd.reply_status e 16 (Card.commands_sent (Sd.drv s)) = SDIO_OK) :
  let c := Card.commands_sent (Sd.drv s) in
  let good := forallb Delivery.block_good ts in
  let in_buffer s' :=
    forall i, (i < length ts)%nat ->
      load_words (Xfer.ram (Sd.sdio s')) (dst / 4 + 128 * Z.of_nat i) 128 =
      map CRC.bswap32 (Delivery.tick_data (nth i ts (Session.quiet_tick 0))) in
  let progress count s' :=
    Sd.callback_calls s' =
    Sd.callback_calls s ++
    match fst (Sd.get_stream_callback dst count s) with
    | Some f =>
        map (fun k => (f, wrap32 (Sd.m_stream_count s + Z.of_nat k * 512)))
            (seq 1 (length ts))
    | None => []
    end in
  (Sd.reply_status e Sd.CMD18 (1 + c) = SDIO_OK ->
   exists s',
     Sd.readSectors e va (ts ++ more) sector dst n s =
       Some (status_eqb (Sd.reply_status e Sd.CMD12 (2 + c)) SDIO_OK, s') /\
     in_buffer s' /\ progress (wrap32 (n * 512)) s') /\
  (n = 1 -> Sd.reply_status e Sd.CMD17 (1 + c) = SDIO_OK ->
   exists s',
     Sd.readSector e va (ts ++ more) sector dst s = Some (good, s') /\
     Sd.errorCode s' = (if good then SDIO_OK else SDIO_ERR_DATA_CRC) /\
     in_buffer s' /\ progress 512 s').
Proof.
  intros c good in_buffer progress. subst in_buffer progress. cbv beta.
  destruct (rx_start_deliver_run (dst / 4) n
              (Card.ce_millis e (Card.clock_reads (Sd.drv s))) va (Sd.sdio s) ts
              Hn Hlen Hall) as [R1 R2].
  assert (Hne : ts <> []) by (intros E; subst ts; cbn in Hlen; lia).
  split.
  - intros H18. unfold Sd.readSectors.
    destruct (get_stream_callback_fields dst (wrap32 (n * 512)) s)
      as (Gd & Gm & _ & Gc & _ & _ & Gs & _).
    destruct (Sd.get_stream_callback dst (wrap32 (n * 512)) s) as [cb s0].
    cbn [fst snd] in Gd, Gm, Gc, Gs |- *.
    rewrite checked_R1_status, Gd, H16. cbn [status_eqb negb].
    rewrite checked_rx_start_eq. sd_simpl. rewrite Gd, Gm.
    rewrite checked_R1_status. sd_simpl. rewrite Gd. fold c.
    change (S c) with (1 + c)%nat. rewrite H18. cbn [status_eqb negb].
    match goal with
    | |- context [Sd.poll_loop Session.rx_tick cb (ts ++ more) ?s3] =>
        destruct (poll_loop_expected Session.rx_tick cb _ more
                    (expected_final_not_busy ts) ts 0 s3 Hne)
          as (s4 & L1 & L2 & L3 & L4 & L5)
    end.
    + sd_simpl. exact R1.
    + rewrite L1. sd_simpl.
      destruct L4 as (K1 & _). sd_simpl. rewrite Gd in K1. fold c in K1.
      rewrite checked_R1_status, K1.
      eexists. split; [reflexivity|]. sd_simpl.
      split.
      * intros i Hi. rewrite L2. apply (R2 i Hi).
      * rewrite L5, Gc, Gs. reflexivity.
  - intros H1 H17. unfold Sd.readSector.
    destruct (get_stream_callback_fields dst 512 s)
      as (Gd & Gm & _ & Gc & _ & _ & Gs & _).
    destruct (Sd.get_stream_callback dst 512 s) as [cb s0].
    cbn [fst snd] in Gd, Gm, Gc, Gs |- *.
    rewrite checked_R1_status, Gd, H16. cbn [status_eqb negb].
    rewrite checked_rx_start_eq. sd_simpl. rewrite Gd, Gm.
    rewrite checked_R1_status. sd_simpl. rewrite Gd. fold c.
    change (S c) with (1 + c)%nat. rewrite H17. cbn [status_eqb negb].
    rewrite H1 in R1, R2.
    match goal with
    | |- context [Sd.poll_loop Session.rx_tick cb (ts ++ more) ?s3] =>
        destruct (poll_loop_expected Session.rx_tick cb _ more
                    (expected_final_not_busy ts) ts 0 s3 Hne)
          as (s4 & L1 & L2 & L3 & L4 & L5)
    end.
    + sd_simpl. exact R1.
    + rewrite L1. sd_simpl.
      eexists. split; [|split; [|split]].
      * unfold Sd.result. rewrite L3. fold good. destruct good; reflexivity.
      * unfold Sd.errorCode. rewrite L3. reflexivity.
      * intros i Hi. rewrite L2. apply (R2 i Hi).
      * rewrite L5, Gc, Gs. reflexivity.
Qed.

Lemma read_functions_deliver_blocks_witness :
  1 <= 1 <= Xfer.SDIO_MAX_BLOCKS /\
  Z.of_nat (length [Session.block_tick (repeat 0 128) 0 0 5]) = 1 /\
  forallb (Delivery.carries_block
             (Card.ce_millis (Sd.answering [16; Sd.CMD17])
                (Card.clock_reads (Sd.drv Sd.fresh))))
    [Session.block_tick (repeat 0 128) 0 0 5] = true /\
  0 mod 4 = 0 /\
  Sd.reply_status (Sd.answering [16; Sd.CMD17]) 16
    (Card.commands_sent (Sd.drv Sd.fresh)) = SDIO_OK /\
  exists s',
    Sd.readSector (Sd.answering [16; Sd.CMD17]) false
      ([Session.block_tick (repeat 0 128) 0 0 5] ++ []) 0 0 Sd.fresh =
    Some (forallb Delivery.block_good [Session.block_tick (repeat 0 128) 0 0 5], s').
Proof.
  assert (H1 : 1 <= 1 <= Xfer.SDIO_MAX_BLOCKS) by (unfold Xfer.SDIO_MAX_BLOCKS; lia).
  assert (H2 : Z.of_nat (length [Session.block_tick (repeat 0 128) 0 0 5]) = 1)
    by reflexivity.
  assert (H3 : forallb (Delivery.carries_block
                          (Card.ce_millis (Sd.answering [16; Sd.CMD17])
                             (Card.clock_reads (Sd.drv Sd.fresh))))
                 [Session.block_tick (repeat 0 128) 0 0 5] = true)
    by (vm_compute; reflexivity).
  assert (H4 : 0 mod 4 = 0) by reflexivity.
  assert (H5 : Sd.reply_status (Sd.answering [16; Sd.CMD17]) 16
                 (Card.commands_sent (Sd.drv Sd.fresh)) = SDIO_OK)
    by (vm_compute; reflexivity).
  split; [exact H1|]. split; [exact H2|]. split; [exact H3|].
  split; [exact H4|]. split; [exact H5|].
  pose proof (read_functions_deliver_blocks (Sd.answering [16; Sd.CMD17]) false
                [Session.block_tick (repeat 0 128) 0 0 5] [] 0 0 1 Sd.fresh
                H1 H2 H3 H4 H5) as P.
  cbv zeta beta in P. destruct P as [_ P].
  destruct P as (s' & P1 & _).
  - reflexivity.
  - vm_compute. reflexivity.
  - exists s'. exact P1.
Defined.

Section Stream_position.
Import Cmd Xfer Session Card Sd.

(** The stream variables after a multi-sector transfer are the ones that
    [get_stream_callback] has left, whichever way the transfer ends; and it
    ends if some poll is made more than 1000 ms after the start. *)
Lemma readSectors_returns (e : card_env) (va : bool) (ts : list tick) (sector buf n : Z)
    (s : card) :
  1 <= n <= SDIO_MAX_BLOCKS ->
  existsb (late (ce_millis e (clock_reads (drv s)))) ts = true ->
  exists b s',
    readSectors e va ts sector buf n s = Some (b, s') /\
    same_stream (snd (get_stream_callback buf (wrap32 (n * 512)) s)) s'.
Proof.
  intros Hn Hlate. unfold readSectors.
  destruct (get_stream_callback_fields buf (wrap32 (n * 512)) s) as (Gd & Gm & _).
  destruct (get_stream_callback buf (wrap32 (n * 512)) s) as [cb s0].
  cbn [fst snd] in Gd, Gm |- *.
  rewrite checked_R1_status.
  destruct (status_eqb (reply_status e 16 _) SDIO_OK); cbn [negb];
    [|eexists; eexists; split; [reflexivity|]; unfold same_stream; sd_simpl; repeat split].
  rewrite checked_rx_start_eq. sd_simpl. rewrite Gd, Gm.
  rewrite checked_R1_status. sd_simpl.
  destruct (status_eqb (reply_status e CMD18 _) SDIO_OK); cbn [negb];
    [|eexists; eexists; split; [reflexivity|]; unfold same_stream; sd_simpl; repeat split].
  match goal with
  | |- context [poll_loop rx_tick cb ts ?s3] =>
      destruct (rx_poll_loop_ends n (checksum_logs (sdio s)) cb ts s3)
        as (s4 & Hloop & _)
  end.
  - sd_simpl. apply rx_start_inv, Hn.
  - sd_simpl. rewrite rx_start_time. exact Hlate.
  - rewrite Hloop. rewrite checked_R1_status.
    destruct (poll_loop_keeps _ _ _ _ _ Hloop) as [K _].
    eexists; eexists; split; [reflexivity|].
    unfold polls_only, same_stream in *. sd_simpl.
    destruct K as (_ & _ & _ & _ & _ & K6 & K7 & K8 & K9 & _). auto.
Qed.

Lemma writeSectors_returns (e : card_env) (va : bool) (ts : list tick) (sector buf n : Z)
    (s : card) :
  1 <= n <= SDIO_MAX_BLOCKS ->
  existsb (late (ce_millis e (clock_reads (drv s)))) ts = true ->
  exists b s',
    writeSectors e va ts sector buf n s = Some (b, s') /\
    same_stream (snd (get_stream_callback buf 512 s)) s'.
Proof.
  intros Hn Hlate. unfold writeSectors.
  destruct (get_stream_callback_fields buf 512 s) as (Gd & Gm & _).
  destruct (get_stream_callback buf 512 s) as [cb s0].
  cbn [fst snd] in Gd, Gm |- *.
  rewrite checked_R1_status.
  destruct (status_eqb (reply_status e 16 _) SDIO_OK); cbn [negb];
    [|eexists; eexists; split; [reflexivity|]; unfold same_stream; sd_simpl; repeat split].
  rewrite checked_R1_status. sd_simpl.
  destruct (status_eqb (reply_status e CMD55 _) SDIO_OK); cbn [negb];
    [|eexists; eexists; split; [reflexivity|]; unfold same_stream; sd_simpl; repeat split].
  rewrite checked_R1_status. sd_simpl.
  destruct (status_eqb (reply_status e ACMD23 _) SDIO_OK); cbn [negb];
    [|eexists; eexists; split; [reflexivity|]; unfold same_stream; sd_simpl; repeat split].
  rewrite checked_R1_status. sd_simpl.
  destruct (status_eqb (reply_status e CMD25 _) SDIO_OK); cbn [negb];
    [|eexists; eexists; split; [reflexivity|]; unfold same_stream; sd_simpl; repeat split].
  rewrite checked_tx_start_eq. sd_simpl. rewrite Gd, Gm.
  match goal with
  | |- context [poll_loop tx_tick cb ts ?s3] =>
      destruct (tx_poll_loop_ends n cb ts s3) as (s4 & Hloop & _)
  end.
  - sd_simpl. apply tx_start_inv, Hn.
  - sd_simpl. rewrite tx_start_time. exact Hlate.
  - rewrite Hloop. rewrite checked_R1_status.
    destruct (poll_loop_keeps _ _ _ _ _ Hloop) as [K _].
    eexists; eexists; split; [reflexivity|].
    unfold polls_only, same_stream in *. sd_simpl.
    destruct K as (_ & _ & _ & _ & _ & K6 & K7 & K8 & K9 & _). auto.
Qed.

Lemma wrap32_add_l (a b : Z) : wrap32 (wrap32 a + b) = wrap32 (a + b).
Proof. unfold wrap32. apply Zplus_mod_idemp_l. Qed.

Lemma wrap32_add_r (a b : Z) : wrap32 (a + wrap32 b) = wrap32 (a + b).
Proof. unfold wrap32. apply Zplus_mod_idemp_r. Qed.

Lemma wrap32_apart (a d : Z) : 0 < d < 2 ^ 32 -> wrap32 (a + d) <> wrap32 a.
Proof.
  unfold wrap32. intros Hd E.
  assert (H : (a + d - a) mod 2 ^ 32 = 0).
  { rewrite Zminus_mod, E, Z.sub_diag. reflexivity. }
  replace (a + d - a) with d in H by lia.
  rewrite Z.mod_small in H by lia. lia.
Qed.

End Stream_position.

(** The stream position after a multi-sector transfer that starts at the
    stream position: [readSectors] advances it by the [n * 512] bytes it
    transfers, so that a transfer which continues where this one ended
    still gets the progress callback; [writeSectors] advances it by 512
    whatever [n] is, so that after two sectors or more the transfer that
    continues where this one ended gets no callback. *)
Theorem stream_position_after_multi_sector_transfer
    (e : Card.card_env) (va : bool) (ts : list Session.tick) (sector buf n : Z)
    (s : Sd.card) (f : nat)
    (Hn : 2 <= n <= Xfer.SDIO_MAX_BLOCKS)
    (Hlate : existsb (Sd.late (Card.ce_millis e (Card.clock_reads (Sd.drv s)))) ts = true)
    (Hcb : Sd.m_stream_callback s = Some f)
    (Hpos : buf = wrap32 (Sd.m_stream_buffer s + Sd.m_stream_count s)) :
  let next := wrap32 (buf + n * 512) in
  (exists b s',
     Sd.readSectors e va ts sector buf n s = Some (b, s') /\
     Sd.m_stream_count s' = wrap32 (Sd.m_stream_count s + n * 512) /\
     forall count, fst (Sd.get_stream_callback next count s') = Some f) /\
  (exists b s',
     Sd.writeSectors e va ts sector buf n s = Some (b, s') /\
     Sd.m_stream_count s' = wrap32 (Sd.m_stream_count s + 512) /\
     forall count, fst (Sd.get_stream_callback next count s') = None).
Proof.
  intros next. unfold Xfer.SDIO_MAX_BLOCKS in Hn.
  assert (Hn1 : 1 <= n <= Xfer.SDIO_MAX_BLOCKS) by (unfold Xfer.SDIO_MAX_BLOCKS; lia).
  split.
  - destruct (readSectors_returns e va ts sector buf n s Hn1 Hlate) as (b & s' & Hr & Hs).
    exists b, s'. split; [exact Hr|].
    destruct (get_stream_callback_fields buf (wrap32 (n * 512)) s)
      as (_ & _ & _ & _ & G5 & G6 & _ & _ & G9).
    rewrite Hcb, <- Hpos, Z.eqb_refl in G9. injection G9 as _ G9.
    destruct Hs as (S1 & S2 & S3 & _).
    rewrite G5, Hcb in S1. rewrite G6 in S2. rewrite G9, wrap32_add_r in S3.
    split; [exact S3|].
    intros count.
    destruct (get_stream_callback_fields next count s') as (_ & _ & _ & _ & _ & _ & _ & _ & N9).
    rewrite S1, S2, S3 in N9.
    replace (next =? wrap32 (Sd.m_stream_buffer s + wrap32 (Sd.m_stream_count s + n * 512)))
      with true in N9.
    + injection N9 as N9 _. exact N9.
    + symmetry. apply Z.eqb_eq. subst next. rewrite Hpos.
      rewrite wrap32_add_l, wrap32_add_r. f_equal. lia.
  - destruct (writeSectors_returns e va ts sector buf n s Hn1 Hlate) as (b & s' & Hr & Hs).
    exists b, s'. split; [exact Hr|].
    destruct (get_stream_callback_fields buf 512 s)
      as (_ & _ & _ & _ & G5 & G6 & _ & _ & G9).
    rewrite Hcb, <- Hpos, Z.eqb_refl in G9. injection G9 as _ G9.
    destruct Hs as (S1 & S2 & S3 & _).
    rewrite G5, Hcb in S1. rewrite G6 in S2. rewrite G9 in S3.
    split; [exact S3|].
    intros count.
    destruct (get_stream_callback_fields next count s') as (_ & _ & _ & _ & _ & _ & _ & _ & N9).
    rewrite S1, S2, S3 in N9.
    replace (next =? wrap32 (Sd.m_stream_buffer s + wrap32 (Sd.m_stream_count s + 512)))
      with false in N9.
    + injection N9 as N9 _. exact N9.
    + symmetry. apply Z.eqb_neq. subst next. rewrite Hpos.
      rewrite wrap32_add_l, wrap32_add_r.
      replace (Sd.m_stream_buffer s + Sd.m_stream_count s + n * 512)
        with (Sd.m_stream_buffer s + (Sd.m_stream_count s + 512) + (n - 1) * 512) by lia.
      apply wrap32_apart. lia.
Qed.

Lemma stream_position_after_multi_sector_transfer_witness :
  2 <= 2 <= Xfer.SDIO_MAX_BLOCKS /\
  existsb (Sd.late (Card.ce_millis (Sd.answering [])
                      (Card.clock_reads
                         (Sd.drv (Sd.azplatform_set_sd_callback (Some 7%nat) 0 Sd.fresh)))))
    [Session.quiet_tick 2000] = true /\
  Sd.m_stream_callback (Sd.azplatform_set_sd_callback (Some 7%nat) 0 Sd.fresh) = Some 7%nat /\
  0 = wrap32 (Sd.m_stream_buffer (Sd.azplatform_set_sd_callback (Some 7%nat) 0 Sd.fresh) +
              Sd.m_stream_count (Sd.azplatform_set_sd_callback (Some 7%nat) 0 Sd.fresh)) /\
  exists b s',
    Sd.writeSectors (Sd.answering []) false [Session.quiet_tick 2000] 0 0 2
      (Sd.azplatform_set_sd_callback (Some 7%nat) 0 Sd.fresh) = Some (b, s') /\
    Sd.m_stream_count s' =
    wrap32 (Sd.m_stream_count (Sd.azplatform_set_sd_callback (Some 7%nat) 0 Sd.fresh) + 512).
Proof.
  assert (H1 : 2 <= 2 <= Xfer.SDIO_MAX_BLOCKS) by (unfold Xfer.SDIO_MAX_BLOCKS; lia).
  assert (H2 : existsb
                 (Sd.late (Card.ce_millis (Sd.answering [])
                    (Card.clock_reads
                       (Sd.drv (Sd.azplatform_set_sd_callback (Some 7%nat) 0 Sd.fresh)))))
                 [Session.quiet_tick 2000] = true) by (vm_compute; reflexivity).
  assert (H3 : Sd.m_stream_callback (Sd.azplatform_set_sd_callback (Some 7%nat) 0 Sd.fresh) =
               Some 7%nat) by reflexivity.
  assert (H4 : 0 = wrap32 (Sd.m_stream_buffer
                             (Sd.azplatform_set_sd_callback (Some 7%nat) 0 Sd.fresh) +
                           Sd.m_stream_count
                             (Sd.azplatform_set_sd_callback (Some 7%nat) 0 Sd.fresh)))
    by (vm_compute; reflexivity).
  split; [exact H1|]. split; [exact H2|]. split; [exact H3|]. split; [exact H4|].
  pose proof (stream_position_after_multi_sector_transfer (Sd.answering []) false
                [Session.quiet_tick 2000] 0 0 2
                (Sd.azplatform_set_sd_callback (Some 7%nat) 0 Sd.fresh) 7%nat
                H1 H2 H3 H4) as P.
  cbv zeta in P. destruct P as [_ (b & s' & P1 & P2 & _)].
  exists b, s'. split; [exact P1 | exact P2].
Defined.

(** [stopTransmission(true)] computes the end of its wait as
    [millis() + 100] in 32 bits and compares the clock with it as unsigned
    numbers.  When the clock is within 100 ms of wrapping around, the end
    lies below the clock: the loop does not wait at all, and the function
    returns at once, false if the card is busy at that moment.  A refused
    CMD12 makes it return false, and the non-blocking call returns true,
    without reading the clock or the busy line. *)
Theorem stop_transmission_does_not_wait_near_clock_wrap
    (e : Card.card_env) (busy : nat -> bool) (fuel : nat) (s : Sd.card) :
  let c := Card.commands_sent (Sd.drv s) in
  let k := Card.clock_reads (Sd.drv s) in
  let sent := Sd.after_command (Sd.reply_status e Sd.CMD12 c) s in
  (Sd.reply_status e Sd.CMD12 c <> SDIO_OK ->
   forall blocking,
     Sd.stopTransmission e busy fuel blocking s = Some (false, sent)) /\
  (Sd.reply_status e Sd.CMD12 c = SDIO_OK ->
   Sd.stopTransmission e busy fuel false s = Some (true, sent)) /\
  (Sd.reply_status e Sd.CMD12 c = SDIO_OK ->
   2 ^ 32 - 100 <= Card.ce_millis e k < 2 ^ 32 ->
   Card.ce_millis e k <= Card.ce_millis e (S k) < 2 ^ 32 ->
   exists s',
     Sd.stopTransmission e busy (S fuel) true s = Some (negb (busy (Sd.busy_reads s)), s') /\
     Card.clock_reads (Sd.drv s') = S (S k) /\
     Sd.busy_reads s' = S (Sd.busy_reads s)).
Proof.
  intros c k sent. subst sent c k.
  split; [|split].
  - intros Hno blocking. unfold Sd.stopTransmission.
    rewrite checked_R1_status.
    destruct (status_eqb_spec (Sd.reply_status e Sd.CMD12 (Card.commands_sent (Sd.drv s)))
                SDIO_OK); [contradiction|].
    reflexivity.
  - intros Hok. unfold Sd.stopTransmission.
    rewrite checked_R1_status, Hok. reflexivity.
  - intros Hok H0 H1. unfold Sd.stopTransmission.
    rewrite checked_R1_status, Hok. cbn [status_eqb negb].
    destruct s as [d m cb buf cnt st br calls]. destruct d as [cs cr ocr rca cid err].
    unfold Sd.lift, Card.millis, Sd.after_command. sd_simpl.
    cbn [Sd.wait_not_busy]. unfold Sd.lift, Card.millis. sd_simpl.
    assert (Hend : wrap32 (Card.ce_millis e cr + 100) = Card.ce_millis e cr + 100 - 2 ^ 32).
    { unfold wrap32. symmetry. apply (Z.mod_unique _ _ 1); lia. }
    rewrite Hend.
    destruct (Z.ltb_spec (Card.ce_millis e (S cr)) (Card.ce_millis e cr + 100 - 2 ^ 32));
      [lia|].
    unfold Sd.isBusy. sd_simpl. cbn [Sd.set_busy_reads Sd.busy_reads Sd.drv].
    eexists. split; [reflexivity|]. split; reflexivity.
Qed.

Lemma stop_transmission_does_not_wait_near_clock_wrap_witness :
  exists s',
    Sd.stopTransmission
      {| Card.ce_reply := fun _ => Card.r1_reply Sd.CMD12 0x900;
         Card.ce_millis := fun _ => 2 ^ 32 - 50 |}
      (fun _ => true) 1 true Sd.fresh = Some (false, s').
Proof.
  pose proof (stop_transmission_does_not_wait_near_clock_wrap
                {| Card.ce_reply := fun _ => Card.r1_reply Sd.CMD12 0x900;
                   Card.ce_millis := fun _ => 2 ^ 32 - 50 |}
                (fun _ => true) 0 Sd.fresh) as P.
  cbv zeta in P. destruct P as (_ & _ & P).
  destruct P as (s' & P1 & _).
  - vm_compute. reflexivity.
  - cbn. lia.
  - cbn. lia.
  - exists s'. exact P1.
Defined.

(** ** The state that [begin] leaves *)

Section Begin_state.
Import Cmd Card.

Ltac card_step :=
  cbv beta iota zeta delta
    [bind ret command_R1 command_R2 command_R3 next_reply millis checkReturnOk
     set_error set_ocr set_rca set_cid get_ocr get_rca];
  cbn [fst snd commands_sent clock_reads g_sdio_ocr g_sdio_rca g_sdio_cid g_sdio_error].

Ltac card_step_in H :=
  cbv beta iota zeta delta
    [bind ret command_R1 command_R2 command_R3 next_reply millis checkReturnOk
     set_error set_ocr set_rca set_cid get_ocr get_rca] in H;
  cbn [fst snd commands_sent clock_reads g_sdio_ocr g_sdio_rca g_sdio_cid g_sdio_error] in H.

Lemma status_eqb_true (a b : sdio_status_t) : status_eqb a b = true -> a = b.
Proof. destruct (status_eqb_spec a b); [auto | discriminate]. Qed.

Lemma acmd41_loop_ready (e : card_env) (start : Z) (fuel : nat) :
  forall s s', acmd41_loop e fuel start s = (Some true, s') ->
  Z.testbit (g_sdio_ocr s') 31 = true /\ g_sdio_error s' = SDIO_OK.
Proof.
  induction fuel as [|fuel IH]; intros s s' H.
  - cbn in H. discriminate.
  - cbn [acmd41_loop] in H. card_step_in H.
    destruct (status_eqb_spec (fst (rp2040_sdio_command_R1 CMD55 0 true
                                      (ce_reply e (commands_sent s)))) SDIO_OK) as [E55|E55];
      cbn [negb] in H; [|discriminate].
    card_step_in H.
    destruct (command_R3_shape ACMD41 0xD0040000 (ce_reply e (S (commands_sent s))))
      as [[v Hv]|Hv]; rewrite Hv in H; card_step_in H; cbn [status_eqb negb] in H;
      card_step_in H; [|discriminate].
    destruct (wrap32 (ce_millis e (clock_reads s) - start) >? 1000); [discriminate|].
    card_step_in H.
    destruct (Z.eqb_spec (Z.land v (Z.shiftl 1 31)) 0) as [Ez|Enz]; cbn [negb] in H.
    + apply (IH _ _ H).
    + injection H as <-. cbn [g_sdio_ocr g_sdio_error].
      split; [|reflexivity].
      rewrite <- ocr_bit31.
      destruct (Z.eqb_spec (Z.land v (Z.shiftl 1 31)) 0); [contradiction | reflexivity].
Qed.

Lemma select_card_done (e : card_env) (s s' : driver) :
  select_card e s = (true, s') ->
  g_sdio_error s' = SDIO_OK /\ g_sdio_ocr s' = g_sdio_ocr s.
Proof.
  unfold select_card. card_step.
  destruct (status_eqb (fst (rp2040_sdio_command_R2 CMD2 0 _)) SDIO_OK);
    destruct (snd (rp2040_sdio_command_R2 CMD2 0 _)); card_step; cbn [negb];
    try discriminate;
  (destruct (status_eqb (fst (rp2040_sdio_command_R1 CMD3 0 true _)) SDIO_OK);
    destruct (snd (rp2040_sdio_command_R1 CMD3 0 true _)); card_step; cbn [negb];
    try discriminate;
   (destruct (status_eqb (fst (rp2040_sdio_command_R1 CMD7 _ true _)) SDIO_OK);
    card_step; cbn [negb]; try discriminate;
    (destruct (status_eqb (fst (rp2040_sdio_command_R1 CMD55 _ true _)) SDIO_OK);
     card_step; cbn [negb]; try discriminate;
     destruct (status_eqb (fst (rp2040_sdio_command_R1 ACMD6 2 true _)) SDIO_OK) eqn:E;
     cbn [negb]; card_step; try discriminate;
     intros H; injection H as <-; cbn [g_sdio_error g_sdio_ocr]; split;
       [apply status_eqb_true; exact E | reflexivity]))).
Qed.

Lemma begin_done (e : card_env) (fuel : nat) (s : driver) :
  fst (begin e fuel s) = Some true ->
  g_sdio_error (snd (begin e fuel s)) = SDIO_OK /\
  Z.testbit (g_sdio_ocr (snd (begin e fuel s))) 31 = true.
Proof.
  destruct (begin e fuel s) as [r sf] eqn:Hb. cbn [fst snd]. intros ->.
  unfold begin in Hb. unfold bind at 1 in Hb.
  destruct (connect_loop e 5 0 SDIO_OK s) as [[reply status] s1]. cbn [fst snd] in Hb.
  destruct (negb (reply =? 426) || negb (status_eqb status SDIO_OK));
    [cbn in Hb; discriminate|].
  unfold bind at 1 in Hb. destruct (millis e s1) as [start s2].
  unfold bind at 1 in Hb.
  destruct (acmd41_loop e fuel start s2) as [[[|]|] s3] eqn:Hloop;
    try (cbn in Hb; discriminate).
  unfold bind at 1 in Hb. destruct (select_card e s3) as [ok s4] eqn:Hsel.
  cbn [ret] in Hb. injection Hb as -> ->.
  destruct (acmd41_loop_ready e start fuel s2 s3 Hloop) as [Hbit _].
  destruct (select_card_done e s3 sf Hsel) as [Herr Hocr].
  split; [exact Herr|]. rewrite Hocr. exact Hbit.
Qed.

End Begin_state.

(** What [begin] leaves behind.  When it returns true, [g_sdio_error] is
    [SDIO_OK] and the OCR it stored has the power-up bit (bit 31) set.  When
    it gives up because no CMD8 exchange succeeded, it returns false without
    having recorded anything: [g_sdio_error] (what [errorCode()] reports) and
    the stored registers are what they were before the call. *)
Theorem begin_result_and_error_code (e : Card.card_env) (fuel : nat) (s : Card.driver) :
  (fst (Card.begin e fuel s) = Some true ->
   Card.g_sdio_error (snd (Card.begin e fuel s)) = SDIO_OK /\
   Z.testbit (Card.g_sdio_ocr (snd (Card.begin e fuel s))) 31 = true) /\
  ((forall i, (i < 5)%nat ->
      Card.cmd8_accepts (Card.ce_reply e (Card.commands_sent s + 2 * i + 1)) = false) ->
   fst (Card.begin e fuel s) = Some false /\
   Card.g_sdio_error (snd (Card.begin e fuel s)) = Card.g_sdio_error s /\
   Card.g_sdio_ocr (snd (Card.begin e fuel s)) = Card.g_sdio_ocr s /\
   Card.g_sdio_rca (snd (Card.begin e fuel s)) = Card.g_sdio_rca s /\
   Card.g_sdio_cid (snd (Card.begin e fuel s)) = Card.g_sdio_cid s).
Proof.
  split.
  - apply begin_done.
  - intros Hall. rewrite (begin_gives_up e fuel s Hall). cbn. repeat split.
Qed.

(** ** Assertions and timeouts *)

(** The conditions that the two block starters assert, over whole sessions.
    In a receive session the condition of [sdio_start_next_block_rx]
    ([blocks_done < total_blocks]) holds whenever the session is in the
    receiving state.  In a transmit session the condition of
    [sdio_start_next_block_tx] (which also wants
    [blocks_checksumed > blocks_done]) holds in no state at all, the one in
    which [rp2040_sdio_tx_start] calls the function included: no block is
    ever counted as checksummed. *)
Theorem block_start_assertions_over_sessions
    (buffer n now : Z) (va : bool) (m0 : Xfer.machine) (ts : list Session.tick)
    (Hn : 1 <= n <= Xfer.SDIO_MAX_BLOCKS) :
  let mr := snd (Session.rx_run ts (snd (Xfer.rp2040_sdio_rx_start buffer n now va m0))) in
  let mt := snd (Session.tx_run ts (snd (Xfer.rp2040_sdio_tx_start buffer n now va m0))) in
  (Xfer.transfer_state mr = Xfer.SDIO_RX ->
   Xfer.sdio_start_next_block_rx_assert mr = true) /\
  Xfer.sdio_start_next_block_tx_assert mt = false.
Proof.
  intros mr mt. split.
  - intros Hrx.
    pose proof (rx_run_inv n (Session.checksum_logs m0) ts _
                  (rx_start_inv buffer n now va m0 Hn)) as Hinv.
    fold mr in Hinv.
    destruct (Session.ri_rx n _ mr Hinv Hrx) as [Hlt _].
    unfold Xfer.sdio_start_next_block_rx_assert.
    rewrite (Session.ri_total n _ mr Hinv). lia.
  - destruct (tx_start_fields buffer n now va m0) as (_ & _ & _ & _ & _ & _ & Hbc & _).
    destruct (tx_run_inv n ts _ (tx_start_inv buffer n now va m0 Hn)) as (Hinv & Hbc' & _).
    fold mt in Hinv, Hbc'.
    unfold Xfer.sdio_start_next_block_tx_assert.
    rewrite Hbc', Hbc.
    pose proof (Session.ti_done n mt Hinv) as Hd.
    destruct (Z.gtb_spec 0 (Xfer.blocks_done mt)); [lia|].
    apply andb_false_r.
Qed.

Lemma block_start_assertions_over_sessions_witness :
  1 <= 2 <= Xfer.SDIO_MAX_BLOCKS /\
  Xfer.sdio_start_next_block_tx_assert
    (snd (Session.tx_run [Session.block_tick [] 0 0 1] (Session.tx_armed 2 false))) = false.
Proof.
  unfold Session.tx_armed.
  assert (H : 1 <= 2 <= Xfer.SDIO_MAX_BLOCKS) by (unfold Xfer.SDIO_MAX_BLOCKS; lia).
  split; [exact H|].
  exact (proj2 (block_start_assertions_over_sessions 0 2 0 false Session.blank_machine
                  [Session.block_tick [] 0 0 1] H)).
Defined.

(** * Sessions as interleavings of DMA completions and polls *)

Section Event_facts.
Import CRC Xfer Session Events.

(** The rest of a poll reads the clock only. *)
Lemma rx_finish_reads (env env' : poll_env) (wb : bool) (m : machine) :
  pe_millis env = pe_millis env' ->
  rx_poll_finish env wb m = rx_poll_finish env' wb m.
Proof. intros H. unfold rx_poll_finish. rewrite H. reflexivity. Qed.

Lemma tx_finish_reads (env env' : poll_env) (wb : bool) (m : machine) :
  pe_millis env = pe_millis env' ->
  tx_poll_finish env wb m = tx_poll_finish env' wb m.
Proof. intros H. unfold tx_poll_finish. rewrite H. reflexivity. Qed.

(** The polls of this model are the poll functions, given the flag and the
    state machine's words as their readings; a handler dispatched by
    [rp2040_sdio_rx_poll] clears the flag, one dispatched by
    [rp2040_sdio_tx_poll] leaves it set. *)
Lemma rx_poll_source (now : Z) (s : hw) :
  let r := rp2040_sdio_rx_poll (poll_reads now s) true (hw_g s) in
  Events.rx_poll now s =
  (pr_status r, pr_bytes r,
   {| hw_g := pr_machine r;
      hw_ints := if inside_irq_handler (hw_g s) && hw_ints s then false else hw_ints s;
      hw_sm := hw_sm s |}).
Proof.
  unfold Events.rx_poll, rp2040_sdio_rx_poll, rx_dispatch, rx_poll_dispatch.
  cbn [pe_ints0 pe_handler poll_reads].
  destruct (inside_irq_handler (hw_g s) && hw_ints s); cbn zeta.
  - unfold rx_irq, with_machine, acknowledge. cbn [hw_g hw_ints hw_sm].
    rewrite (rx_finish_reads _ (poll_reads now s)) by reflexivity. reflexivity.
  - reflexivity.
Qed.

Lemma tx_poll_source (now : Z) (s : hw) :
  let r := rp2040_sdio_tx_poll (poll_reads now s) true (hw_g s) in
  Events.tx_poll now s =
  (pr_status r, pr_bytes r,
   {| hw_g := pr_machine r; hw_ints := hw_ints s; hw_sm := hw_sm s |}).
Proof.
  unfold Events.tx_poll, rp2040_sdio_tx_poll, tx_dispatch, tx_poll_dispatch.
  cbn [pe_ints0 pe_handler poll_reads].
  destruct (inside_irq_handler (hw_g s) && hw_ints s); cbn zeta.
  - unfold tx_irq, with_machine. cbn [hw_g hw_ints hw_sm].
    rewrite (tx_finish_reads _ (poll_reads now s)) by reflexivity. reflexivity.
  - reflexivity.
Qed.

(** The interrupt handler of this model is [rp2040_sdio_dma_irq] on the
    machine, and it clears the flag. *)
Lemma dma_irq_source (s : hw) :
  Events.dma_irq s =
  {| hw_g := rp2040_sdio_dma_irq (hw_sm s) (hw_g s); hw_ints := false; hw_sm := hw_sm s |}.
Proof.
  unfold Events.dma_irq, rp2040_sdio_dma_irq, tx_irq, rx_irq, with_machine, acknowledge.
  cbn [hw_g hw_ints hw_sm]. destruct (transfer_state (hw_g s)); reflexivity.
Qed.

Lemma run_poll (d : direction) (now : Z) (es : list event) (s : hw) :
  run d (POLL now :: es) s =
  ((fst (fst (poll_in d now s)), snd (fst (poll_in d now s)), hw_g (snd (poll_in d now s)))
     :: fst (run d es (snd (poll_in d now s))),
   snd (run d es (snd (poll_in d now s)))).
Proof.
  cbn [run]. destruct (poll_in d now s) as [[st b] s1]. cbn [fst snd].
  destruct (run d es s1). reflexivity.
Qed.

Lemma run_poll_last (d : direction) (now : Z) (s : hw) :
  run d [POLL now] s =
  ([(fst (fst (poll_in d now s)), snd (fst (poll_in d now s)), hw_g (snd (poll_in d now s)))],
   snd (poll_in d now s)).
Proof. rewrite run_poll. reflexivity. Qed.

(** *** Receive sessions *)

Lemma rx_finish_keeps_inside (env : poll_env) (m : machine) :
  inside_irq_handler (pr_machine (rx_poll_finish env true m)) = inside_irq_handler m.
Proof.
  assert (E : set_inside_irq_handler (inside_irq_handler m) m = m)
    by (destruct m; reflexivity).
  pose proof (flag_rx_finish (inside_irq_handler m) env true m) as H.
  rewrite E in H. rewrite H at 1. reflexivity.
Qed.

Lemma rx_finish_inv (n : Z) (base : nat) (env : poll_env) (m : machine) :
  rx_inv n base m -> rx_inv n base (pr_machine (rx_poll_finish env true m)).
Proof.
  intros I. destruct (ri_state _ _ _ I) as [Hs|Hs].
  - destruct (Z_le_gt_dec (wrap32 (pe_millis env - transfer_start_time m)) 1000) as [Hl|Hl].
    + apply (rx_finish_busy n base env m I Hs Hl).
    + apply (rx_finish_timeout n base env m I Hs Hl).
  - apply (rx_finish_idle n base env m I Hs).
Qed.

(** A block that has arrived and awaits its handler leaves the blocks
    already verified, the error counter and the log as they were. *)
Lemma rx_arrived_counts (n : Z) (base : nat) (data : list Z) (m : machine) :
  rx_inv n base m -> transfer_state m = SDIO_RX ->
  let m' := dma_complete data m in
  checksum_errors m' = mismatches m' (Z.to_nat (blocks_checksumed m')) /\
  checksum_logs m' = (base + if (checksum_errors m' =? 0)%Z then 0 else 1)%nat /\
  transfer_state m' = SDIO_RX /\
  inside_irq_handler m' = inside_irq_handler m /\
  dma m' = DMA_IDLE.
Proof.
  intros I Hrx m'.
  destruct (ri_rx _ _ _ I Hrx) as [Hlt Hdma].
  pose proof (ri_checksumed _ _ _ I) as Hc.
  pose proof (ri_errors _ _ _ I) as He.
  pose proof (ri_logs _ _ _ I) as Hl.
  assert (E : m' = set_dma DMA_IDLE
                     (set_ram (store_block (ram m) (data_buf m + 128 * blocks_done m) 128
                                 (map bswap32 data)) m)).
  { unfold m', dma_complete. rewrite Hdma. reflexivity. }
  assert (Hok : forall i, 0 <= i < blocks_done m -> block_ok m' i = block_ok m i).
  { intros i Hi. unfold block_ok. rewrite E. cbn [ram data_buf block_checksums set_dma set_ram].
    unfold sdio_crc16_4bit_checksum. rewrite load_store_other; [reflexivity|].
    left. change (Z.of_nat (Z.to_nat 128)) with 128. lia. }
  assert (F1 : checksum_errors m' = checksum_errors m) by (rewrite E; reflexivity).
  assert (F2 : blocks_checksumed m' = blocks_checksumed m) by (rewrite E; reflexivity).
  assert (F3 : checksum_logs m' = checksum_logs m) by (rewrite E; reflexivity).
  split.
  { rewrite F1, F2, He. symmetry. apply mismatches_ext. intros i Hi. apply Hok. lia. }
  split; [rewrite F3, F1; exact Hl|].
  split; [rewrite E; exact Hrx|].
  split; rewrite E; reflexivity.
Qed.

(** The dispatch of a receive poll leaves no completion unhandled. *)
Lemma rx_dispatch_inv (n : Z) (base : nat) (s : hw) :
  rx_hw_inv n base s ->
  rx_inv n base (hw_g (rx_dispatch s)) /\
  (inside_irq_handler (hw_g (rx_dispatch s)) = true -> hw_ints (rx_dispatch s) = false) /\
  hw_sm (rx_dispatch s) = hw_sm s.
Proof.
  intros [[Hf I]|[Hf (m & data & I & Hrx & Hin & Hg)]]; unfold rx_dispatch.
  - destruct (inside_irq_handler (hw_g s)) eqn:Hin;
      [rewrite (Hf eq_refl)|]; cbn [andb]; rewrite ?Hin; auto.
  - destruct (dma_complete_keeps data m) as [_ Hk].
    rewrite Hf, Hg, Hk, Hin. cbn [andb].
    unfold rx_irq, with_machine, acknowledge. cbn [hw_g hw_ints hw_sm].
    rewrite Hg. split; [|auto].
    apply (rx_irq_inv n base (hw_sm s) data m I Hrx).
Qed.

Lemma rx_poll_inv (n : Z) (base : nat) (now : Z) (s : hw) :
  rx_hw_inv n base s -> rx_hw_inv n base (snd (Events.rx_poll now s)).
Proof.
  intros H. destruct (rx_dispatch_inv n base s H) as (I & Hf & _).
  unfold Events.rx_poll. cbn [snd]. left. unfold with_machine. cbn [hw_g hw_ints].
  split; [|apply rx_finish_inv; exact I].
  rewrite rx_finish_keeps_inside. exact Hf.
Qed.

Lemma rx_dma_done_inv (n : Z) (base : nat) (data : list Z) (h : handler_env) (s : hw) :
  rx_hw_inv n base s -> rx_hw_inv n base (dma_done data h s).
Proof.
  intros H. unfold dma_done.
  destruct (dma_channel_is_busy (dma (hw_g s))) eqn:Hb; [|exact H].
  destruct H as [[Hf I]|[Hf (m & d0 & I & Hrx & Hin & Hg)]].
  - assert (Hrx : transfer_state (hw_g s) = SDIO_RX).
    { destruct (ri_state _ _ _ I) as [Hs|Hs]; [exact Hs|].
      rewrite (ri_idle _ _ _ I Hs) in Hb. discriminate. }
    destruct (dma_complete_keeps data (hw_g s)) as [Hks Hki].
    cbn [hw_g]. rewrite Hki.
    destruct (inside_irq_handler (hw_g s)) eqn:Hin.
    + right. cbn [hw_ints hw_g]. split; [reflexivity|].
      exists (hw_g s), data. auto.
    + left. rewrite dma_irq_source. cbn [hw_g hw_ints hw_sm].
      split; [reflexivity|].
      unfold rp2040_sdio_dma_irq. rewrite Hks, Hrx.
      apply (rx_irq_inv n base h data (hw_g s) I Hrx).
  - destruct (rx_arrived_counts n base d0 m I Hrx) as (_ & _ & _ & _ & Hd).
    rewrite Hg, Hd in Hb. discriminate.
Qed.

Lemma rx_events_inv (n : Z) (base : nat) (es : list event) :
  forall s, rx_hw_inv n base s -> rx_hw_inv n base (snd (run DIR_RX es s)).
Proof.
  induction es as [|e es IH]; intros s H; [exact H|].
  destruct e as [data h|now]; cbn [run].
  - apply IH, rx_dma_done_inv, H.
  - pose proof (rx_poll_inv n base now s H) as H1.
    cbn [poll_in]. destruct (Events.rx_poll now s) as [[st b] s1]. cbn [snd] in H1.
    specialize (IH s1 H1). destruct (run DIR_RX es s1) as [out s2]. exact IH.
Qed.


(** The lock-step timelines of [Session] are the event sequences in which
    every completion is followed by a poll: one tick of a receive session
    is its events. *)
Lemma rx_tick_as_events (n : Z) (base : nat) (t : tick) (s : hw) :
  rx_hw_inv n base s -> hw_ints s = false ->
  let r := run DIR_RX (events_of_tick t) s in
  fst r = [rx_tick t (hw_g s)] /\
  hw_g (snd r) = pr_machine (rx_tick t (hw_g s)) /\
  hw_ints (snd r) = false.
Proof.
  intros H Hf r.
  assert (I : rx_inv n base (hw_g s)).
  { destruct H as [[_ I]|[Hf' _]]; [exact I | congruence]. }
  assert (Hpoll : forall s1 : hw,
            hw_ints s1 = false ->
            run DIR_RX [POLL (t_millis t)] s1 =
            ([rx_poll_finish (tick_env (dma_fires t (hw_g s)) t) true (hw_g s1)],
             with_machine
               (pr_machine (rx_poll_finish (tick_env (dma_fires t (hw_g s)) t) true (hw_g s1)))
               s1)).
  { intros s1 Hf1. rewrite run_poll_last.
    assert (Hd : rx_dispatch s1 = s1)
      by (unfold rx_dispatch; rewrite Hf1, andb_false_r; reflexivity).
    cbn [poll_in]. unfold Events.rx_poll. rewrite Hd. cbn [fst snd].
    rewrite (rx_finish_reads _ (tick_env (dma_fires t (hw_g s)) t)) by reflexivity.
    destruct (rx_poll_finish _ true (hw_g s1)) as [[st b] m1]. reflexivity. }
  rewrite (rx_tick_normal n base t (hw_g s) I).
  unfold r, events_of_tick, rx_handled, dma_fires, dma_progress.
  destruct (t_block t) as [data|].
  - change (run DIR_RX [DMA_DONE data (t_handler t); POLL (t_millis t)] s)
      with (run DIR_RX [POLL (t_millis t)] (dma_done data (t_handler t) s)).
    unfold dma_done.
    destruct (dma_channel_is_busy (dma (hw_g s))) eqn:Hb.
    + assert (Hrx : transfer_state (hw_g s) = SDIO_RX).
      { destruct (ri_state _ _ _ I) as [Hs|Hs]; [exact Hs|].
        rewrite (ri_idle _ _ _ I Hs) in Hb. discriminate. }
      destruct (dma_complete_keeps data (hw_g s)) as [Hks Hki].
      cbn [hw_g]. rewrite Hki.
      destruct (inside_irq_handler (hw_g s)) eqn:Hin.
      * rewrite run_poll_last. cbn [poll_in]. unfold Events.rx_poll, rx_dispatch.
        cbn [hw_g hw_ints]. rewrite Hki. cbn [andb].
        unfold rx_irq, with_machine, acknowledge. cbn [hw_g hw_ints hw_sm fst snd].
        rewrite (rx_finish_reads _ (tick_env true t)) by reflexivity.
        destruct (rx_poll_finish _ true _) as [[st b] m1]. auto.
      * rewrite dma_irq_source. cbn [hw_g hw_ints hw_sm].
        unfold rp2040_sdio_dma_irq. rewrite Hks, Hrx.
        rewrite Hpoll by reflexivity. cbn [fst snd with_machine hw_ints hw_g].
        unfold dma_fires. rewrite Hb. auto.
    + rewrite (Hpoll s Hf). cbn [fst snd with_machine hw_ints].
      unfold dma_fires. rewrite Hb. auto.
  - rewrite (Hpoll s Hf). cbn [fst snd with_machine hw_ints]. auto.
Qed.

Lemma run_app (d : direction) (es1 es2 : list event) :
  forall s,
  run d (es1 ++ es2) s =
  (fst (run d es1 s) ++ fst (run d es2 (snd (run d es1 s))),
   snd (run d es2 (snd (run d es1 s)))).
Proof.
  induction es1 as [|e es1 IH]; intros s.
  - cbn [app run fst snd]. destruct (run d es2 s). reflexivity.
  - destruct e as [data h|now].
    + change (run d ((DMA_DONE data h :: es1) ++ es2) s)
        with (run d (es1 ++ es2) (dma_done data h s)).
      change (run d (DMA_DONE data h :: es1) s) with (run d es1 (dma_done data h s)).
      apply IH.
    + change ((POLL now :: es1) ++ es2) with (POLL now :: (es1 ++ es2)).
      rewrite !run_poll, IH. reflexivity.
Qed.

(** A receive session over a lock-step timeline is the session over the
    timeline's events: the same poll results and the same machine. *)
Lemma rx_run_as_events (n : Z) (base : nat) (ts : list tick) :
  forall s, rx_hw_inv n base s -> hw_ints s = false ->
  map fst (fst (run DIR_RX (flat_map events_of_tick ts) s)) = fst (rx_run ts (hw_g s)) /\
  hw_g (snd (run DIR_RX (flat_map events_of_tick ts) s)) = snd (rx_run ts (hw_g s)).
Proof.
  induction ts as [|t ts IH]; intros s H Hf; [split; reflexivity|].
  destruct (rx_tick_as_events n base t s H Hf) as (A & B & C).
  pose proof (rx_events_inv n base (events_of_tick t) s H) as H1.
  specialize (IH _ H1 C). destruct IH as [IH1 IH2].
  cbn [flat_map]. rewrite run_app. cbn [fst snd].
  unfold rx_run in *. rewrite run_cons. cbn [fst snd].
  rewrite map_app, A. cbn [map app].
  rewrite B in IH1, IH2. split; [|exact IH2].
  apply (f_equal2 cons); [|exact IH1].
  destruct (rx_tick t (hw_g s)) as [[st b] m1]. reflexivity.
Qed.





End Event_facts.


(** *** The two modes of a session, event by event *)

Section Event_modes.
Import CRC Xfer Session Events.

Lemma set_flag_twice (v w : bool) (m : machine) :
  set_inside_irq_handler v (set_inside_irq_handler w m) = set_inside_irq_handler v m.
Proof. reflexivity. Qed.











End Event_modes.





(** A two-block receive session in interrupt mode whose blocks both arrive
    before the first poll, the second with a wrong checksum: no block has
    been verified when the poll is made; the poll verifies both and reports
    the error, with all bytes received. *)
Example rx_burst_sample :
  Xfer.blocks_done (Events.hw_g Events.burst_sample) = 2 /\
  Xfer.blocks_checksumed (Events.hw_g Events.burst_sample) = 0 /\
  Xfer.transfer_state (Events.hw_g Events.burst_sample) = Xfer.SDIO_IDLE /\
  fst (Events.rx_poll 5 Events.burst_sample) = (SDIO_ERR_DATA_CRC, Some 1024) /\
  Xfer.blocks_checksumed (Events.hw_g (snd (Events.rx_poll 5 Events.burst_sample))) = 2 /\
  Xfer.checksum_errors (Events.hw_g (snd (Events.rx_poll 5 Events.burst_sample))) = 1.
Proof. vm_compute. repeat split. Qed.
